(** * Record normalisation and validity filtering (src/data_cleaning.py)

    A shallow embedding of the [DataCleaning] class: the cell-level
    cleaners, the row-validity filter, the date and quantity normalisers
    and the dataset pipelines built from them, followed by the properties
    that the specification states about them.

    Conventions of the model.
    - Text is a [string] of 8-bit characters read as ASCII; Python's
      Unicode character classes beyond ASCII are not modelled (a character
      above 127 belongs to no class).
    - pandas' null spellings ([None], [np.nan], [pd.NaT], [pd.NA]) are one
      cell value, [NaN]: they are indistinguishable to [pd.isna].
    - A numeric cell carries the exact rational it denotes; the rounding of
      IEEE doubles is not modelled.
    - A Python exception is a value: a function that can raise returns
      [res A]. *)

From Stdlib Require Import List String Ascii Bool Arith PeanoNat ZArith QArith Lia.
Import ListNotations.

Local Open Scope string_scope.
Local Open Scope list_scope.
Local Open Scope nat_scope.

(* ===================================================================== *)
(** ** Exceptions *)
(* ===================================================================== *)

Inductive exn : Type :=
| TypeError
| ValueError
| AttributeError
| KeyError (label : string)
| OutOfBoundsDatetime.

Inductive res (A : Type) : Type :=
| Ok (a : A)
| Raise (e : exn).

Arguments Ok {A} a.
Arguments Raise {A} e.

Definition bind {A B : Type} (m : res A) (k : A -> res B) : res B :=
  match m with
  | Ok a => k a
  | Raise e => Raise e
  end.

Notation "x <- m ;; k" := (bind m (fun x => k))
  (at level 61, m at next level, right associativity).

(** [try: body  except (classes): handler].  [catches e] tells whether the
    except clause names the class of [e] (or a base class of it). *)
Definition try_except {A : Type} (body : res A) (catches : exn -> bool)
    (handler : res A) : res A :=
  match body with
  | Ok a => Ok a
  | Raise e => if catches e then handler else Raise e
  end.

(** [except Exception] *)
Definition any_exception (_ : exn) : bool := true.

(** [except (TypeError, ValueError)]; pandas' [OutOfBoundsDatetime] derives
    from [ValueError]. *)
Definition type_or_value_error (e : exn) : bool :=
  match e with
  | TypeError | ValueError | OutOfBoundsDatetime => true
  | AttributeError | KeyError _ => false
  end.

Definition is_ok {A : Type} (m : res A) : bool :=
  match m with Ok _ => true | Raise _ => false end.

(* ===================================================================== *)
(** ** Python [str] *)
(* ===================================================================== *)

Module Py.

Definition ord (c : ascii) : nat := nat_of_ascii c.

Definition between (lo hi n : nat) : bool := (lo <=? n) && (n <=? hi).

Definition is_digit (c : ascii) : bool := between 48 57 (ord c).
Definition is_upper (c : ascii) : bool := between 65 90 (ord c).
Definition is_lower (c : ascii) : bool := between 97 122 (ord c).
Definition is_letter (c : ascii) : bool := is_upper c || is_lower c.
Definition is_alnum (c : ascii) : bool := is_letter c || is_digit c.

(** [\w] *)
Definition is_word (c : ascii) : bool := is_alnum c || (ord c =? 95).

(** [\s], and the characters [str.strip()] removes: tab, line feed,
    vertical tab, form feed, carriage return, the four separators
    28..31 and the space. *)
Definition is_space (c : ascii) : bool :=
  between 9 13 (ord c) || between 28 31 (ord c) || (ord c =? 32).

Definition chars (s : string) : list ascii := list_ascii_of_string s.
Definition of_chars (l : list ascii) : string := string_of_list_ascii l.

Definition nonempty (s : string) : bool :=
  match s with EmptyString => false | String _ _ => true end.

(** [s.isdigit()], [s.isalpha()], [s.isalnum()]: false on the empty string. *)
Definition isdigit (s : string) : bool := nonempty s && forallb is_digit (chars s).
Definition isalpha (s : string) : bool := nonempty s && forallb is_letter (chars s).
Definition isalnum (s : string) : bool := nonempty s && forallb is_alnum (chars s).

(** [any(char.isdigit() for char in s)] *)
Definition any_digit (s : string) : bool := existsb is_digit (chars s).

Definition lower_char (c : ascii) : ascii :=
  if is_upper c then ascii_of_nat (ord c + 32) else c.

(** [s.lower()] *)
Definition lower (s : string) : string := of_chars (map lower_char (chars s)).

Fixpoint lstrip_chars (l : list ascii) : list ascii :=
  match l with
  | c :: l' => if is_space c then lstrip_chars l' else l
  | [] => []
  end.

(** [s.strip()] *)
Definition strip (s : string) : string :=
  of_chars (rev (lstrip_chars (rev (lstrip_chars (chars s))))).

(** [sub in s] *)
Fixpoint contains (sub s : string) : bool :=
  String.prefix sub s ||
  match s with
  | EmptyString => false
  | String _ s' => contains sub s'
  end.

(** [s.replace(old, new)] for a non-empty [old]: the occurrences are
    replaced left to right, without overlap.  [fuel] bounds the scan and is
    the length of [s] at the call. *)
Fixpoint replace_fuel (fuel : nat) (old new s : string) : string :=
  match fuel with
  | O => s
  | S fuel' =>
      if String.prefix old s
      then new ++ replace_fuel fuel' old new
                    (String.substring (String.length old)
                       (String.length s - String.length old) s)
      else match s with
           | EmptyString => EmptyString
           | String c s' => String c (replace_fuel fuel' old new s')
           end
  end.

Definition replace (old new s : string) : string :=
  replace_fuel (S (String.length s)) old new s.

(** [re.sub(r'\D', '', s)] and [re.sub(r'[^\d]', '', s)] *)
Definition digits_only (s : string) : string := of_chars (filter is_digit (chars s)).

End Py.

(* ===================================================================== *)
(** ** Cell values *)
(* ===================================================================== *)

(** A [pd.Timestamp] without zone, to the second. *)
Record Timestamp : Type := mkTs {
  year : nat; month : nat; day : nat;
  hour : nat; minute : nat; second : nat
}.

Definition date (y m d : nat) : Timestamp := mkTs y m d 0 0 0.

Inductive Cell : Type :=
| NaN
| Str (s : string)
| Num (q : Q)
| Date (t : Timestamp).

(** [pd.isna(x)] / [pd.notnull(x)] *)
Definition isna (x : Cell) : bool :=
  match x with NaN => true | _ => false end.

Definition notnull (x : Cell) : bool := negb (isna x).

(** [isinstance(x, str)] *)
Definition is_str (x : Cell) : bool :=
  match x with Str _ => true | _ => false end.

(** [x == literal] for a [str] literal, as pandas compares a cell. *)
Definition cell_eq_str (x : Cell) (lit : string) : bool :=
  match x with Str s => String.eqb s lit | _ => false end.

(* ===================================================================== *)
(** ** The row-validity predicate *)
(* ===================================================================== *)

(** The local function of [remove_invalid_rows] (and, verbatim, of
    [remove_invalid_rows_date_events_data]). *)
Definition is_invalid_pattern (val : Cell) : bool :=
  match val with
  | Str s =>
      (String.length s =? 10) && Py.isalnum s
      && negb (Py.isdigit s) && negb (Py.isalpha s)
  | _ => false
  end.

(** [any(is_invalid_pattern(val) for val in row)] *)
Definition row_is_invalid (row : list Cell) : bool :=
  existsb is_invalid_pattern row.

(* ===================================================================== *)
(** ** Regular expressions of the date guards *)
(* ===================================================================== *)

Module Re.

(** The guards of [parse_non_standard_dates] are built from [\d], [\w+]
    and literal characters, anchored by [^] and [$]. *)
Inductive item : Type :=
| D                (* \d  *)
| W1               (* \w+ *)
| L (c : ascii).   (* a literal character *)

(** [re.match('^' + p + '$', s)].  [$] matches at the end of the text and
    also just before a line feed that ends it.  [\w+] backtracks. *)
Fixpoint fullmatch (p : list item) (s : string) {struct s} : bool :=
  match s with
  | EmptyString =>
      match p with [] => true | _ :: _ => false end
  | String c s' =>
      match p with
      | [] => (Py.ord c =? 10) && negb (Py.nonempty s')
      | D :: p' => Py.is_digit c && fullmatch p' s'
      | L a :: p' => Ascii.eqb c a && fullmatch p' s'
      | W1 :: p' => Py.is_word c && (fullmatch p' s' || fullmatch p s')
      end
  end.

Definition d2 : list item := [D; D].
Definition d4 : list item := [D; D; D; D].

(** [^\d{4}-\d{2}-\d{2}$] *)
Definition ymd_dash : list item := d4 ++ [L "-"] ++ d2 ++ [L "-"] ++ d2.
(** [^\d{4}/\d{2}/\d{2}$] *)
Definition ymd_slash : list item := d4 ++ [L "/"] ++ d2 ++ [L "/"] ++ d2.
(** [^\d{2}/\d{2}/\d{4}$] *)
Definition dmy_slash : list item := d2 ++ [L "/"] ++ d2 ++ [L "/"] ++ d4.
(** [^\d{2}/\d{2}$] *)
Definition my_slash : list item := d2 ++ [L "/"] ++ d2.
(** [^\w+ \d{4} \d{2}$] *)
Definition month_year_day : list item := [W1; L " "] ++ d4 ++ [L " "] ++ d2.
(** [^\d{4} \w+ \d{2}$] *)
Definition year_month_day : list item := d4 ++ [L " "; W1; L " "] ++ d2.

End Re.

(* ===================================================================== *)
(** ** [pd.to_datetime(text, format=...)] *)
(* ===================================================================== *)

Module Strptime.

(** Format directives used by the source, and [%H %M %S] for the
    date-event timestamps.  A blank in a format stands for [\s+]. *)
Inductive directive : Type :=
| pY | pm | pd | py | pB | pH | pM | pS
| lit (c : ascii)
| blank.

Definition default : Timestamp := mkTs 1900 1 1 0 0 0.

Definition digit_val (c : ascii) : nat := Py.ord c - 48.

(** Exactly [n] decimal digits at the head of [s]: their value and the
    rest of the text. *)
Fixpoint take_digits (n : nat) (acc : nat) (s : string) : option (nat * string) :=
  match n with
  | O => Some (acc, s)
  | S n' =>
      match s with
      | String c s' =>
          if Py.is_digit c then take_digits n' (10 * acc + digit_val c) s' else None
      | EmptyString => None
      end
  end.

(** One alternative of a directive's regular expression: [n] digits whose
    value satisfies [ok]. *)
Definition alt (n : nat) (ok : nat -> bool) (s : string) : list (nat * string) :=
  match take_digits n 0 s with
  | Some (v, rest) => if ok v then [(v, rest)] else []
  | None => []
  end.

(** The alternative [ [1-9]] of [%d]. *)
Definition alt_blank_digit (s : string) : list (nat * string) :=
  match s with
  | String c s' => if Py.ord c =? 32 then alt 1 (Py.between 1 9) s' else []
  | EmptyString => []
  end.

Definition month_names : list string :=
  ["january"; "february"; "march"; "april"; "may"; "june"; "july";
   "august"; "september"; "october"; "november"; "december"].

(** [%B]: a full month name, matched case-insensitively. *)
Fixpoint alt_names (names : list string) (k : nat) (s : string) : list (nat * string) :=
  match names with
  | [] => []
  | name :: names' =>
      (if String.prefix name (Py.lower s)
       then [(k, String.substring (String.length name)
                   (String.length s - String.length name) s)]
       else [])
      ++ alt_names names' (S k) s
  end.

(** [\s+]: the longest run first, then shorter ones. *)
Fixpoint alt_blanks (s : string) : list string :=
  match s with
  | String c s' => if Py.is_space c then alt_blanks s' ++ [s'] else []
  | EmptyString => []
  end.

(** The alternatives of a directive on [s], in the order in which the
    regular expression of the format tries them, each with the updated
    fields and the rest of the text. *)
Definition alts (d : directive) (t : Timestamp) (s : string) : list (Timestamp * string) :=
  let upd (f : nat -> Timestamp) := map (fun '(v, rest) => (f v, rest)) in
  match d with
  | pY => upd (fun v => mkTs v (month t) (day t) (hour t) (minute t) (second t))
              (alt 4 (fun _ => true) s)
  | py => upd (fun v => mkTs (if v <=? 68 then 2000 + v else 1900 + v)
                          (month t) (day t) (hour t) (minute t) (second t))
              (alt 2 (fun _ => true) s)
  | pm => upd (fun v => mkTs (year t) v (day t) (hour t) (minute t) (second t))
              (alt 2 (Py.between 1 12) s ++ alt 1 (Py.between 1 9) s)
  | pd => upd (fun v => mkTs (year t) (month t) v (hour t) (minute t) (second t))
              (alt 2 (Py.between 1 31) s ++ alt 1 (Py.between 1 9) s
               ++ alt_blank_digit s)
  | pB => upd (fun v => mkTs (year t) v (day t) (hour t) (minute t) (second t))
              (alt_names month_names 1 s)
  | pH => upd (fun v => mkTs (year t) (month t) (day t) v (minute t) (second t))
              (alt 2 (Py.between 0 23) s ++ alt 1 (fun _ => true) s)
  | pM => upd (fun v => mkTs (year t) (month t) (day t) (hour t) v (second t))
              (alt 2 (Py.between 0 59) s ++ alt 1 (fun _ => true) s)
  | pS => upd (fun v => mkTs (year t) (month t) (day t) (hour t) (minute t) v)
              (alt 2 (Py.between 0 61) s ++ alt 1 (fun _ => true) s)
  | lit a =>
      match s with
      | String c s' => if Ascii.eqb c a then [(t, s')] else []
      | EmptyString => []
      end
  | blank => map (fun rest => (t, rest)) (alt_blanks s)
  end.

Fixpoint first_some {A B : Type} (f : A -> option B) (l : list A) : option B :=
  match l with
  | [] => None
  | a :: l' => match f a with Some b => Some b | None => first_some f l' end
  end.

(** The first match of the format's regular expression at the head of [s]. *)
Fixpoint scan (fmt : list directive) (t : Timestamp) (s : string)
    : option (Timestamp * string) :=
  match fmt with
  | [] => Some (t, s)
  | d :: fmt' => first_some (fun '(t', rest) => scan fmt' t' rest) (alts d t s)
  end.

Definition leap (y : nat) : bool :=
  ((y mod 4 =? 0) && negb (y mod 100 =? 0)) || (y mod 400 =? 0).

Definition days_in_month (y m : nat) : nat :=
  match m with
  | 2 => if leap y then 29 else 28
  | 4 | 6 | 9 | 11 => 30
  | _ => 31
  end.

(** The fields form a calendar date and a time of day. *)
Definition calendar_ok (t : Timestamp) : bool :=
  Py.between 1 12 (month t)
  && Py.between 1 (days_in_month (year t) (month t)) (day t)
  && (hour t <=? 23) && (minute t <=? 59) && (second t <=? 59).

Fixpoint lex_le (a b : list nat) : bool :=
  match a, b with
  | x :: a', y :: b' => (x <? y) || ((x =? y) && lex_le a' b')
  | _, _ => true
  end.

Definition key (t : Timestamp) : list nat :=
  [year t; month t; day t; hour t; minute t; second t].

(** The range of a nanosecond timestamp: [Timestamp.min] is
    1677-09-21 00:12:43.145224193 and [Timestamp.max] is
    2262-04-11 23:47:16.854775807. *)
Definition in_bounds (t : Timestamp) : bool :=
  lex_le [1677; 9; 21; 0; 12; 44] (key t) && lex_le (key t) [2262; 4; 11; 23; 47; 16].

Definition check (t : Timestamp) : res Timestamp :=
  if negb (calendar_ok t) then Raise ValueError
  else if negb (in_bounds t) then Raise OutOfBoundsDatetime
  else Ok t.

(** [pd.to_datetime(s, format=fmt)] on a text [s]: the format must match
    at the head of [s], no text may remain, and the fields must form a
    date that a timestamp can hold. *)
Definition strptime (fmt : list directive) (s : string) : res Timestamp :=
  match scan fmt default s with
  | None => Raise ValueError
  | Some (t, rest) => if Py.nonempty rest then Raise ValueError else check t
  end.

(** ['%Y-%m-%d'] *)
Definition Ymd_dash : list directive := [pY; lit "-"; pm; lit "-"; pd].
(** ['%Y/%m/%d'] *)
Definition Ymd_slash : list directive := [pY; lit "/"; pm; lit "/"; pd].
(** ['%d/%m/%Y'] *)
Definition dmY_slash : list directive := [pd; lit "/"; pm; lit "/"; pY].
(** ['%m/%y'] *)
Definition my_slash : list directive := [pm; lit "/"; py].
(** ['%B %Y %d'] *)
Definition BYd : list directive := [pB; blank; pY; blank; pd].
(** ['%Y %B %d'] *)
Definition YBd : list directive := [pY; blank; pB; blank; pd].

End Strptime.

(* ===================================================================== *)
(** ** [pd.DataFrame] *)
(* ===================================================================== *)

(** A table: the column labels in order, and the rows, each a list of
    cells aligned with the labels.  Row labels (the index) play no part in
    the cleaning code and are left out. *)
Record DataFrame : Type := mkDF {
  columns : list string;
  rows : list (list Cell)
}.

Module Pd.

Definition mem (x : string) (l : list string) : bool := existsb (String.eqb x) l.

Fixpoint index_of (label : string) (cols : list string) : option nat :=
  match cols with
  | [] => None
  | c :: cols' =>
      if String.eqb c label then Some 0
      else match index_of label cols' with
           | Some i => Some (S i)
           | None => None
           end
  end.

(** The position of a column; an absent label is a [KeyError]. *)
Definition loc (label : string) (df : DataFrame) : res nat :=
  match index_of label (columns df) with
  | Some i => Ok i
  | None => Raise (KeyError label)
  end.

(** [row[label]] at a known position. *)
Definition at_ (i : nat) (row : list Cell) : Cell := nth i row NaN.

(** [df[label]] *)
Definition getitem (label : string) (df : DataFrame) : res (list Cell) :=
  i <- loc label df ;; Ok (map (at_ i) (rows df)).

Fixpoint set_nth {A : Type} (i : nat) (v : A) (l : list A) : list A :=
  match l with
  | [] => []
  | x :: l' =>
      match i with
      | O => v :: l'
      | S i' => x :: set_nth i' v l'
      end
  end.

(** Pairs each row with the value aligned to it; a row without a value
    gets the missing value, as index alignment does. *)
Fixpoint assign (f : list Cell -> Cell -> list Cell) (rs : list (list Cell))
    (values : list Cell) : list (list Cell) :=
  match rs with
  | [] => []
  | r :: rs' => f r (hd NaN values) :: assign f rs' (tl values)
  end.

(** [df[label] = values]: an existing column is overwritten in place, a
    new label is appended as the last column. *)
Definition setitem (label : string) (values : list Cell) (df : DataFrame) : DataFrame :=
  match index_of label (columns df) with
  | Some i => mkDF (columns df) (assign (fun r v => set_nth i v r) (rows df) values)
  | None => mkDF (columns df ++ [label]) (assign (fun r v => r ++ [v]) (rows df) values)
  end.

(** Keeps the positions of [l] that [mask] marks. *)
Fixpoint select {A : Type} (mask : list bool) (l : list A) : list A :=
  match mask, l with
  | b :: mask', x :: l' => if b then x :: select mask' l' else select mask' l'
  | _, _ => []
  end.

(** [df[mask]] for a boolean mask over the rows. *)
Definition getitem_mask (mask : list bool) (df : DataFrame) : DataFrame :=
  mkDF (columns df) (select mask (rows df)).

(** [df.drop(columns=labels, errors=...)]: with [errors='raise'] (the
    default) a label that is not a column is a [KeyError]; with
    [errors='ignore'] it is skipped. *)
Definition drop (labels : list string) (errors_ignore : bool) (df : DataFrame)
    : res DataFrame :=
  let keep := map (fun c => negb (mem c labels)) (columns df) in
  match filter (fun l => negb (mem l (columns df))) labels with
  | missing :: _ =>
      if errors_ignore
      then Ok (mkDF (select keep (columns df)) (map (select keep) (rows df)))
      else Raise (KeyError missing)
  | [] => Ok (mkDF (select keep (columns df)) (map (select keep) (rows df)))
  end.

(** [df.rename(columns={old: new})]: an absent [old] is not an error. *)
Definition rename (old new : string) (df : DataFrame) : DataFrame :=
  mkDF (map (fun c => if String.eqb c old then new else c) (columns df)) (rows df).

(** [series.apply(f)] for an [f] that may raise. *)
Fixpoint apply {A B : Type} (f : A -> res B) (l : list A) : res (list B) :=
  match l with
  | [] => Ok []
  | x :: l' => y <- f x ;; ys <- apply f l' ;; Ok (y :: ys)
  end.

(** Element-wise map over the whole frame. *)
Definition applymap (f : Cell -> Cell) (df : DataFrame) : DataFrame :=
  mkDF (columns df) (map (map f) (rows df)).

(** The [.str] accessor exists on a column unless its non-null values are
    all numbers or all timestamps. *)
Definition is_num (x : Cell) : bool := match x with Num _ => true | _ => false end.
Definition is_date (x : Cell) : bool := match x with Date _ => true | _ => false end.

Definition has_str_accessor (col : list Cell) : bool :=
  let present := filter notnull col in
  match present with
  | [] => true
  | _ :: _ => negb (forallb is_num present) && negb (forallb is_date present)
  end.

(** [series.str.replace(old, new)]: a cell that is not text becomes missing. *)
Definition str_replace (old new : string) (col : list Cell) : res (list Cell) :=
  if has_str_accessor col
  then Ok (map (fun x => match x with
                         | Str s => Str (Py.replace old new s)
                         | _ => NaN
                         end) col)
  else Raise AttributeError.

(** [series.replace(old, new)] for text [old]: whole-cell equality. *)
Definition replace (old : string) (new : Cell) (x : Cell) : Cell :=
  if cell_eq_str x old then new else x.

(** [df.replace(to_replace, value)] with a list of texts. *)
Definition replace_any (to_replace : list string) (value : Cell) (x : Cell) : Cell :=
  if existsb (cell_eq_str x) to_replace then value else x.

(** [df.where(pd.notnull(df), other)] *)
Definition where_notnull (other : Cell) (x : Cell) : Cell :=
  if notnull x then x else other.

(** Every row has one cell per column, and no label occurs twice. *)
Definition wf (df : DataFrame) : Prop :=
  NoDup (columns df) /\
  Forall (fun r => List.length r = List.length (columns df)) (rows df).

End Pd.

(* ===================================================================== *)
(** ** [re.split] on the number pattern, and [float] *)
(* ===================================================================== *)

Module Quantity.

(** The longest prefix of [s] made of digits, and the rest. *)
Fixpoint span_digits (s : string) : string * string :=
  match s with
  | String c s' =>
      if Py.is_digit c
      then let (a, b) := span_digits s' in (String c a, b)
      else (EmptyString, s)
  | EmptyString => (EmptyString, EmptyString)
  end.

(** The number pattern of [extract_number_unit] is one or more digits, an
    optional point, and any further digits.  This is its match at the head
    of [s], which starts with a digit: the matched text and the rest.  Each part is greedy and none
    needs to give anything back. *)
Definition number_at (s : string) : string * string :=
  let (int_part, r1) := span_digits s in
  match r1 with
  | String "." r2 =>
      let (frac_part, r3) := span_digits r2 in
      ((int_part ++ "." ++ frac_part)%string, r3)
  | _ => (int_part, r1)
  end.

(** [re.split] with one capturing group: the texts between the matches
    alternate with the matches.  [pending] is the text since the last
    match; [fuel] bounds the scan by the length of the text. *)
Fixpoint split_fuel (fuel : nat) (pending s : string) : list string :=
  match fuel with
  | O => [(pending ++ s)%string]
  | S fuel' =>
      match s with
      | EmptyString => [pending]
      | String c s' =>
          if Py.is_digit c
          then let (m, rest) := number_at s in
               pending :: m :: split_fuel fuel' EmptyString rest
          else split_fuel fuel' (pending ++ String c EmptyString)%string s'
      end
  end.

Definition re_split_number (s : string) : list string :=
  split_fuel (String.length s) EmptyString s.

(** [''.join(parts)] *)
Definition join (parts : list string) : string := String.concat "" parts.

Definition digit_Z (c : ascii) : Z := Z.of_nat (Py.ord c - 48).

(** Reads [digits] or [digits.digits] (either side of the point may be
    empty, not both) as mantissa and power of ten. *)
Fixpoint decimal (seen_point : bool) (any : bool) (mant : Z) (scale : positive)
    (s : string) : option Q :=
  match s with
  | EmptyString => if any then Some (Qred (Qmake mant scale)) else None
  | String c s' =>
      if Py.is_digit c
      then decimal seen_point true (10 * mant + digit_Z c)
             (if seen_point then (10 * scale)%positive else scale) s'
      else if (Py.ord c =? 46) && negb seen_point
           then decimal true any mant scale s'
           else None
  end.

(** [float(s)] on the unsigned decimal texts, which are all that the
    source passes to it; any other text is a [ValueError] here. *)
Definition float_of_text (s : string) : res Q :=
  match decimal false false 0%Z 1%positive s with
  | Some q => Ok q
  | None => Raise ValueError
  end.

End Quantity.

(* ===================================================================== *)
(** ** Further text functions *)
(* ===================================================================== *)

Module Text.

(** [re.sub(r'\?', '', s)]: the text without its question marks. *)
Definition remove_char (x : ascii) (s : string) : string :=
  Py.of_chars (filter (fun c => negb (Ascii.eqb c x)) (Py.chars s)).

(** [re.sub(r',\s*', ', ', s)]: every comma, with the white space that
    follows it, becomes a comma and one blank.  [skipping] is true while
    the white space after a comma is being passed over. *)
Fixpoint comma_space_from (skipping : bool) (s : string) : string :=
  match s with
  | EmptyString => EmptyString
  | String c s' =>
      if skipping && Py.is_space c then comma_space_from true s'
      else if Ascii.eqb c "," then String "," (String " " (comma_space_from true s'))
      else String c (comma_space_from false s')
  end.

Definition comma_space (s : string) : string := comma_space_from false s.

(** [s.split(sep)] for a separator of one character: the pieces between
    the separators, at least one piece. *)
Fixpoint split (sep : ascii) (s : string) : list string :=
  match s with
  | EmptyString => [EmptyString]
  | String c s' =>
      if Ascii.eqb c sep then EmptyString :: split sep s'
      else match split sep s' with
           | piece :: pieces => String c piece :: pieces
           | [] => [String c EmptyString]
           end
  end.

(** [sep.join(pieces)] *)
Definition join (sep : string) (pieces : list string) : string :=
  String.concat sep pieces.

End Text.

(* ===================================================================== *)
(** ** Further frame operations *)
(* ===================================================================== *)

Module Frame.

(** [a.combine_first(b)] on two columns of one frame: the value of [a]
    where it is not null, else that of [b]. *)
Fixpoint combine_first (a b : list Cell) : list Cell :=
  match a with
  | [] => []
  | x :: a' => (if notnull x then x else hd NaN b) :: combine_first a' (tl b)
  end.

(** [df.dropna(subset=labels)]: labels that are not columns are a
    [KeyError], which pandas raises with the list of them and which is
    recorded here under the first; a row stays when none of its cells
    under the labels is null. *)
Definition dropna (subset : list string) (df : DataFrame) : res DataFrame :=
  positions <- Pd.apply (fun label => Pd.loc label df) subset ;;
  Ok (mkDF (columns df)
        (filter (fun r => forallb (fun i => notnull (Pd.at_ i r)) positions)
           (rows df))).

(** [pd.DataFrame(records)] for records that all have the keys [labels],
    in this order: without records the frame has no column. *)
Definition of_records (labels : list string) (records : list (list Cell))
    : DataFrame :=
  match records with
  | [] => mkDF [] []
  | _ :: _ => mkDF labels records
  end.

(** A Python [dict] with text keys, in insertion order. *)
Definition Dict (A : Type) : Type := list (string * A).

(** [d[key]] *)
Fixpoint dict_getitem {A : Type} (d : Dict A) (key : string) : res A :=
  match d with
  | [] => Raise (KeyError key)
  | (k, v) :: d' => if String.eqb k key then Ok v else dict_getitem d' key
  end.

(** [d.keys()] *)
Definition dict_keys {A : Type} (d : Dict A) : list string := map fst d.

End Frame.

(* ===================================================================== *)
(** ** [DataExtractor._parse_s3_uri] (src/data_extractor.py) *)
(* ===================================================================== *)

(** [s3_uri.split("/")[2]] and ["/".join(s3_uri.split("/")[3:])]; [None]
    stands for the [IndexError] of the subscript. *)
Definition _parse_s3_uri (s3_uri : string) : option (string * string) :=
  match nth_error (Text.split "/" s3_uri) 2 with
  | Some bucket_name =>
      let s3_file_key := Text.join "/" (skipn 3 (Text.split "/" s3_uri)) in
      Some (bucket_name, s3_file_key)
  | None => None
  end.

(* ===================================================================== *)
(** ** The generic date parser *)
(* ===================================================================== *)

Module Generic.

Import Strptime.

(** [pd.to_datetime(text, errors='coerce')] belongs to pandas, and the
    cleaning functions below take it as a parameter.  [default_text] is a
    partial model of it, used to evaluate the code on literal inputs: it
    reads the shapes listed here as pandas does with its defaults
    ([dayfirst=False], [yearfirst=False]) and takes any other text as
    unparseable ([None], for [NaT]).
    - [YYYY-MM-DD], alone or followed by [HH:MM:SS];
    - [YYYY/MM/DD];
    - [MM/DD/YYYY], the month first; the day is read first only when the
      first field cannot be a month.
    A month, day, hour, minute or second may lack its leading zero. *)
Definition shapes : list (list directive) :=
  [ Ymd_dash;
    Ymd_dash ++ [blank; pH; lit ":"; pM; lit ":"; pS];
    Ymd_slash;
    [pm; lit "/"; pd; lit "/"; pY];
    dmY_slash ].

Definition default_text (s : string) : option Timestamp :=
  first_some
    (fun fmt => match strptime fmt s with Ok t => Some t | Raise _ => None end)
    shapes.

End Generic.

(* ===================================================================== *)
(** ** The cleaning methods of [DataCleaning] *)
(* ===================================================================== *)

Section DataCleaning.

(** What the code takes from Python and pandas without fixing it here:
    the text of a number and of a timestamp under [str()], the generic
    date parser on text and on numbers ([None] for [NaT]), and
    [pd.to_numeric(errors='coerce')] on a cell. *)
Variable str_num : Q -> string.
Variable str_ts : Timestamp -> string.
Variable to_datetime_text : string -> option Timestamp.
Variable to_datetime_num : Q -> option Timestamp.
Variable to_numeric : Cell -> Cell.

(** [str(x)] *)
Definition py_str (x : Cell) : string :=
  match x with
  | NaN => "nan"
  | Str s => s
  | Num q => str_num q
  | Date t => str_ts t
  end.

(** *** Null standardisation *)

Definition null_representations : list string := ["NULL"; "None"; "N/A"; ""].

Definition standardize_nulls (df : DataFrame) : DataFrame :=
  let df := Pd.applymap (Pd.replace_any null_representations NaN) df in
  Pd.applymap (Pd.where_notnull NaN) df.

(** *** Country and country code *)

(** [lambda x: x if not any(char.isdigit() for char in str(x)) else np.nan] *)
Definition country_lambda (x : Cell) : Cell :=
  if negb (Py.any_digit (py_str x)) then x else NaN.

(** [lambda x: x if (not any(char.isdigit() for char in str(x))
    and len(str(x)) <= 3) else np.nan] *)
Definition country_code_lambda (x : Cell) : Cell :=
  if negb (Py.any_digit (py_str x)) && (String.length (py_str x) <=? 3)
  then x else NaN.

Definition clean_country_columns (df : DataFrame) : res DataFrame :=
  country <- Pd.getitem "country" df ;;
  let df := Pd.setitem "country" (map country_lambda country) df in
  code <- Pd.getitem "country_code" df ;;
  let df := Pd.setitem "country_code" (map country_code_lambda code) df in
  code <- Pd.getitem "country_code" df ;;
  Ok (Pd.setitem "country_code" (map (Pd.replace "GGB" (Str "GB")) code) df).

(** What the two statements on [country_code] do to one cell. *)
Definition clean_country_code_cell (x : Cell) : Cell :=
  Pd.replace "GGB" (Str "GB") (country_code_lambda x).

(** *** Phone number *)

(** [lambda x: re.sub(r'\D', '', str(x))] *)
Definition phone_lambda (x : Cell) : Cell := Str (Py.digits_only (py_str x)).

Definition clean_phone_number (df : DataFrame) : res DataFrame :=
  phone <- Pd.getitem "phone_number" df ;;
  Ok (Pd.setitem "phone_number" (map phone_lambda phone) df).

(** *** Dates *)

Definition of_parse (o : option Timestamp) : Cell :=
  match o with Some t => Date t | None => NaN end.

(** [pd.to_datetime(x, errors='coerce')] on one value. *)
Definition to_datetime_coerce (x : Cell) : Cell :=
  match x with
  | NaN => NaN
  | Str s => of_parse (to_datetime_text s)
  | Num q => of_parse (to_datetime_num q)
  | Date t => Date t
  end.

(** [pd.to_datetime(s, format=fmt)] on a text. *)
Definition to_datetime_format (s : string) (fmt : list Strptime.directive) : res Cell :=
  t <- Strptime.strptime fmt s ;; Ok (Date t).

Definition parse_non_standard_dates (date_str : Cell) : res Cell :=
  try_except
    match date_str with
    | Str s =>
        if Re.fullmatch Re.ymd_dash s then to_datetime_format s Strptime.Ymd_dash
        else if Re.fullmatch Re.ymd_slash s then to_datetime_format s Strptime.Ymd_slash
        else if Re.fullmatch Re.dmy_slash s then to_datetime_format s Strptime.dmY_slash
        else if Re.fullmatch Re.my_slash s then to_datetime_format s Strptime.my_slash
        else if Re.fullmatch Re.month_year_day s then to_datetime_format s Strptime.BYd
        else if Re.fullmatch Re.year_month_day s then to_datetime_format s Strptime.YBd
        else Ok (to_datetime_coerce date_str)
    | _ => Raise TypeError   (* re.match on a value that is not text *)
    end
    any_exception (Ok NaN).

(** The lambda of [clean_dates]. *)
Definition clean_dates_lambda (x : Cell) : res Cell :=
  if isna (to_datetime_coerce x)
  then parse_non_standard_dates x
  else Ok (to_datetime_coerce x).

Fixpoint clean_dates (df : DataFrame) (date_columns : list string) : res DataFrame :=
  match date_columns with
  | [] => Ok df
  | col :: date_columns' =>
      values <- Pd.getitem col df ;;
      values <- Pd.apply clean_dates_lambda values ;;
      clean_dates (Pd.setitem col values df) date_columns'
  end.

(** *** Row validity *)

(** [invalid_rows = df.apply(lambda row: any(...), axis=1); df[~invalid_rows]].
    On a frame without rows, [apply] does not produce a boolean mask, and
    indexing with its (empty) result selects no column. *)
Definition remove_invalid_rows (df : DataFrame) : DataFrame :=
  match rows df with
  | [] => mkDF [] []
  | _ :: _ =>
      let invalid_rows := map row_is_invalid (rows df) in
      Pd.getitem_mask (map negb invalid_rows) df
  end.

(** *** Numeric columns *)

Fixpoint convert_data_types (df : DataFrame) (cols : list string) : res DataFrame :=
  match cols with
  | [] => Ok df
  | column :: cols' =>
      values <- Pd.getitem column df ;;
      convert_data_types (Pd.setitem column (map to_numeric values) df) cols'
  end.

(** *** Weight *)

(** The missing values in this part of the code are Python's [None]. *)
Definition extract_number_unit (s : Cell) : res (Cell * Cell) :=
  match s with
  | NaN => Ok (NaN, NaN)
  | Str text =>
      let parts := Quantity.re_split_number (Py.replace " " "" text) in
      if List.length parts <? 3 then Ok (NaN, NaN)
      else
        let number := nth 1 parts "" in
        let unit := Py.strip (Py.lower (Quantity.join (skipn 2 parts))) in
        Ok (Str number, Str unit)
  | Num _ => Raise AttributeError   (* a number has no [replace] *)
  | Date _ => Raise TypeError       (* [Timestamp.replace] takes no text *)
  end.

Definition normalize_units (unit : Cell) : res Cell :=
  match unit with
  | NaN => Ok NaN
  | Str u =>
      if negb (Py.nonempty u) then Ok NaN
      else
        let u := Py.strip (Py.lower u) in
        if Py.contains "kg" u || Py.contains "kilogram" u then Ok (Str "kg")
        else if Py.contains "g" u || Py.contains "gram" u then Ok (Str "g")
        else if Py.contains "ml" u || Py.contains "milliliter" u
                || Py.contains "millilitre" u then Ok (Str "g")
        else if Py.contains "liter" u || Py.contains "liters" u
                || Py.contains "litre" u || Py.contains "litres" u
             then Ok (Str "liters")
        else Ok NaN
  | Num q => if Qeq_bool q 0 then Ok NaN else Raise AttributeError
  | Date _ => Raise AttributeError
  end.

(** [float(x)] *)
Definition py_float (x : Cell) : res Q :=
  match x with
  | Str s => Quantity.float_of_text s
  | Num q => Ok q
  | NaN | Date _ => Raise TypeError
  end.

(** [row[label]] *)
Definition row_getitem (cols : list string) (label : string) (row : list Cell)
    : res Cell :=
  match Pd.index_of label cols with
  | Some i => Ok (Pd.at_ i row)
  | None => Raise (KeyError label)
  end.

Definition convert_to_kilograms (cols : list string) (row : list Cell) : res Cell :=
  try_except
    (n <- row_getitem cols "number" row ;;
     number <- py_float n ;;
     unit <- row_getitem cols "unit" row ;;
     if cell_eq_str unit "g" then Ok (Num (Qred (number / 1000)))
     else if cell_eq_str unit "kg" then Ok (Num number)
     else if cell_eq_str unit "liters" then Ok (Num number)
     else Ok NaN)
    type_or_value_error (Ok NaN).

(** The two-column assignment needs a frame two columns wide; on a column
    without rows [apply(pd.Series)] yields an empty series instead, and
    the assignment fails (the columns must be of the same length as the
    key). *)
Definition clean_weight_column (df : DataFrame) : res DataFrame :=
  weight <- Pd.getitem "weight" df ;;
  pairs <- Pd.apply extract_number_unit weight ;;
  match pairs with
  | [] => Raise ValueError
  | _ :: _ =>
      let df := Pd.setitem "number" (map fst pairs) df in
      let df := Pd.setitem "unit" (map snd pairs) df in
      unit <- Pd.getitem "unit" df ;;
      unit <- Pd.apply normalize_units unit ;;
      let df := Pd.setitem "unit" unit df in
      weight_kg <- Pd.apply (convert_to_kilograms (columns df)) (rows df) ;;
      let df := Pd.setitem "weight_kg" weight_kg df in
      Pd.drop ["weight"; "number"; "unit"] false df
  end.

(** The weight of one cell, as the three local functions compute it. *)
Definition weight_kg_of (s : Cell) : res Cell :=
  p <- extract_number_unit s ;;
  unit <- normalize_units (snd p) ;;
  convert_to_kilograms ["number"; "unit"] [fst p; unit].

(** *** Dropping columns *)

Definition drop_columns (df : DataFrame) (columns_to_drop : list string) : res DataFrame :=
  Pd.drop columns_to_drop true df.

(** *** Date events *)

(** One element of the text series that [combine_datetime_columns] builds:
    adding a missing timestamp gives a missing text, adding a value that
    is not text is a [TypeError]. *)
Definition datetime_text (y m d t : Cell) : res Cell :=
  match t with
  | Str time =>
      Ok (Str (py_str y ++ "-" ++ py_str m ++ "-" ++ py_str d ++ " " ++ time)%string)
  | NaN => Ok NaN
  | Num _ | Date _ => Raise TypeError
  end.

(** [pd.to_datetime(x)] with the default [errors='raise'], on one value:
    what the parser cannot read is a [ValueError]. *)
Definition to_datetime_raise (x : Cell) : res Cell :=
  match x with
  | NaN => Ok NaN
  | Str s =>
      match to_datetime_text s with
      | Some t => Ok (Date t)
      | None => Raise ValueError
      end
  | Num q =>
      match to_datetime_num q with
      | Some t => Ok (Date t)
      | None => Raise ValueError
      end
  | Date t => Ok (Date t)
  end.

Definition combine_datetime_columns (df : DataFrame) : res DataFrame :=
  y <- Pd.loc "year" df ;;
  m <- Pd.loc "month" df ;;
  d <- Pd.loc "day" df ;;
  t <- Pd.loc "timestamp" df ;;
  texts <- Pd.apply (fun r => datetime_text (Pd.at_ y r) (Pd.at_ m r)
                                (Pd.at_ d r) (Pd.at_ t r)) (rows df) ;;
  datetime <- Pd.apply to_datetime_raise texts ;;
  let df := Pd.setitem "datetime" datetime df in
  Pd.drop ["timestamp"; "day"; "month"; "year"] false df.

(** *** Store code *)

Definition remove_invalid_rows_excluding_store_code (df : DataFrame) : res DataFrame :=
  store_code <- Pd.getitem "store_code" df ;;
  let preserved_row_condition :=
    map (fun x => cell_eq_str x "WEB-1388012W") store_code in
  let mask :=
    map (fun '(x, preserved) => negb (isna x) || preserved)
      (combine store_code preserved_row_condition) in
  Ok (Pd.getitem_mask mask df).

(** *** Pipelines *)

(** The pound sign, as its two bytes in UTF-8. *)
Definition pound : string :=
  String (ascii_of_nat 194) (String (ascii_of_nat 163) EmptyString).

Definition clean_product_data (df : DataFrame) : res DataFrame :=
  let df := standardize_nulls df in
  let df := remove_invalid_rows df in
  df <- clean_weight_column df ;;
  price <- Pd.getitem "product_price" df ;;
  price <- Pd.str_replace pound "" price ;;
  let df := Pd.setitem "product_price" price df in
  df <- convert_data_types df ["product_price"] ;;
  let df := Pd.rename "product_price" "product_price_gbp" df in
  clean_dates df ["date_added"].

Definition clean_orders_data (df : DataFrame) : res DataFrame :=
  let df := standardize_nulls df in
  let df := remove_invalid_rows df in
  let columns_to_drop := ["first_name"; "last_name"; "1"] in
  df <- drop_columns df columns_to_drop ;;
  convert_data_types df ["product_quantity"].

(** *** Address, card number, locality, store code, staff numbers *)

(** The line feed. *)
Definition line_feed : string := String (ascii_of_nat 10) EmptyString.

Definition clean_address (df : DataFrame) : res DataFrame :=
  address <- Pd.getitem "address" df ;;
  address <- Pd.str_replace line_feed "," address ;;
  Ok (Pd.setitem "address" address df).

(** [lambda x: re.sub(r'\?', '', str(x)) if isinstance(x, str) else x] *)
Definition card_number_lambda (x : Cell) : Cell :=
  match x with
  | Str s => Str (Text.remove_char "?" s)
  | _ => x
  end.

Definition clean_card_number (df : DataFrame) : res DataFrame :=
  card_number <- Pd.getitem "card_number" df ;;
  Ok (Pd.setitem "card_number" (map card_number_lambda card_number) df).

(** [lambda x: x if (isinstance(x, str)
    and not any(char.isdigit() for char in x)) else np.nan] *)
Definition locality_lambda (x : Cell) : Cell :=
  match x with
  | Str s => if negb (Py.any_digit s) then x else NaN
  | _ => NaN
  end.

Definition clean_locality (df : DataFrame) : res DataFrame :=
  locality <- Pd.getitem "locality" df ;;
  Ok (Pd.setitem "locality" (map locality_lambda locality) df).

Definition clean_store_code (df : DataFrame) : DataFrame := df.

(** [lambda x: re.sub(r'[^\d]', '', str(x)) if pd.notnull(x) else x] *)
Definition staff_numbers_lambda (x : Cell) : Cell :=
  if notnull x then Str (Py.digits_only (py_str x)) else x.

Definition clean_staff_numbers (df : DataFrame) : res DataFrame :=
  staff <- Pd.getitem "staff_numbers" df ;;
  let df := Pd.setitem "staff_numbers" (map staff_numbers_lambda staff) df in
  staff <- Pd.getitem "staff_numbers" df ;;
  Ok (Pd.setitem "staff_numbers" (map (Pd.replace "" NaN) staff) df).

(** What the two statements of [clean_staff_numbers] do to one cell. *)
Definition clean_staff_numbers_cell (x : Cell) : Cell :=
  Pd.replace "" NaN (staff_numbers_lambda x).

(** *** Categorical columns and latitude *)

(** [lambda x: x.replace('ee', '') if isinstance(x, str) else x] *)
Definition continent_lambda (x : Cell) : Cell :=
  match x with
  | Str s => Str (Py.replace "ee" "" s)
  | _ => x
  end.

Definition clean_categorical_columns (df : DataFrame) : res DataFrame :=
  store_type <- Pd.getitem "store_type" df ;;
  let df := Pd.setitem "store_type" (map country_lambda store_type) df in
  code <- Pd.getitem "country_code" df ;;
  let df := Pd.setitem "country_code" (map country_code_lambda code) df in
  continent <- Pd.getitem "continent" df ;;
  let df := Pd.setitem "continent" (map continent_lambda continent) df in
  continent <- Pd.getitem "continent" df ;;
  Ok (Pd.setitem "continent" (map country_lambda continent) df).

Definition merge_latitude_columns (df : DataFrame) : res DataFrame :=
  latitude <- Pd.getitem "latitude" df ;;
  lat <- Pd.getitem "lat" df ;;
  let df := Pd.setitem "latitude" (Frame.combine_first latitude lat) df in
  Pd.drop ["lat"] false df.

(** *** Date events: from the JSON mapping to the table *)

(** The same body as [remove_invalid_rows]. *)
Definition remove_invalid_rows_date_events_data (df : DataFrame) : DataFrame :=
  match rows df with
  | [] => mkDF [] []
  | _ :: _ =>
      let invalid_rows := map row_is_invalid (rows df) in
      Pd.getitem_mask (map negb invalid_rows) df
  end.

(** [json_data[field][key]] *)
Definition json_value (json_data : Frame.Dict (Frame.Dict Cell)) (field key : string)
    : res Cell :=
  mapping <- Frame.dict_getitem json_data field ;;
  Frame.dict_getitem mapping key.

Definition reformat_json_to_df (json_data : Frame.Dict (Frame.Dict Cell))
    : res DataFrame :=
  timestamps <- Frame.dict_getitem json_data "timestamp" ;;
  records <-
    Pd.apply
      (fun key =>
         timestamp <- json_value json_data "timestamp" key ;;
         month <- json_value json_data "month" key ;;
         year <- json_value json_data "year" key ;;
         day <- json_value json_data "day" key ;;
         time_period <- json_value json_data "time_period" key ;;
         date_uuid <- json_value json_data "date_uuid" key ;;
         Ok [timestamp; month; year; day; time_period; date_uuid])
      (Frame.dict_keys timestamps) ;;
  Ok (Frame.of_records
        ["timestamp"; "month"; "year"; "day"; "time_period"; "date_uuid"] records).

Definition remove_null_rows (df : DataFrame) : res DataFrame :=
  let df := Pd.applymap (Pd.replace "NULL" NaN) df in
  Frame.dropna ["timestamp"; "day"; "month"; "year"] df.

(** *** The other pipelines *)


Definition clean_card_details (df : DataFrame) : res DataFrame :=
  let df := standardize_nulls df in
  df <- clean_dates df ["date_payment_confirmed"] ;;
  let df := remove_invalid_rows df in
  clean_card_number df.

Definition clean_store_details (df : DataFrame) : res DataFrame :=
  let df := standardize_nulls df in
  df <- clean_address df ;;
  df <- merge_latitude_columns df ;;
  df <- clean_dates df ["opening_date"] ;;
  df <- clean_categorical_columns df ;;
  df <- clean_locality df ;;
  let df := clean_store_code df in
  df <- clean_staff_numbers df ;;
  remove_invalid_rows_excluding_store_code df.

Definition clean_date_events_data (json_data : Frame.Dict (Frame.Dict Cell))
    : res DataFrame :=
  df <- reformat_json_to_df json_data ;;
  df <- remove_null_rows df ;;
  let df := remove_invalid_rows_date_events_data df in
  combine_datetime_columns df.

(** *** The cleaning steps of the callers in src/main.py *)

(** [card_details_clean], between the extraction and the upload: the card
    number is cleaned before the rows are filtered. *)
Definition card_details_clean (pdf_data_df : DataFrame) : res DataFrame :=
  let cleaned_df := standardize_nulls pdf_data_df in
  cleaned_df <- clean_card_number cleaned_df ;;
  cleaned_df <- clean_dates cleaned_df ["date_payment_confirmed"] ;;
  Ok (remove_invalid_rows cleaned_df).

(** [lambda x: re.sub(r',\s*', ', ', x) if isinstance(x, str) else x] *)
Definition comma_lambda (x : Cell) : Cell :=
  match x with
  | Str s => Str (Text.comma_space s)
  | _ => x
  end.

(** [stores_clean], between the extraction and the upload. *)
Definition stores_clean (stores_df : DataFrame) : res DataFrame :=
  cleaned_df <- clean_store_details stores_df ;;
  Ok (Pd.applymap comma_lambda cleaned_df).

(** *** Vocabulary of the statements *)

(** What [standardize_nulls] does to one cell. *)
Definition standardize_cell (x : Cell) : Cell :=
  Pd.where_notnull NaN (Pd.replace_any null_representations NaN x).

(** The cell is one of the sentinel texts. *)
Definition is_sentinel (x : Cell) : bool :=
  existsb (cell_eq_str x) null_representations.

(** Some cell of the table is a sentinel text. *)
Definition has_sentinel (df : DataFrame) : bool :=
  existsb (existsb is_sentinel) (rows df).

(** The rule of the specification for the store table: a row is dropped
    when it holds the ten-character pattern and its store code is not the
    preserved literal, or when its store code is missing and not that
    literal.  [i] is the position of [store_code]. *)
Definition dropped_by_stated_rule (i : nat) (row : list Cell) : bool :=
  let store_code := Pd.at_ i row in
  (row_is_invalid row && negb (cell_eq_str store_code "WEB-1388012W"))
  || (isna store_code && negb (cell_eq_str store_code "WEB-1388012W")).

(** A dated or missing cell. *)
Definition date_or_missing (c : Cell) : Prop := c = NaN \/ exists t, c = Date t.

(** A number or the missing value. *)
Definition number_or_missing (c : Cell) : Prop := c = NaN \/ exists q, c = Num q.

(** The labels after [df[label] = ...]. *)
Definition cols_set (label : string) (cols : list string) : list string :=
  match Pd.index_of label cols with
  | Some _ => cols
  | None => cols ++ [label]
  end.

(** Every row has one cell per column. *)
Definition aligned (df : DataFrame) : Prop :=
  Forall (fun r => List.length r = List.length (columns df)) (rows df).

(** The column [label] exists and all its cells satisfy [P]. *)
Definition col_all (P : Cell -> Prop) (label : string) (df : DataFrame) : Prop :=
  exists i, Pd.index_of label (columns df) = Some i /\
            forall r, In r (rows df) -> P (Pd.at_ i r).

(** A text or the missing value. *)
Definition text_or_missing (c : Cell) : Prop := c = NaN \/ exists s, c = Str s.

(** Rewrites the cell at position [i] of a row by [f]. *)
Definition update_col (i : nat) (f : Cell -> Cell) (r : list Cell) : list Cell :=
  Pd.set_nth i (f (Pd.at_ i r)) r.

(** The text of the cell holds no digit. *)
Definition digit_free (x : Cell) : Prop := Py.any_digit (py_str x) = false.


(** The value under a key, or the missing value when the key is absent. *)
Definition dict_value (d : Frame.Dict Cell) (key : string) : Cell :=
  match Frame.dict_getitem d key with
  | Ok v => v
  | Raise _ => NaN
  end.

(** The columns that [reformat_json_to_df] gives its table. *)
Definition date_event_columns : list string :=
  ["timestamp"; "month"; "year"; "day"; "time_period"; "date_uuid"].

(** The text holds no "/". *)
Definition no_slash (s : string) : Prop :=
  existsb (Ascii.eqb "/") (Py.chars s) = false.

(** The number of "/" in the text. *)
Definition count_slash (s : string) : nat :=
  List.length (filter (Ascii.eqb "/") (Py.chars s)).

(** The same columns and as many rows. *)
Definition same_shape (a b : DataFrame) : Prop :=
  columns a = columns b /\ List.length (rows a) = List.length (rows b).

(** No cell of the table is the ten-character pattern. *)
Definition pattern_free (df : DataFrame) : Prop :=
  forall r x, In r (rows df) -> In x r -> is_invalid_pattern x = false.

(** *** Tables for the runs *)


Definition stores_example : DataFrame :=
  mkDF ["address"; "longitude"; "lat"; "locality"; "store_code"; "staff_numbers";
        "opening_date"; "store_type"; "latitude"; "country_code"; "continent"]
    [[Str "N/A"; Str "N/A"; NaN; Str "N/A"; Str "WEB-1388012W"; Str "325";
      Str "2010-06-12"; Str "Web Portal"; NaN; Str "GB"; Str "Europe"];
     [Str ("Flat 72W" ++ line_feed ++ "Sally isle,East Deantown"); Str "51.62907";
      Str "13.1"; Str "High Wycombe"; Str "HI-9B97EE4E"; Str "3n9";
      Str "1996-10-25"; Str "Local"; Str "-0.74934"; Str "GB"; Str "eeEurope"];
     [Str "NULL"; Str "NULL"; Str "NULL"; Str "NULL"; Str "NULL"; Str "NULL";
      Str "NULL"; Str "NULL"; Str "NULL"; Str "NULL"; Str "NULL"]].

Definition date_events_example : Frame.Dict (Frame.Dict Cell) :=
  [("timestamp", [("0", Str "22:00:06"); ("1", Str "NULL"); ("2", Str "10:15:00")]);
   ("month", [("0", Str "9"); ("1", Str "2"); ("2", Str "7")]);
   ("year", [("0", Str "2012"); ("1", Str "1997"); ("2", Str "2001")]);
   ("day", [("0", Str "19"); ("1", Str "10"); ("2", Str "4")]);
   ("time_period", [("0", Str "Evening"); ("1", Str "Morning"); ("2", Str "Morning")]);
   ("date_uuid", [("0", Str "3b7ca996-37f9-433f-b6d0-ce8391b615ad");
                  ("1", Str "adc86836-6c35-49ca-bb0d-65b6507a00fa");
                  ("2", Str "NRQKZWJ9OZ")])].

(* ===================================================================== *)
(** ** Properties *)
(* ===================================================================== *)

(** *** Characters and lists *)







Lemma select_map_filter {A : Type} (p : A -> bool) (l : list A) :
  Pd.select (map p l) l = filter p l.
Proof.
  induction l as [|a l IH]; simpl; [reflexivity|].
  destruct (p a); rewrite IH; reflexivity.
Qed.

Lemma mem_In (x : string) (l : list string) :
  Pd.mem x l = true <-> In x l.
Proof.
  unfold Pd.mem. rewrite existsb_exists. split.
  - intros [y [Hin Heq]]. apply String.eqb_eq in Heq. subst. exact Hin.
  - intros Hin. exists x. split; [exact Hin | apply String.eqb_refl].
Qed.

Lemma mem_false_In (x : string) (l : list string) :
  Pd.mem x l = false <-> ~ In x l.
Proof.
  rewrite <- mem_In. destruct (Pd.mem x l); split; intros H; congruence.
Qed.

Lemma index_of_Some_In (label : string) (cols : list string) (i : nat) :
  Pd.index_of label cols = Some i -> In label cols.
Proof.
  revert i. induction cols as [|c cols IH]; simpl; intros i; [discriminate|].
  destruct (String.eqb c label) eqn:E.
  - apply String.eqb_eq in E. auto.
  - destruct (Pd.index_of label cols); [|discriminate]. intros _. right. eapply IH. reflexivity.
Qed.

Lemma In_index_of (label : string) (cols : list string) :
  In label cols -> exists i, Pd.index_of label cols = Some i.
Proof.
  induction cols as [|c cols IH]; simpl; [intros []|].
  intros H. destruct (String.eqb c label) eqn:E; [exists 0; reflexivity|].
  destruct H as [H|H].
  - subst. rewrite String.eqb_refl in E. discriminate.
  - destruct (IH H) as [i Hi]. rewrite Hi. exists (S i). reflexivity.
Qed.

Lemma index_of_None (label : string) (cols : list string) :
  Pd.index_of label cols = None <-> ~ In label cols.
Proof.
  split.
  - intros H Hin. destruct (In_index_of _ _ Hin) as [i Hi]. congruence.
  - intros H. destruct (Pd.index_of label cols) eqn:E; [|reflexivity].
    apply index_of_Some_In in E. contradiction.
Qed.

Lemma assign_map (f : list Cell -> Cell -> list Cell) (g : list Cell -> Cell)
    (rs : list (list Cell)) :
  Pd.assign f rs (map g rs) = map (fun r => f r (g r)) rs.
Proof.
  induction rs as [|r rs IH]; simpl; [reflexivity|]. rewrite IH. reflexivity.
Qed.

Lemma assign_length (f : list Cell -> Cell -> list Cell) (rs : list (list Cell))
    (values : list Cell) :
  List.length (Pd.assign f rs values) = List.length rs.
Proof.
  revert values. induction rs as [|r rs IH]; simpl; intros values; [reflexivity|].
  rewrite IH. reflexivity.
Qed.

(** *** The primitives on examples *)

Example fullmatch_ymd_dash :
  Re.fullmatch Re.ymd_dash "2023-04-01" = true
  /\ Re.fullmatch Re.ymd_dash ("2023-04-01" ++ String (ascii_of_nat 10) "") = true
  /\ Re.fullmatch Re.ymd_dash "2023-4-01" = false
  /\ Re.fullmatch Re.ymd_dash "2023-04-01 " = false.
Proof. repeat split; reflexivity. Qed.

Example fullmatch_month_name :
  Re.fullmatch Re.month_year_day "October 2000 22" = true
  /\ Re.fullmatch Re.year_month_day "2000 October 22" = true
  /\ Re.fullmatch Re.month_year_day "October 22" = false.
Proof. repeat split; reflexivity. Qed.

Example strptime_formats :
  Strptime.strptime Strptime.dmY_slash "22/10/2000" = Ok (date 2000 10 22)
  /\ Strptime.strptime Strptime.my_slash "04/23" = Ok (date 2023 4 1)
  /\ Strptime.strptime Strptime.my_slash "04/69" = Ok (date 1969 4 1)
  /\ Strptime.strptime Strptime.BYd "October 2000 22" = Ok (date 2000 10 22)
  /\ Strptime.strptime Strptime.YBd "2000 OCTOBER 22" = Ok (date 2000 10 22).
Proof. repeat split; vm_compute; reflexivity. Qed.

Example strptime_rejects :
  Strptime.strptime Strptime.Ymd_dash "2023-02-29" = Raise ValueError
  /\ Strptime.strptime Strptime.Ymd_dash "2023-13-01" = Raise ValueError
  /\ Strptime.strptime Strptime.Ymd_dash ("2023-04-01" ++ String (ascii_of_nat 10) "")
     = Raise ValueError
  /\ Strptime.strptime Strptime.BYd "Octember 2000 22" = Raise ValueError
  /\ Strptime.strptime Strptime.Ymd_dash "1500-01-01" = Raise OutOfBoundsDatetime.
Proof. repeat split; vm_compute; reflexivity. Qed.

Example re_split_number_parts :
  Quantity.re_split_number "100g" = [""; "100"; "g"]
  /\ Quantity.re_split_number "kg100" = ["kg"; "100"; ""]
  /\ Quantity.re_split_number "12x100g" = [""; "12"; "x"; "100"; "g"]
  /\ Quantity.re_split_number "1.5.3kg" = [""; "1.5"; "."; "3"; "kg"]
  /\ Quantity.re_split_number "abc" = ["abc"].
Proof. repeat split; reflexivity. Qed.

Example float_of_text_cases :
  Quantity.float_of_text "1.5" = Ok (3 # 2)
  /\ Quantity.float_of_text "100" = Ok (100 # 1)
  /\ Quantity.float_of_text "7." = Ok (7 # 1)
  /\ Quantity.float_of_text "" = Raise ValueError.
Proof. repeat split; vm_compute; reflexivity. Qed.

Example str_methods :
  Py.replace " " "" "2 li ters" = "2liters"
  /\ Py.strip (Py.lower "  KG ") = "kg"
  /\ Py.contains "g" "kg" = true
  /\ Py.contains "kg" "liters" = false
  /\ Py.digits_only "+44 (0)20 7946" = "440207946"
  /\ Py.isalnum "" = false.
Proof. repeat split; reflexivity. Qed.

(** *** The row-validity predicate (C3) *)


(** *** Null standardisation (C6) *)

Lemma standardize_nulls_cells (df : DataFrame) :
  standardize_nulls df = mkDF (columns df) (map (map standardize_cell) (rows df)).
Proof.
  unfold standardize_nulls, Pd.applymap. simpl. f_equal.
  rewrite map_map. apply map_ext. intros r. rewrite map_map. reflexivity.
Qed.

Lemma standardize_cell_cases (x : Cell) :
  standardize_cell x = if is_sentinel x then NaN else x.
Proof.
  unfold standardize_cell, Pd.replace_any, is_sentinel.
  destruct (existsb (cell_eq_str x) null_representations); [reflexivity|].
  destruct x; reflexivity.
Qed.

Lemma standardize_cell_idempotent (x : Cell) :
  standardize_cell (standardize_cell x) = standardize_cell x.
Proof.
  rewrite (standardize_cell_cases x). destruct (is_sentinel x) eqn:E.
  - reflexivity.
  - rewrite standardize_cell_cases, E. reflexivity.
Qed.

Lemma standardize_cell_fixed (x : Cell) :
  is_sentinel x = false -> standardize_cell x = x.
Proof.
  intros H. rewrite standardize_cell_cases, H. reflexivity.
Qed.

Lemma map_fixed {A : Type} (f : A -> A) (p : A -> bool) (l : list A) :
  (forall x, p x = false -> f x = x) -> existsb p l = false -> map f l = l.
Proof.
  intros Hf. induction l as [|a l IH]; simpl; [reflexivity|].
  rewrite orb_false_iff. intros [Ha Hl]. rewrite (Hf a Ha), (IH Hl). reflexivity.
Qed.

(** C6.  [standardize_nulls] is idempotent, and it returns a table that
    holds none of the sentinel texts "NULL", "None", "N/A" and "" as it
    received it. *)
Theorem standardize_nulls_idempotent (df : DataFrame) :
  standardize_nulls (standardize_nulls df) = standardize_nulls df
  /\ (has_sentinel df = false -> standardize_nulls df = df).
Proof.
  split.
  - rewrite !standardize_nulls_cells. simpl. f_equal.
    rewrite map_map. apply map_ext. intros r. rewrite map_map.
    apply map_ext. apply standardize_cell_idempotent.
  - intros H. rewrite standardize_nulls_cells. destruct df as [cols rs].
    simpl. f_equal. unfold has_sentinel in H. simpl in H.
    apply (map_fixed _ (existsb is_sentinel)); [|exact H].
    intros r Hr. apply (map_fixed _ is_sentinel); [|exact Hr].
    apply standardize_cell_fixed.
Qed.

(** *** The store-code filter (C1) *)

Lemma store_code_mask (i : nat) (rs : list (list Cell)) :
  map (fun '(x, preserved) => negb (isna x) || preserved)
    (combine (map (Pd.at_ i) rs)
       (map (fun x => cell_eq_str x "WEB-1388012W") (map (Pd.at_ i) rs)))
  = map (fun r => negb (isna (Pd.at_ i r))) rs.
Proof.
  induction rs as [|r rs IH]; simpl; [reflexivity|]. rewrite IH. f_equal.
  destruct (Pd.at_ i r); simpl; try reflexivity.
Qed.

(** C1, as the code has it.  When the table has a [store_code] column,
    [remove_invalid_rows_excluding_store_code] returns it with exactly the
    rows whose store code is missing removed; every other row is kept, in
    order, whatever its other cells hold. *)
Theorem remove_invalid_rows_excluding_store_code_drops_missing
    (df : DataFrame) (i : nat) :
  Pd.loc "store_code" df = Ok i ->
  remove_invalid_rows_excluding_store_code df
  = Ok (mkDF (columns df) (filter (fun r => negb (isna (Pd.at_ i r))) (rows df))).
Proof.
  intros Hloc. unfold remove_invalid_rows_excluding_store_code, Pd.getitem.
  rewrite Hloc. simpl. unfold Pd.getitem_mask. rewrite store_code_mask.
  rewrite select_map_filter. reflexivity.
Qed.

(** *** Dropping columns (C10) *)

Lemma drop_ignore (labels : list string) (df : DataFrame) :
  Pd.drop labels true df
  = Ok (mkDF (filter (fun c => negb (Pd.mem c labels)) (columns df))
          (map (Pd.select (map (fun c => negb (Pd.mem c labels)) (columns df)))
             (rows df))).
Proof.
  unfold Pd.drop. rewrite select_map_filter.
  destruct (filter (fun l => negb (Pd.mem l (columns df))) labels); reflexivity.
Qed.

Lemma drop_raise_present (labels : list string) (df : DataFrame) :
  (forall l, In l labels -> In l (columns df)) ->
  Pd.drop labels false df
  = Ok (mkDF (filter (fun c => negb (Pd.mem c labels)) (columns df))
          (map (Pd.select (map (fun c => negb (Pd.mem c labels)) (columns df)))
             (rows df))).
Proof.
  intros H. unfold Pd.drop. rewrite select_map_filter.
  destruct (filter (fun l => negb (Pd.mem l (columns df))) labels) eqn:E;
    [reflexivity|].
  assert (Hin : In s (filter (fun l => negb (Pd.mem l (columns df))) labels))
    by (rewrite E; left; reflexivity).
  apply filter_In in Hin. destruct Hin as [Hl Hm].
  apply negb_true_iff, mem_false_In in Hm. elim Hm. apply H. exact Hl.
Qed.

Lemma select_length (p : string -> bool) (cols : list string) (row : list Cell) :
  List.length row = List.length cols ->
  List.length (Pd.select (map p cols) row) = List.length (filter p cols).
Proof.
  revert row. induction cols as [|c cols IH]; intros [|x row]; simpl;
    try discriminate; try reflexivity.
  intros H. injection H as H. destruct (p c); simpl; rewrite (IH row H); reflexivity.
Qed.

(** A column that the filter keeps is found again, at the position where
    its cells went. *)
Lemma select_column (p : string -> bool) (label : string) (cols : list string) :
  p label = true ->
  match Pd.index_of label cols with
  | Some i =>
      exists j, Pd.index_of label (filter p cols) = Some j /\
        forall row, List.length row = List.length cols ->
          Pd.at_ j (Pd.select (map p cols) row) = Pd.at_ i row
  | None => Pd.index_of label (filter p cols) = None
  end.
Proof.
  intros Hp. induction cols as [|c cols IH]; simpl; [reflexivity|].
  destruct (String.eqb c label) eqn:E.
  - apply String.eqb_eq in E. subst c. rewrite Hp. simpl.
    rewrite String.eqb_refl. exists 0. split; [reflexivity|].
    intros [|x row]; simpl; [discriminate|]. intros _. try rewrite Hp. reflexivity.
  - destruct (Pd.index_of label cols) as [i|].
    + destruct IH as [j [Hj Hrow]]. destruct (p c) eqn:Ec; simpl.
      * rewrite E, Hj. exists (S j). split; [reflexivity|].
        intros [|x row]; simpl; [discriminate|]. intros H. injection H as H.
        try rewrite Ec. apply (Hrow row H).
      * exists j. split; [exact Hj|].
        intros [|x row]; simpl; [discriminate|]. intros H. injection H as H.
        try rewrite Ec. apply (Hrow row H).
    + destruct (p c) eqn:Ec; simpl; [rewrite E, IH; reflexivity | exact IH].
Qed.

Lemma NoDup_filter {A : Type} (p : A -> bool) (l : list A) :
  NoDup l -> NoDup (filter p l).
Proof.
  induction 1 as [|a l Hnin Hnd IH]; simpl; [constructor|].
  destruct (p a); [|exact IH]. constructor; [|exact IH].
  rewrite filter_In. tauto.
Qed.

(** C10.  [drop_columns] returns a table for every table and every list
    of names: its columns are those of the input that are not listed, in
    order; a listed name that is not a column is passed over; no row is
    lost; and on a well-formed table every remaining column keeps its
    cells. *)
Theorem drop_columns_ignores_absent (df : DataFrame) (names : list string) :
  exists df',
    drop_columns df names = Ok df'
    /\ columns df' = filter (fun c => negb (Pd.mem c names)) (columns df)
    /\ (forall c, In c (columns df') <-> In c (columns df) /\ ~ In c names)
    /\ List.length (rows df') = List.length (rows df)
    /\ (Pd.wf df ->
        Pd.wf df' /\
        forall c, ~ In c names -> Pd.getitem c df' = Pd.getitem c df).
Proof.
  unfold drop_columns. rewrite drop_ignore. eexists. split; [reflexivity|].
  simpl. split; [reflexivity|]. split; [|split].
  - intros c. rewrite filter_In, negb_true_iff, mem_false_In. reflexivity.
  - apply length_map.
  - intros [Hnd Hlen]. split.
    + split; simpl; [apply NoDup_filter; exact Hnd|].
      rewrite Forall_forall in Hlen. rewrite Forall_forall. intros r Hr.
      apply in_map_iff in Hr. destruct Hr as [r0 [<- Hr0]].
      apply select_length. apply Hlen. exact Hr0.
    + intros c Hc. unfold Pd.getitem, Pd.loc. simpl.
      assert (Hp : negb (Pd.mem c names) = true)
        by (apply negb_true_iff, mem_false_In; exact Hc).
      pose proof (select_column (fun c => negb (Pd.mem c names)) c (columns df) Hp) as Hsel.
      destruct (Pd.index_of c (columns df)) as [i|].
      * destruct Hsel as [j [Hj Hrow]]. rewrite Hj. simpl. f_equal.
        rewrite map_map. apply map_ext_in. intros r Hr. apply Hrow.
        rewrite Forall_forall in Hlen. apply Hlen. exact Hr.
      * rewrite Hsel. reflexivity.
Qed.

(** *** Country code (C8) *)

Lemma set_nth_length {A : Type} (i : nat) (v : A) (l : list A) :
  List.length (Pd.set_nth i v l) = List.length l.
Proof.
  revert i. induction l as [|x l IH]; intros [|i]; simpl; try reflexivity.
  rewrite IH. reflexivity.
Qed.

Lemma at_set_nth_same (i : nat) (v : Cell) (r : list Cell) :
  i < List.length r -> Pd.at_ i (Pd.set_nth i v r) = v.
Proof.
  revert i. induction r as [|x r IH]; intros [|i]; simpl; try lia; [reflexivity|].
  intros H. apply IH. lia.
Qed.

Lemma at_set_nth_other (i j : nat) (v : Cell) (r : list Cell) :
  i <> j -> Pd.at_ j (Pd.set_nth i v r) = Pd.at_ j r.
Proof.
  revert i j. induction r as [|x r IH]; intros [|i] [|j] H; simpl;
    try reflexivity; try lia.
  apply IH. lia.
Qed.

Lemma set_nth_twice {A : Type} (i : nat) (v w : A) (l : list A) :
  Pd.set_nth i w (Pd.set_nth i v l) = Pd.set_nth i w l.
Proof.
  revert i. induction l as [|x l IH]; intros [|i]; simpl; try reflexivity.
  rewrite IH. reflexivity.
Qed.

Lemma set_nth_beyond {A : Type} (i : nat) (v : A) (l : list A) :
  List.length l <= i -> Pd.set_nth i v l = l.
Proof.
  revert i. induction l as [|x l IH]; intros [|i]; simpl; try reflexivity; try lia.
  intros H. rewrite IH; [reflexivity | lia].
Qed.

(** Writing an existing column from its own cells. *)
Lemma setitem_map_existing (label : string) (i : nat) (f : Cell -> Cell)
    (df : DataFrame) :
  Pd.loc label df = Ok i ->
  Pd.setitem label (map f (map (Pd.at_ i) (rows df))) df
  = mkDF (columns df) (map (fun r => Pd.set_nth i (f (Pd.at_ i r)) r) (rows df)).
Proof.
  unfold Pd.loc, Pd.setitem. destruct (Pd.index_of label (columns df)); [|discriminate].
  intros H. injection H as ->. rewrite map_map, assign_map. reflexivity.
Qed.


(** C8.  On the country code, "GGB" becomes "GB", "USA1" becomes missing
    and "USA" stays; a value whose text holds a digit becomes missing (in
    [country] as well); a value whose text is longer than three
    characters becomes missing. *)
Theorem clean_country_code_cases :
  clean_country_code_cell (Str "GGB") = Str "GB"
  /\ clean_country_code_cell (Str "USA1") = NaN
  /\ clean_country_code_cell (Str "USA") = Str "USA"
  /\ (forall x, Py.any_digit (py_str x) = true ->
        clean_country_code_cell x = NaN /\ country_lambda x = NaN)
  /\ (forall x, 3 < String.length (py_str x) -> clean_country_code_cell x = NaN)
  /\ clean_country_columns
       (mkDF ["country"; "country_code"]
          [[Str "United Kingdom"; Str "GGB"]; [Str "United States"; Str "USA1"];
           [Str "United States"; Str "USA"]; [Str "Germany"; Str "GERM"]])
     = Ok (mkDF ["country"; "country_code"]
             [[Str "United Kingdom"; Str "GB"]; [Str "United States"; NaN];
              [Str "United States"; Str "USA"]; [Str "Germany"; NaN]]).
Proof.
  split; [reflexivity|]. split; [reflexivity|]. split; [reflexivity|].
  split; [|split; [|reflexivity]].
  - intros x H. unfold clean_country_code_cell, country_code_lambda, country_lambda.
    rewrite H. split; reflexivity.
  - intros x H. unfold clean_country_code_cell, country_code_lambda.
    apply Nat.leb_gt in H. rewrite H, andb_false_r. reflexivity.
Qed.

(** *** Phone number (C9) *)

(** C9.  [clean_phone_number] writes, in every row, the digits of the
    text of the phone cell; for a missing cell that text is "nan", so the
    cell becomes the empty text and is no longer missing. *)
Theorem clean_phone_number_missing_becomes_empty (df : DataFrame) (i : nat) :
  Pd.loc "phone_number" df = Ok i ->
  exists df',
    clean_phone_number df = Ok df'
    /\ columns df' = columns df
    /\ rows df'
       = map (fun r => Pd.set_nth i (Str (Py.digits_only (py_str (Pd.at_ i r)))) r)
           (rows df)
    /\ phone_lambda NaN = Str ""
    /\ (forall r, In r (rows df) -> Pd.at_ i r = NaN ->
          In (Pd.set_nth i (Str "") r) (rows df')).
Proof.
  intros Hloc. unfold clean_phone_number, Pd.getitem. rewrite Hloc. simpl.
  rewrite (setitem_map_existing _ _ _ _ Hloc). eexists. split; [reflexivity|].
  simpl. split; [reflexivity|]. split; [reflexivity|]. split; [reflexivity|].
  intros r Hr Hna. apply in_map_iff. exists r. split; [|exact Hr].
  unfold phone_lambda. rewrite Hna. reflexivity.
Qed.

(** *** Weight (C4) *)

(** C4.  [clean_weight_column] turns "100g" into 0.1, "1.5kg" into 1.5,
    "2 liters" into 2, and "abc" and "kg100" into missing; a number of
    grams is divided by 1000, a number of kilograms or of liters is kept. *)
Theorem clean_weight_column_examples :
  clean_weight_column
    (mkDF ["weight"]
       [[Str "100g"]; [Str "1.5kg"]; [Str "2 liters"]; [Str "abc"]; [Str "kg100"]])
  = Ok (mkDF ["weight_kg"]
          [[Num (1 # 10)]; [Num (3 # 2)]; [Num (2 # 1)]; [NaN]; [NaN]])
  /\ weight_kg_of (Str "100g") = Ok (Num (1 # 10))
  /\ weight_kg_of (Str "1.5kg") = Ok (Num (3 # 2))
  /\ weight_kg_of (Str "2 liters") = Ok (Num (2 # 1))
  /\ weight_kg_of (Str "abc") = Ok NaN
  /\ weight_kg_of (Str "kg100") = Ok NaN
  /\ (forall q : Q,
        convert_to_kilograms ["number"; "unit"] [Num q; Str "g"]
        = Ok (Num (Qred (q / 1000)))
        /\ convert_to_kilograms ["number"; "unit"] [Num q; Str "kg"] = Ok (Num q)
        /\ convert_to_kilograms ["number"; "unit"] [Num q; Str "liters"] = Ok (Num q)).
Proof.
  do 6 (split; [vm_compute; reflexivity|]).
  intros q. repeat split; reflexivity.
Qed.

(** *** Dates (C2) *)

Lemma to_datetime_coerce_shape (x : Cell) :
  to_datetime_coerce x = NaN \/ exists t, to_datetime_coerce x = Date t.
Proof.
  destruct x as [|s|q|t]; simpl.
  - left. reflexivity.
  - destruct (to_datetime_text s); simpl; eauto.
  - destruct (to_datetime_num q); simpl; eauto.
  - eauto.
Qed.

Lemma guarded_format (s : string) (fmt : list Strptime.directive) :
  exists c,
    try_except (to_datetime_format s fmt) any_exception (Ok NaN) = Ok c
    /\ date_or_missing c.
Proof.
  unfold to_datetime_format, date_or_missing.
  destruct (Strptime.strptime fmt s) as [t|e]; simpl; eauto.
Qed.

(** [parse_non_standard_dates] returns for every value, with a timestamp
    or the missing value. *)
Lemma parse_non_standard_dates_total (x : Cell) :
  exists c, parse_non_standard_dates x = Ok c /\ date_or_missing c.
Proof.
  unfold parse_non_standard_dates.
  destruct x as [|s|q|t]; try (exists NaN; split; [reflexivity | left; reflexivity]).
  repeat match goal with
         | |- context [if Re.fullmatch ?p s then _ else _] =>
             destruct (Re.fullmatch p s)
         end; try apply guarded_format.
  simpl try_except. eexists. split; [reflexivity|].
  apply (to_datetime_coerce_shape (Str s)).
Qed.

Lemma clean_dates_lambda_total (x : Cell) :
  exists c, clean_dates_lambda x = Ok c /\ date_or_missing c.
Proof.
  unfold clean_dates_lambda. destruct (isna (to_datetime_coerce x)).
  - apply parse_non_standard_dates_total.
  - eexists. split; [reflexivity|]. apply to_datetime_coerce_shape.
Qed.

(** When the generic parser reads a text, [clean_dates] takes its
    reading; the format rules are not consulted. *)
Lemma clean_dates_lambda_generic_first (s : string) (t : Timestamp) :
  to_datetime_text s = Some t -> clean_dates_lambda (Str s) = Ok (Date t).
Proof.
  intros H. unfold clean_dates_lambda. simpl. rewrite H. reflexivity.
Qed.

(** The format rules on the literal cases of the specification, whatever
    the generic parser is. *)
Lemma parse_non_standard_dates_literals :
  parse_non_standard_dates (Str "2023-04-01") = Ok (Date (date 2023 4 1))
  /\ parse_non_standard_dates (Str "01/04/2023") = Ok (Date (date 2023 4 1))
  /\ parse_non_standard_dates (Str "04/23") = Ok (Date (date 2023 4 1))
  /\ parse_non_standard_dates (Str "not-a-date")
     = Ok (of_parse (to_datetime_text "not-a-date")).
Proof.
  repeat split; vm_compute; reflexivity.
Qed.

(** C2, where the code departs from it.  [clean_dates] asks the generic
    parser first.  pandas' generic parser reads "01/04/2023" with the
    month first, and then the cell becomes 4 January 2023: the format
    rule [%d/%m/%Y] of [parse_non_standard_dates], which reads the text
    as 1 April 2023, is not reached. *)
Theorem clean_dates_reads_month_first :
  to_datetime_text "01/04/2023" = Some (date 2023 1 4) ->
  clean_dates_lambda (Str "01/04/2023") = Ok (Date (date 2023 1 4))
  /\ parse_non_standard_dates (Str "01/04/2023") = Ok (Date (date 2023 4 1)).
Proof.
  intros H. split.
  - apply clean_dates_lambda_generic_first. exact H.
  - vm_compute. reflexivity.
Qed.

Lemma apply_total {A B : Type} (f : A -> res B) (l : list A) :
  (forall x, In x l -> exists y, f x = Ok y) ->
  exists ys, Pd.apply f l = Ok ys /\ List.length ys = List.length l.
Proof.
  induction l as [|a l IH]; simpl; intros H.
  - exists []. auto.
  - destruct (H a (or_introl eq_refl)) as [y Hy]. rewrite Hy. simpl.
    destruct IH as [ys [Hys Hlen]]; [intros x Hx; apply H; right; exact Hx|].
    rewrite Hys. simpl. exists (y :: ys). simpl. auto.
Qed.

Lemma apply_Ok_In {A B : Type} (f : A -> res B) (l : list A) (ys : list B) (x : A) :
  Pd.apply f l = Ok ys -> In x l -> exists y, f x = Ok y /\ In y ys.
Proof.
  revert ys. induction l as [|a l IH]; simpl; intros ys Hok Hin; [contradiction|].
  destruct (f a) as [y|e] eqn:Ea; simpl in Hok; [|discriminate].
  destruct (Pd.apply f l) as [ys'|e]; simpl in Hok; [|discriminate].
  injection Hok as <-. destruct Hin as [<-|Hin].
  - exists y. simpl. auto.
  - destruct (IH ys' eq_refl Hin) as [y' [Hy' Hin']]. exists y'. simpl. auto.
Qed.

Lemma apply_Ok_all {A B : Type} (f : A -> res B) (l : list A) (ys : list B) (y : B) :
  Pd.apply f l = Ok ys -> In y ys -> exists x, In x l /\ f x = Ok y.
Proof.
  revert ys. induction l as [|a l IH]; simpl; intros ys Hok Hin.
  - injection Hok as <-. contradiction.
  - destruct (f a) as [y0|e] eqn:Ea; simpl in Hok; [|discriminate].
    destruct (Pd.apply f l) as [ys'|e]; simpl in Hok; [|discriminate].
    injection Hok as <-. destruct Hin as [<-|Hin].
    + exists a. auto.
    + destruct (IH ys' eq_refl Hin) as [x [Hx Hfx]]. exists x. auto.
Qed.

Lemma apply_raises {A B : Type} (f : A -> res B) (l : list A) (x : A) :
  In x l -> is_ok (f x) = false -> is_ok (Pd.apply f l) = false.
Proof.
  intros Hin Hx. destruct (Pd.apply f l) as [ys|e] eqn:E; [|reflexivity].
  destruct (apply_Ok_In _ _ _ _ E Hin) as [y [Hy _]]. rewrite Hy in Hx. discriminate.
Qed.

Lemma columns_setitem_In (label c : string) (values : list Cell) (df : DataFrame) :
  In c (columns df) -> In c (columns (Pd.setitem label values df)).
Proof.
  unfold Pd.setitem. destruct (Pd.index_of label (columns df)); simpl;
    intros H; [exact H|].
  apply in_or_app. left. exact H.
Qed.

Lemma getitem_present (label : string) (df : DataFrame) :
  In label (columns df) -> exists col, Pd.getitem label df = Ok col.
Proof.
  intros H. unfold Pd.getitem, Pd.loc.
  destruct (In_index_of _ _ H) as [i Hi]. rewrite Hi. simpl. eauto.
Qed.

(** [clean_dates] returns for every table that has the date columns. *)
Lemma clean_dates_total (date_columns : list string) (df : DataFrame) :
  (forall c, In c date_columns -> In c (columns df)) ->
  exists df', clean_dates df date_columns = Ok df'.
Proof.
  revert df. induction date_columns as [|col cols IH]; simpl; intros df H; [eauto|].
  destruct (getitem_present col df) as [values Hv]; [apply H; auto|].
  rewrite Hv. simpl.
  destruct (apply_total clean_dates_lambda values) as [values' [Ha _]].
  { intros x _. destruct (clean_dates_lambda_total x) as [c [Hc _]]. eauto. }
  rewrite Ha. simpl. apply IH. intros c Hc. apply columns_setitem_In. apply H. auto.
Qed.

(** *** Weight *)

Lemma normalize_units_text (u : string) :
  exists c, normalize_units (Str u) = Ok c /\ (c = NaN \/ exists v, c = Str v).
Proof.
  unfold normalize_units.
  repeat match goal with
         | |- context [if ?b then _ else _] => destruct b
         end; eauto.
Qed.

Lemma py_float_raises (n : Cell) (e : exn) :
  py_float n = Raise e -> type_or_value_error e = true.
Proof.
  destruct n as [|s|q|t]; simpl; intros H; try discriminate;
    try (injection H as <-; reflexivity).
  unfold Quantity.float_of_text in H.
  destruct (Quantity.decimal false false 0 1 s); [discriminate|].
  injection H as <-. reflexivity.
Qed.

Lemma convert_to_kilograms_row (n unit : Cell) :
  convert_to_kilograms ["number"; "unit"] [n; unit]
  = try_except
      (number <- py_float n ;;
       if cell_eq_str unit "g" then Ok (Num (Qred (number / 1000)))
       else if cell_eq_str unit "kg" then Ok (Num number)
       else if cell_eq_str unit "liters" then Ok (Num number)
       else Ok NaN)
      type_or_value_error (Ok NaN).
Proof. reflexivity. Qed.

Lemma convert_to_kilograms_total (n unit : Cell) :
  exists c, convert_to_kilograms ["number"; "unit"] [n; unit] = Ok c
            /\ number_or_missing c.
Proof.
  rewrite convert_to_kilograms_row. unfold number_or_missing.
  destruct (py_float n) as [number|e] eqn:E; unfold bind, try_except.
  - destruct (cell_eq_str unit "g");
      [|destruct (cell_eq_str unit "kg");
        [|destruct (cell_eq_str unit "liters")]];
      eexists; (split; [reflexivity|]);
      first [left; reflexivity | right; eexists; reflexivity].
  - rewrite (py_float_raises _ _ E). exists NaN. split; [reflexivity | left; reflexivity].
Qed.

(** On a text or a missing value the weight conversion returns, with a
    number or the missing value. *)
Lemma weight_kg_of_total (s : Cell) :
  Pd.is_num s = false -> Pd.is_date s = false ->
  exists c, weight_kg_of s = Ok c /\ number_or_missing c.
Proof.
  intros Hn Hd. unfold weight_kg_of.
  destruct s as [|text|q|t]; try discriminate.
  - simpl. apply convert_to_kilograms_total.
  - unfold extract_number_unit.
    destruct (List.length (Quantity.re_split_number (Py.replace " " "" text)) <? 3).
    + simpl. apply convert_to_kilograms_total.
    + cbv beta iota delta [bind fst snd].
      match goal with
      | |- context [normalize_units (Str ?u)] =>
          destruct (normalize_units_text u) as [c [Hc _]]; rewrite Hc
      end.
      apply convert_to_kilograms_total.
Qed.

(** *** Date events *)

Lemma combine_datetime_columns_raises (df : DataFrame) (y m d t : nat)
    (r : list Cell) (time : string) :
  Pd.loc "year" df = Ok y ->
  Pd.loc "month" df = Ok m ->
  Pd.loc "day" df = Ok d ->
  Pd.loc "timestamp" df = Ok t ->
  In r (rows df) ->
  Pd.at_ t r = Str time ->
  to_datetime_text
    (py_str (Pd.at_ y r) ++ "-" ++ py_str (Pd.at_ m r) ++ "-"
     ++ py_str (Pd.at_ d r) ++ " " ++ time)%string = None ->
  is_ok (combine_datetime_columns df) = false.
Proof.
  intros Hy Hm Hd Ht Hr Htime Hparse. unfold combine_datetime_columns.
  rewrite Hy, Hm, Hd, Ht. cbv beta iota delta [bind].
  match goal with
  | |- context [Pd.apply ?f (rows df)] =>
      destruct (Pd.apply f (rows df)) as [texts|e] eqn:Etexts; [|reflexivity];
      destruct (apply_Ok_In _ _ _ _ Etexts Hr) as [txt [Htxt Hin]]
  end.
  cbv beta in Htxt. rewrite Htime in Htxt.
  cbv beta iota delta [datetime_text] in Htxt. injection Htxt as <-.
  assert (Hraise : is_ok (Pd.apply to_datetime_raise texts) = false).
  { eapply apply_raises; [exact Hin|]. unfold to_datetime_raise.
    match goal with
    | |- is_ok (match ?p with _ => _ end) = false =>
        replace p with (@None Timestamp) by (symmetry; exact Hparse)
    end.
    reflexivity. }
  destruct (Pd.apply to_datetime_raise texts); [discriminate | reflexivity].
Qed.

(** *** The product pipeline with a surviving row *)

Lemma columns_setitem (label : string) (values : list Cell) (df : DataFrame) :
  columns (Pd.setitem label values df) = cols_set label (columns df).
Proof.
  unfold Pd.setitem, cols_set. destruct (Pd.index_of label (columns df)); reflexivity.
Qed.

Lemma In_cols_set (c label : string) (cols : list string) :
  In c (cols_set label cols) <-> In c cols \/ c = label.
Proof.
  unfold cols_set. destruct (Pd.index_of label cols) as [i|] eqn:E.
  - split; [intros H; left; exact H|]. intros [H|H]; [exact H|]. subst.
    eapply index_of_Some_In. exact E.
  - rewrite in_app_iff. simpl. split; intros [H|H].
    + left. exact H.
    + destruct H as [H|[]]. right. symmetry. exact H.
    + left. exact H.
    + right. left. symmetry. exact H.
Qed.

Lemma index_of_lt (label : string) (cols : list string) (i : nat) :
  Pd.index_of label cols = Some i -> i < List.length cols.
Proof.
  revert i. induction cols as [|c cols IH]; simpl; intros i; [discriminate|].
  destruct (String.eqb c label).
  - intros H. injection H as <-. lia.
  - destruct (Pd.index_of label cols) as [j|]; [|discriminate].
    intros H. injection H as <-. specialize (IH j eq_refl). lia.
Qed.

Lemma index_of_app_new (label : string) (cols : list string) :
  Pd.index_of label cols = None ->
  Pd.index_of label (cols ++ [label]) = Some (List.length cols).
Proof.
  induction cols as [|c cols IH]; simpl.
  - rewrite String.eqb_refl. reflexivity.
  - destruct (String.eqb c label); [discriminate|].
    destruct (Pd.index_of label cols); [discriminate|].
    intros _. rewrite (IH eq_refl). reflexivity.
Qed.

Lemma index_of_app_old (label : string) (cols more : list string) (i : nat) :
  Pd.index_of label cols = Some i -> Pd.index_of label (cols ++ more) = Some i.
Proof.
  revert i. induction cols as [|c cols IH]; simpl; intros i; [discriminate|].
  destruct (String.eqb c label); [intros H; exact H|].
  destruct (Pd.index_of label cols) as [j|]; [|discriminate].
  intros H. rewrite (IH j eq_refl). exact H.
Qed.

Lemma index_of_inj (l1 l2 : string) (cols : list string) (i : nat) :
  Pd.index_of l1 cols = Some i -> Pd.index_of l2 cols = Some i -> l1 = l2.
Proof.
  revert i. induction cols as [|c cols IH]; simpl; intros i; [discriminate|].
  destruct (String.eqb c l1) eqn:E1, (String.eqb c l2) eqn:E2.
  - apply String.eqb_eq in E1, E2. congruence.
  - intros H. injection H as <-.
    destruct (Pd.index_of l2 cols); discriminate.
  - destruct (Pd.index_of l1 cols); [|discriminate].
    intros H1 H2. congruence.
  - destruct (Pd.index_of l1 cols) as [j1|]; [|discriminate].
    destruct (Pd.index_of l2 cols) as [j2|]; [|discriminate].
    intros H1 H2. apply (IH j1); [reflexivity|]. congruence.
Qed.

Lemma In_assign (f : list Cell -> Cell -> list Cell) (rs : list (list Cell))
    (values : list Cell) (r' : list Cell) :
  In r' (Pd.assign f rs values) -> exists r x, In r rs /\ r' = f r x.
Proof.
  revert values. induction rs as [|r rs IH]; simpl; intros values; [tauto|].
  intros [H|H].
  - exists r, (hd NaN values). auto.
  - destruct (IH _ H) as [r0 [x [Hin Heq]]]. exists r0, x. auto.
Qed.

Lemma aligned_setitem (label : string) (values : list Cell) (df : DataFrame) :
  aligned df -> aligned (Pd.setitem label values df).
Proof.
  unfold aligned, Pd.setitem. rewrite !Forall_forall. intros H.
  destruct (Pd.index_of label (columns df)); simpl; intros r' Hr';
    destruct (In_assign _ _ _ _ Hr') as [r [x [Hin ->]]].
  - rewrite set_nth_length. apply H. exact Hin.
  - rewrite !length_app. simpl. rewrite (H r Hin). reflexivity.
Qed.

Lemma rows_setitem_length (label : string) (values : list Cell) (df : DataFrame) :
  List.length (rows (Pd.setitem label values df)) = List.length (rows df).
Proof.
  unfold Pd.setitem. destruct (Pd.index_of label (columns df)); simpl;
    apply assign_length.
Qed.

Lemma at_app_last (r : list Cell) (v : Cell) :
  Pd.at_ (List.length r) (r ++ [v]) = v.
Proof.
  unfold Pd.at_. rewrite app_nth2 by lia. rewrite Nat.sub_diag. reflexivity.
Qed.

Lemma at_app_old (i : nat) (r : list Cell) (v : Cell) :
  i < List.length r -> Pd.at_ i (r ++ [v]) = Pd.at_ i r.
Proof.
  intros H. unfold Pd.at_. apply app_nth1. exact H.
Qed.

Lemma map_at_assign (i : nat) (f : list Cell -> Cell -> list Cell)
    (rs : list (list Cell)) (values : list Cell) :
  (forall r v, In r rs -> Pd.at_ i (f r v) = v) ->
  List.length values = List.length rs ->
  map (Pd.at_ i) (Pd.assign f rs values) = values.
Proof.
  revert values. induction rs as [|r rs IH]; intros [|v values]; simpl;
    try discriminate; try reflexivity.
  intros Hf Hlen. injection Hlen as Hlen. f_equal.
  - apply Hf. auto.
  - apply IH; [|exact Hlen]. intros r0 v0 Hr0. apply Hf. auto.
Qed.

(** Reading a column that has just been written gives what was written. *)
Lemma getitem_setitem_same (label : string) (values : list Cell) (df : DataFrame) :
  aligned df ->
  List.length values = List.length (rows df) ->
  Pd.getitem label (Pd.setitem label values df) = Ok values.
Proof.
  unfold aligned. rewrite Forall_forall. intros Hal Hlen.
  unfold Pd.getitem, Pd.loc, Pd.setitem.
  destruct (Pd.index_of label (columns df)) as [i|] eqn:E; simpl.
  - rewrite E. simpl. f_equal. apply map_at_assign; [|exact Hlen].
    intros r v Hr. apply at_set_nth_same. rewrite (Hal r Hr).
    eapply index_of_lt. exact E.
  - rewrite (index_of_app_new _ _ E). simpl. f_equal.
    apply map_at_assign; [|exact Hlen].
    intros r v Hr. rewrite <- (Hal r Hr). apply at_app_last.
Qed.

(** Writing one column leaves the cells of another as they were. *)
Lemma col_all_setitem_other (P : Cell -> Prop) (label other : string)
    (values : list Cell) (df : DataFrame) :
  aligned df -> label <> other ->
  col_all P label df -> col_all P label (Pd.setitem other values df).
Proof.
  unfold aligned. rewrite Forall_forall.
  intros Hal Hneq [i [Hi HP]]. unfold col_all, Pd.setitem.
  destruct (Pd.index_of other (columns df)) as [j|] eqn:E; simpl.
  - exists i. split; [exact Hi|]. intros r' Hr'.
    destruct (In_assign _ _ _ _ Hr') as [r [x [Hin ->]]].
    rewrite at_set_nth_other; [apply HP; exact Hin|].
    intros ->. apply Hneq. eapply index_of_inj; eassumption.
  - exists i. split; [apply index_of_app_old; exact Hi|]. intros r' Hr'.
    destruct (In_assign _ _ _ _ Hr') as [r [x [Hin ->]]].
    rewrite at_app_old; [apply HP; exact Hin|].
    rewrite (Hal r Hin). eapply index_of_lt. exact Hi.
Qed.

Lemma drop_Ok (labels : list string) (b : bool) (df df' : DataFrame) :
  Pd.drop labels b df = Ok df' ->
  df' = mkDF (filter (fun c => negb (Pd.mem c labels)) (columns df))
          (map (Pd.select (map (fun c => negb (Pd.mem c labels)) (columns df)))
             (rows df)).
Proof.
  unfold Pd.drop. rewrite select_map_filter.
  destruct (filter (fun l => negb (Pd.mem l (columns df))) labels);
    [|destruct b]; intros H; try discriminate; injection H as <-; reflexivity.
Qed.

Lemma aligned_drop (labels : list string) (df : DataFrame) :
  aligned df ->
  aligned (mkDF (filter (fun c => negb (Pd.mem c labels)) (columns df))
             (map (Pd.select (map (fun c => negb (Pd.mem c labels)) (columns df)))
                (rows df))).
Proof.
  unfold aligned. rewrite !Forall_forall. simpl. intros H r Hr.
  apply in_map_iff in Hr. destruct Hr as [r0 [<- Hr0]].
  apply select_length. apply H. exact Hr0.
Qed.

(** Dropping columns leaves the cells of a column that is not dropped. *)
Lemma col_all_drop (P : Cell -> Prop) (label : string) (labels : list string)
    (df : DataFrame) :
  aligned df -> ~ In label labels ->
  col_all P label df ->
  col_all P label
    (mkDF (filter (fun c => negb (Pd.mem c labels)) (columns df))
       (map (Pd.select (map (fun c => negb (Pd.mem c labels)) (columns df)))
          (rows df))).
Proof.
  unfold aligned. rewrite Forall_forall. intros Hal Hnin [i [Hi HP]].
  assert (Hp : negb (Pd.mem label labels) = true)
    by (apply negb_true_iff, mem_false_In; exact Hnin).
  pose proof (select_column (fun c => negb (Pd.mem c labels)) label (columns df) Hp)
    as Hsel.
  rewrite Hi in Hsel. destruct Hsel as [j [Hj Hrow]].
  exists j. simpl. split; [exact Hj|]. intros r Hr.
  apply in_map_iff in Hr. destruct Hr as [r0 [<- Hr0]].
  rewrite Hrow by (apply Hal; exact Hr0). apply HP. exact Hr0.
Qed.

Lemma cols_set_idem (label : string) (cols : list string) :
  cols_set label (cols_set label cols) = cols_set label cols.
Proof.
  unfold cols_set. destruct (Pd.index_of label cols) as [i|] eqn:E; cbv iota.
  - rewrite E. reflexivity.
  - rewrite (index_of_app_new _ _ E). reflexivity.
Qed.

Lemma extract_number_unit_shape (x : Cell) (p : Cell * Cell) :
  extract_number_unit x = Ok p -> text_or_missing (snd p).
Proof.
  unfold extract_number_unit, text_or_missing.
  destruct x as [|text|q|t]; try discriminate.
  - intros H. injection H as <-. left. reflexivity.
  - destruct (List.length (Quantity.re_split_number (Py.replace " " "" text)) <? 3);
      intros H; injection H as <-; simpl; eauto.
Qed.

Lemma extract_number_unit_total (x : Cell) :
  text_or_missing x -> exists p, extract_number_unit x = Ok p.
Proof.
  intros [->|[s ->]]; unfold extract_number_unit; [eauto|].
  destruct (List.length (Quantity.re_split_number (Py.replace " " "" s)) <? 3); eauto.
Qed.

Lemma normalize_units_total (u : Cell) :
  text_or_missing u -> exists c, normalize_units u = Ok c.
Proof.
  intros [->|[s ->]]; [simpl; eauto|].
  destruct (normalize_units_text s) as [c [Hc _]]. eauto.
Qed.

Lemma convert_to_kilograms_returns (cols : list string) (row : list Cell) :
  In "number" cols -> In "unit" cols ->
  exists c, convert_to_kilograms cols row = Ok c.
Proof.
  intros Hn Hu.
  destruct (In_index_of _ _ Hn) as [i Hi]. destruct (In_index_of _ _ Hu) as [j Hj].
  unfold convert_to_kilograms, row_getitem. rewrite Hi, Hj.
  unfold bind at 1.
  destruct (py_float (Pd.at_ i row)) as [number|e] eqn:E; unfold bind, try_except.
  - destruct (cell_eq_str (Pd.at_ j row) "g");
      [|destruct (cell_eq_str (Pd.at_ j row) "kg");
        [|destruct (cell_eq_str (Pd.at_ j row) "liters")]]; eauto.
  - rewrite (py_float_raises _ _ E). eauto.
Qed.

Lemma remove_invalid_rows_filter (df : DataFrame) :
  rows df <> [] ->
  remove_invalid_rows df
  = mkDF (columns df) (filter (fun r => negb (row_is_invalid r)) (rows df)).
Proof.
  intros H. unfold remove_invalid_rows. destruct (rows df) as [|r rs] eqn:E;
    [congruence|].
  unfold Pd.getitem_mask. rewrite E, map_map, select_map_filter. reflexivity.
Qed.

(** On a table with rows whose weights are texts or missing,
    [clean_weight_column] returns; the weight and the two working columns
    are gone, [weight_kg] is there, and the other columns keep their
    cells. *)
Lemma clean_weight_column_total (df : DataFrame) :
  aligned df -> rows df <> [] ->
  col_all text_or_missing "weight" df ->
  exists df',
    clean_weight_column df = Ok df'
    /\ aligned df'
    /\ columns df'
       = filter (fun c => negb (Pd.mem c ["weight"; "number"; "unit"]))
           (cols_set "weight_kg" (cols_set "unit" (cols_set "number" (columns df))))
    /\ List.length (rows df') = List.length (rows df)
    /\ (forall P l, ~ In l ["weight"; "number"; "unit"; "weight_kg"] ->
          col_all P l df -> col_all P l df').
Proof.
  intros Hal Hne [iw [Hiw Hw]].
  unfold clean_weight_column, Pd.getitem at 1, Pd.loc. rewrite Hiw. unfold bind at 1 2.
  destruct (apply_total extract_number_unit (map (Pd.at_ iw) (rows df)))
    as [pairs [Hpairs Hplen]].
  { intros x Hx. apply in_map_iff in Hx. destruct Hx as [r [<- Hr]].
    apply extract_number_unit_total. apply Hw. exact Hr. }
  rewrite length_map in Hplen. rewrite Hpairs. unfold bind at 1.
  destruct pairs as [|p0 ps] eqn:Epairs.
  { destruct (rows df); [congruence | discriminate]. }
  rewrite <- Epairs in *. clear Epairs p0 ps.
  set (dfa := Pd.setitem "number" (map fst pairs) df).
  assert (Hala : aligned dfa) by (apply aligned_setitem; exact Hal).
  assert (Hlena : List.length (rows dfa) = List.length (rows df))
    by apply rows_setitem_length.
  set (dfb := Pd.setitem "unit" (map snd pairs) dfa).
  assert (Halb : aligned dfb) by (apply aligned_setitem; exact Hala).
  assert (Hget : Pd.getitem "unit" dfb = Ok (map snd pairs)).
  { apply getitem_setitem_same; [exact Hala|]. rewrite length_map. congruence. }
  rewrite Hget. unfold bind at 1.
  destruct (apply_total normalize_units (map snd pairs)) as [units [Hunits _]].
  { intros u Hu. apply in_map_iff in Hu. destruct Hu as [p [<- Hp]].
    destruct (apply_Ok_all _ _ _ _ Hpairs Hp) as [x [_ Hx]].
    apply normalize_units_total. eapply extract_number_unit_shape. exact Hx. }
  rewrite Hunits. unfold bind at 1.
  set (dfc := Pd.setitem "unit" units dfb).
  assert (Halc : aligned dfc) by (apply aligned_setitem; exact Halb).
  assert (Hcolc : columns dfc = cols_set "unit" (cols_set "number" (columns df))).
  { unfold dfc, dfb, dfa. rewrite !columns_setitem. apply cols_set_idem. }
  destruct (apply_total (convert_to_kilograms (columns dfc)) (rows dfc))
    as [kg [Hkg _]].
  { intros r _. apply convert_to_kilograms_returns; rewrite Hcolc, !In_cols_set; auto. }
  rewrite Hkg. unfold bind at 1.
  set (dfd := Pd.setitem "weight_kg" kg dfc).
  assert (Hald : aligned dfd) by (apply aligned_setitem; exact Halc).
  assert (Hcold : columns dfd
                  = cols_set "weight_kg" (cols_set "unit" (cols_set "number" (columns df)))).
  { unfold dfd. rewrite columns_setitem, Hcolc. reflexivity. }
  rewrite drop_raise_present.
  2:{ intros l Hl. rewrite Hcold, !In_cols_set.
      destruct Hl as [<-|[<-|[<-|[]]]]; auto.
      left. left. left. eapply index_of_Some_In. exact Hiw. }
  eexists. split; [reflexivity|]. split; [apply aligned_drop; exact Hald|].
  split; [simpl; rewrite Hcold; reflexivity|]. split.
  - simpl. rewrite length_map. unfold dfd, dfc, dfb.
    rewrite !rows_setitem_length. exact Hlena.
  - intros P l Hl Hcol.
    assert (Hw' : l <> "weight")
      by (intros ->; apply Hl; left; reflexivity).
    assert (Hn' : l <> "number")
      by (intros ->; apply Hl; right; left; reflexivity).
    assert (Hu' : l <> "unit")
      by (intros ->; apply Hl; right; right; left; reflexivity).
    assert (Hk' : l <> "weight_kg")
      by (intros ->; apply Hl; right; right; right; left; reflexivity).
    apply col_all_drop;
      [exact Hald | intros [H|[H|[H|[]]]]; symmetry in H; contradiction |].
    unfold dfd. apply col_all_setitem_other; [exact Halc | exact Hk' |].
    unfold dfc. apply col_all_setitem_other; [exact Halb | exact Hu' |].
    unfold dfb. apply col_all_setitem_other; [exact Hala | exact Hu' |].
    unfold dfa. apply col_all_setitem_other; [exact Hal | exact Hn' |].
    exact Hcol.
Qed.

Lemma cols_set_present (label : string) (cols : list string) :
  In label cols -> cols_set label cols = cols.
Proof.
  intros H. unfold cols_set. destruct (In_index_of _ _ H) as [i Hi].
  rewrite Hi. reflexivity.
Qed.





(** The table that reaches [clean_weight_column] in the product pipeline. *)
Lemma product_rows_filtered (df : DataFrame) :
  rows df <> [] ->
  remove_invalid_rows (standardize_nulls df)
  = mkDF (columns df)
      (filter (fun r => negb (row_is_invalid r))
         (map (map standardize_cell) (rows df))).
Proof.
  intros H. rewrite standardize_nulls_cells, remove_invalid_rows_filter;
    [reflexivity|].
  simpl. destruct (rows df); [congruence | discriminate].
Qed.

(** The order pipeline drops [first_name], [last_name] and ['1'] whether
    or not the table has them: on a table with rows it returns as soon
    as [product_quantity] is a column. *)
Lemma clean_orders_data_returns (df : DataFrame) :
  rows df <> [] ->
  In "product_quantity" (columns df) ->
  exists df', clean_orders_data df = Ok df'.
Proof.
  intros Hne Hq. unfold clean_orders_data. cbv zeta.
  rewrite (product_rows_filtered df Hne). unfold drop_columns.
  rewrite drop_ignore. unfold bind at 1. unfold convert_data_types.
  match goal with
  | |- context [Pd.getitem "product_quantity" ?d] =>
      destruct (getitem_present "product_quantity" d) as [values Hv]
  end.
  { simpl. apply filter_In. split; [exact Hq | reflexivity]. }
  rewrite Hv. unfold bind. eexists. reflexivity.
Qed.


(** *** Recovery from cell failures (C5) *)

(** C5, as the code has it.  A date cell never makes [clean_dates] raise:
    every value becomes a timestamp or the missing value, and the call
    returns whenever the table has the date columns.  A weight cell that
    is a text or missing never makes the weight conversion raise: it
    becomes a number or the missing value, and [clean_weight_column]
    returns on a table with rows whose weights are such cells.
    [combine_datetime_columns] has no such recovery: when the text built
    from the year, month, day and timestamp of some row does not parse,
    the call raises. *)
Theorem cell_failures_recovered_except_in_combine :
  (forall x, exists c, clean_dates_lambda x = Ok c /\ date_or_missing c)
  /\ (forall x, exists c, parse_non_standard_dates x = Ok c /\ date_or_missing c)
  /\ (forall df date_columns,
        (forall c, In c date_columns -> In c (columns df)) ->
        exists df', clean_dates df date_columns = Ok df')
  /\ (forall s, Pd.is_num s = false -> Pd.is_date s = false ->
        exists c, weight_kg_of s = Ok c /\ number_or_missing c)
  /\ (forall df,
        aligned df -> rows df <> [] -> col_all text_or_missing "weight" df ->
        exists df', clean_weight_column df = Ok df')
  /\ (forall df y m d t r time,
        Pd.loc "year" df = Ok y ->
        Pd.loc "month" df = Ok m ->
        Pd.loc "day" df = Ok d ->
        Pd.loc "timestamp" df = Ok t ->
        In r (rows df) ->
        Pd.at_ t r = Str time ->
        to_datetime_text
          (py_str (Pd.at_ y r) ++ "-" ++ py_str (Pd.at_ m r) ++ "-"
           ++ py_str (Pd.at_ d r) ++ " " ++ time)%string = None ->
        is_ok (combine_datetime_columns df) = false).
Proof.
  split; [exact clean_dates_lambda_total|].
  split; [exact parse_non_standard_dates_total|].
  split; [intros df cols; apply clean_dates_total|].
  split; [exact weight_kg_of_total|].
  split; [|exact combine_datetime_columns_raises].
  intros df Hal Hne Hw.
  destruct (clean_weight_column_total df Hal Hne Hw) as [df' [Hdf' _]].
  exists df'. exact Hdf'.
Qed.

(** *** The product pipeline without a surviving row (C7) *)

(** C7, where the code departs from it.  When the validity filter drops
    every row of a product table, [clean_weight_column] receives a table
    without rows; its two-column assignment fails, and the pipeline
    raises [ValueError] instead of returning a table with the output
    columns. *)
Theorem clean_product_data_raises_when_no_row_survives (df : DataFrame) :
  In "weight" (columns df) ->
  rows df <> [] ->
  (forall r, In r (rows df) -> row_is_invalid (map standardize_cell r) = true) ->
  clean_product_data df = Raise ValueError.
Proof.
  intros Hw Hne Hall. unfold clean_product_data. cbv zeta.
  rewrite (product_rows_filtered df Hne).
  assert (Hnone : filter (fun r => negb (row_is_invalid r))
                    (map (map standardize_cell) (rows df)) = []).
  { clear Hne. induction (rows df) as [|r rs IH]; simpl; [reflexivity|].
    rewrite (Hall r) by (left; reflexivity). simpl.
    apply IH. intros r' Hr'. apply Hall. right. exact Hr'. }
  rewrite Hnone. destruct (In_index_of _ _ Hw) as [i Hi].
  unfold clean_weight_column, Pd.getitem, Pd.loc. simpl columns. rewrite Hi.
  reflexivity.
Qed.

(* ===================================================================== *)
(** ** Further properties: the other cleaners *)
(* ===================================================================== *)

(** *** Text *)

Lemma chars_of_chars (l : list ascii) : Py.chars (Py.of_chars l) = l.
Proof. apply list_ascii_of_string_of_list_ascii. Qed.

Lemma of_chars_chars (s : string) : Py.of_chars (Py.chars s) = s.
Proof. apply string_of_list_ascii_of_string. Qed.

Lemma filter_twice {A : Type} (p : A -> bool) (l : list A) :
  filter p (filter p l) = filter p l.
Proof.
  induction l as [|a l IH]; simpl; [reflexivity|].
  destruct (p a) eqn:E; simpl; [rewrite E, IH; reflexivity | exact IH].
Qed.

Lemma filter_filter_weaker {A : Type} (p q : A -> bool) (l : list A) :
  (forall x, p x = true -> q x = true) ->
  filter p (filter q l) = filter p l.
Proof.
  intros H. induction l as [|a l IH]; simpl; [reflexivity|].
  destruct (q a) eqn:Eq; simpl.
  - rewrite IH. reflexivity.
  - destruct (p a) eqn:Ep; [|exact IH].
    rewrite (H a Ep) in Eq. discriminate.
Qed.

Lemma digits_only_twice (s : string) :
  Py.digits_only (Py.digits_only s) = Py.digits_only s.
Proof.
  unfold Py.digits_only. rewrite chars_of_chars, filter_twice. reflexivity.
Qed.

Lemma digits_only_all_digits (s : string) :
  forallb Py.is_digit (Py.chars (Py.digits_only s)) = true.
Proof.
  unfold Py.digits_only. rewrite chars_of_chars. apply forallb_forall.
  intros c Hc. apply filter_In in Hc. apply Hc.
Qed.

Lemma digits_only_no_digit (s : string) :
  Py.any_digit s = false -> Py.digits_only s = "".
Proof.
  unfold Py.any_digit, Py.digits_only. induction (Py.chars s) as [|c l IH]; simpl;
    [reflexivity|].
  intros H. apply orb_false_iff in H. destruct H as [Hc Hl]. rewrite Hc.
  apply IH. exact Hl.
Qed.

(** *** Writing a column cell by cell *)

Lemma update_col_twice (i : nat) (f g : Cell -> Cell) (r : list Cell) :
  update_col i g (update_col i f r) = update_col i (fun x => g (f x)) r.
Proof.
  unfold update_col. rewrite set_nth_twice.
  destruct (Nat.lt_ge_cases i (List.length r)) as [Hlt|Hge].
  - rewrite at_set_nth_same by exact Hlt. reflexivity.
  - rewrite !set_nth_beyond by exact Hge. reflexivity.
Qed.

Lemma update_col_length (i : nat) (f : Cell -> Cell) (r : list Cell) :
  List.length (update_col i f r) = List.length r.
Proof. apply set_nth_length. Qed.

Lemma at_update_col_same (i : nat) (f : Cell -> Cell) (r : list Cell) :
  i < List.length r -> Pd.at_ i (update_col i f r) = f (Pd.at_ i r).
Proof. intros H. apply at_set_nth_same. exact H. Qed.

Lemma at_update_col_other (i j : nat) (f : Cell -> Cell) (r : list Cell) :
  i <> j -> Pd.at_ j (update_col i f r) = Pd.at_ j r.
Proof. intros H. apply at_set_nth_other. exact H. Qed.

(** A statement [df[label] = df[label].apply(f)] on a column that exists. *)
Lemma apply_to_column (label : string) (i : nat) (f : Cell -> Cell) (df : DataFrame) :
  Pd.loc label df = Ok i ->
  (col <- Pd.getitem label df ;; Ok (Pd.setitem label (map f col) df))
  = Ok (mkDF (columns df) (map (update_col i f) (rows df))).
Proof.
  intros H. unfold Pd.getitem. rewrite H. simpl.
  rewrite (setitem_map_existing _ _ _ _ H). reflexivity.
Qed.

Lemma loc_absent (label : string) (df : DataFrame) :
  ~ In label (columns df) -> Pd.loc label df = Raise (KeyError label).
Proof.
  intros H. unfold Pd.loc. apply index_of_None in H. rewrite H. reflexivity.
Qed.

Lemma loc_present (label : string) (df : DataFrame) :
  In label (columns df) -> exists i, Pd.loc label df = Ok i.
Proof.
  intros H. destruct (In_index_of _ _ H) as [i Hi]. exists i.
  unfold Pd.loc. rewrite Hi. reflexivity.
Qed.

(** *** Card number *)

Lemma remove_char_chars (x c : ascii) (s : string) :
  In c (Py.chars (Text.remove_char x s)) <-> In c (Py.chars s) /\ c <> x.
Proof.
  unfold Text.remove_char. rewrite chars_of_chars, filter_In, negb_true_iff.
  rewrite Ascii.eqb_neq. reflexivity.
Qed.

Lemma remove_char_twice (x : ascii) (s : string) :
  Text.remove_char x (Text.remove_char x s) = Text.remove_char x s.
Proof.
  unfold Text.remove_char. rewrite chars_of_chars, filter_twice. reflexivity.
Qed.

Lemma card_number_lambda_twice (x : Cell) :
  card_number_lambda (card_number_lambda x) = card_number_lambda x.
Proof.
  destruct x as [|s|q|t]; simpl; try reflexivity.
  rewrite remove_char_twice. reflexivity.
Qed.

Lemma map_update_col_twice (i : nat) (f : Cell -> Cell) (rs : list (list Cell)) :
  (forall x, f (f x) = f x) ->
  map (update_col i f) (map (update_col i f) rs) = map (update_col i f) rs.
Proof.
  intros H. rewrite map_map. apply map_ext. intros r. rewrite update_col_twice.
  unfold update_col. rewrite H. reflexivity.
Qed.

(** A cell of an updated row, at the updated position: the image of the
    old cell, or nothing when the row is too short to have the cell. *)
Lemma at_update_col_cases (i : nat) (f : Cell -> Cell) (r : list Cell) :
  Pd.at_ i (update_col i f r) = f (Pd.at_ i r)
  \/ Pd.at_ i (update_col i f r) = NaN.
Proof.
  destruct (Nat.lt_ge_cases i (List.length r)) as [Hlt|Hge].
  - left. apply at_update_col_same. exact Hlt.
  - right. unfold update_col. rewrite set_nth_beyond by exact Hge.
    unfold Pd.at_. apply nth_overflow. exact Hge.
Qed.

(** [clean_card_number] rewrites the card number of every row: a text
    loses its question marks and keeps every other character in order,
    any other value is left as it is.  No card number of the result holds
    a question mark, and cleaning the result again changes nothing. *)
Theorem clean_card_number_strips_question_marks (df : DataFrame) (i : nat) :
  Pd.loc "card_number" df = Ok i ->
  exists df',
    clean_card_number df = Ok df'
    /\ columns df' = columns df
    /\ rows df' = map (update_col i card_number_lambda) (rows df)
    /\ (forall r s, In r (rows df') -> Pd.at_ i r = Str s ->
          ~ In "?"%char (Py.chars s))
    /\ (forall s, Py.digits_only (Text.remove_char "?" s) = Py.digits_only s)
    /\ clean_card_number df' = Ok df'.
Proof.
  intros Hloc. unfold clean_card_number.
  rewrite (apply_to_column _ _ _ _ Hloc). eexists. split; [reflexivity|].
  simpl. split; [reflexivity|]. split; [reflexivity|]. split; [|split].
  - intros r' s Hr' Hs Hq. apply in_map_iff in Hr'. destruct Hr' as [r [<- Hr]].
    destruct (at_update_col_cases i card_number_lambda r) as [H|H];
      rewrite H in Hs; [|discriminate].
    destruct (Pd.at_ i r) as [|s0|q|t]; simpl in Hs; try discriminate.
    injection Hs as <-. apply remove_char_chars in Hq. destruct Hq as [_ Hq].
    apply Hq. reflexivity.
  - intros s. unfold Py.digits_only, Text.remove_char. rewrite chars_of_chars.
    f_equal. apply filter_filter_weaker. intros c Hc.
    apply negb_true_iff, Ascii.eqb_neq. intros ->. discriminate.
  - set (df1 := mkDF _ _).
    assert (Hloc1 : Pd.loc "card_number" df1 = Ok i) by exact Hloc.
    rewrite (apply_to_column _ _ _ _ Hloc1). unfold df1. simpl. f_equal. f_equal.
    apply map_update_col_twice. apply card_number_lambda_twice.
Qed.

(** *** Locality *)

Lemma locality_lambda_twice (x : Cell) :
  locality_lambda (locality_lambda x) = locality_lambda x.
Proof.
  destruct x as [|s|q|t]; simpl; try reflexivity.
  destruct (Py.any_digit s) eqn:E; simpl; [reflexivity|]. rewrite E. reflexivity.
Qed.

(** [clean_locality] keeps a locality that is a text without digits and
    makes every other value missing: a text with a digit, a number, a
    timestamp.  Cleaning the result again changes nothing. *)
Theorem clean_locality_keeps_digit_free_text (df : DataFrame) (i : nat) :
  Pd.loc "locality" df = Ok i ->
  exists df',
    clean_locality df = Ok df'
    /\ columns df' = columns df
    /\ rows df' = map (update_col i locality_lambda) (rows df)
    /\ (forall r, In r (rows df') ->
          Pd.at_ i r = NaN
          \/ exists s, Pd.at_ i r = Str s /\ Py.any_digit s = false)
    /\ (forall s, Py.any_digit s = false -> locality_lambda (Str s) = Str s)
    /\ (forall x, is_str x = false -> locality_lambda x = NaN)
    /\ clean_locality df' = Ok df'.
Proof.
  intros Hloc. unfold clean_locality.
  rewrite (apply_to_column _ _ _ _ Hloc). eexists. split; [reflexivity|].
  simpl. split; [reflexivity|]. split; [reflexivity|].
  split; [|split; [|split]].
  - intros r' Hr'. apply in_map_iff in Hr'. destruct Hr' as [r [<- Hr]].
    destruct (at_update_col_cases i locality_lambda r) as [H|H]; rewrite H;
      [|left; reflexivity].
    destruct (Pd.at_ i r) as [|s|q|t]; simpl; try (left; reflexivity).
    destruct (Py.any_digit s) eqn:E; simpl; [left; reflexivity|].
    right. exists s. split; [reflexivity | exact E].
  - intros s H. simpl. rewrite H. reflexivity.
  - intros x H. destruct x; try reflexivity. discriminate.
  - set (df1 := mkDF _ _).
    assert (Hloc1 : Pd.loc "locality" df1 = Ok i) by exact Hloc.
    rewrite (apply_to_column _ _ _ _ Hloc1). unfold df1. simpl. f_equal. f_equal.
    apply map_update_col_twice. apply locality_lambda_twice.
Qed.

(** *** Staff numbers *)

Lemma clean_staff_numbers_cell_cases (x : Cell) :
  clean_staff_numbers_cell x = NaN
  \/ exists s, clean_staff_numbers_cell x = Str s /\ Py.isdigit s = true.
Proof.
  unfold clean_staff_numbers_cell, staff_numbers_lambda.
  destruct (notnull x) eqn:E.
  - unfold Pd.replace. simpl cell_eq_str.
    destruct (Py.digits_only (py_str x)) as [|c d] eqn:Ed; simpl.
    + left. reflexivity.
    + right. eexists. split; [reflexivity|]. unfold Py.isdigit. simpl Py.nonempty.
      rewrite <- Ed. apply digits_only_all_digits.
  - destruct x; try discriminate. left. reflexivity.
Qed.

Lemma clean_staff_numbers_cell_eq (x : Cell) :
  clean_staff_numbers_cell x
  = if notnull x
    then if Py.nonempty (Py.digits_only (py_str x))
         then Str (Py.digits_only (py_str x)) else NaN
    else x.
Proof.
  unfold clean_staff_numbers_cell, staff_numbers_lambda.
  destruct (notnull x) eqn:E.
  - unfold Pd.replace. simpl cell_eq_str.
    destruct (Py.digits_only (py_str x)); reflexivity.
  - destruct x; try discriminate. reflexivity.
Qed.

Lemma clean_staff_numbers_cell_twice (x : Cell) :
  clean_staff_numbers_cell (clean_staff_numbers_cell x) = clean_staff_numbers_cell x.
Proof.
  rewrite (clean_staff_numbers_cell_eq x). destruct (notnull x) eqn:E.
  - destruct (Py.nonempty (Py.digits_only (py_str x))) eqn:En; [|reflexivity].
    rewrite clean_staff_numbers_cell_eq. simpl notnull. cbv iota. simpl py_str.
    rewrite digits_only_twice, En. reflexivity.
  - destruct x; try discriminate. reflexivity.
Qed.

(** [clean_staff_numbers] leaves a missing staff number missing and
    turns every other value into the digits of its text; when there is no
    digit the cell becomes missing.  So every staff number of the result
    is missing or a non-empty text of digits, never the empty text; and
    cleaning the result again changes nothing. *)
Theorem clean_staff_numbers_digits_or_missing (df : DataFrame) (i : nat) :
  Pd.loc "staff_numbers" df = Ok i ->
  exists df',
    clean_staff_numbers df = Ok df'
    /\ columns df' = columns df
    /\ rows df' = map (update_col i clean_staff_numbers_cell) (rows df)
    /\ (forall r, In r (rows df') ->
          Pd.at_ i r = NaN
          \/ exists s, Pd.at_ i r = Str s /\ Py.isdigit s = true)
    /\ clean_staff_numbers_cell NaN = NaN
    /\ clean_staff_numbers df' = Ok df'.
Proof.
  intros Hloc.
  assert (Hrun : forall d, Pd.loc "staff_numbers" d = Ok i ->
            clean_staff_numbers d
            = Ok (mkDF (columns d) (map (update_col i clean_staff_numbers_cell) (rows d)))).
  { intros d Hd. unfold clean_staff_numbers, Pd.getitem. rewrite Hd. simpl.
    rewrite (setitem_map_existing _ _ _ _ Hd). set (d1 := mkDF _ _).
    assert (Hd1 : Pd.loc "staff_numbers" d1 = Ok i) by exact Hd.
    rewrite Hd1. simpl. rewrite (setitem_map_existing _ _ _ _ Hd1).
    unfold d1. simpl. f_equal. f_equal. rewrite map_map. apply map_ext.
    intros r. apply (update_col_twice i staff_numbers_lambda (Pd.replace "" NaN)). }
  rewrite (Hrun df Hloc). eexists. split; [reflexivity|].
  simpl. split; [reflexivity|]. split; [reflexivity|]. split; [|split].
  - intros r' Hr'. apply in_map_iff in Hr'. destruct Hr' as [r [<- Hr]].
    destruct (at_update_col_cases i clean_staff_numbers_cell r) as [H|H]; rewrite H;
      [apply clean_staff_numbers_cell_cases | left; reflexivity].
  - reflexivity.
  - rewrite Hrun by exact Hloc. simpl. f_equal. f_equal.
    apply map_update_col_twice. apply clean_staff_numbers_cell_twice.
Qed.

(** *** Categorical columns *)

Lemma loc_index_of (label : string) (df : DataFrame) (i : nat) :
  Pd.loc label df = Ok i -> Pd.index_of label (columns df) = Some i.
Proof.
  unfold Pd.loc. destruct (Pd.index_of label (columns df)); intros H;
    [injection H as ->; reflexivity | discriminate].
Qed.

Lemma loc_distinct (l1 l2 : string) (df : DataFrame) (i j : nat) :
  l1 <> l2 -> Pd.loc l1 df = Ok i -> Pd.loc l2 df = Ok j -> i <> j.
Proof.
  intros Hneq H1 H2 ->. apply Hneq.
  apply (index_of_inj l1 l2 (columns df) j); apply loc_index_of; assumption.
Qed.

Lemma digit_free_country_lambda (x : Cell) : digit_free (country_lambda x).
Proof.
  unfold digit_free, country_lambda.
  destruct (Py.any_digit (py_str x)) eqn:E; simpl; [reflexivity | exact E].
Qed.

Lemma country_code_lambda_short (x : Cell) :
  digit_free (country_code_lambda x)
  /\ String.length (py_str (country_code_lambda x)) <= 3.
Proof.
  unfold digit_free, country_code_lambda.
  destruct (Py.any_digit (py_str x)) eqn:E; simpl; [split; [reflexivity | lia]|].
  destruct (String.length (py_str x) <=? 3) eqn:El; simpl.
  - split; [exact E|]. apply Nat.leb_le. exact El.
  - split; [reflexivity | lia].
Qed.

(** [clean_categorical_columns] rewrites [store_type], [country_code] and
    [continent] in every row and nothing else.  In the result the text of
    each of the three cells holds no digit, and the text of the country
    code has at most three characters: a value that breaks either rule
    has become missing.  A continent that is a text first loses every
    "ee". *)
Theorem clean_categorical_columns_digit_free (df : DataFrame) (i j k : nat) :
  Pd.loc "store_type" df = Ok i ->
  Pd.loc "country_code" df = Ok j ->
  Pd.loc "continent" df = Ok k ->
  exists df',
    clean_categorical_columns df = Ok df'
    /\ columns df' = columns df
    /\ rows df'
       = map (fun r =>
                update_col k (fun x => country_lambda (continent_lambda x))
                  (update_col j country_code_lambda
                     (update_col i country_lambda r)))
           (rows df)
    /\ (forall r, In r (rows df') ->
          digit_free (Pd.at_ i r)
          /\ digit_free (Pd.at_ j r)
          /\ String.length (py_str (Pd.at_ j r)) <= 3
          /\ digit_free (Pd.at_ k r)).
Proof.
  intros Hi Hj Hk.
  assert (Hij : i <> j)
    by (apply (loc_distinct "store_type" "country_code" df); [discriminate | exact Hi | exact Hj]).
  assert (Hik : i <> k)
    by (apply (loc_distinct "store_type" "continent" df); [discriminate | exact Hi | exact Hk]).
  assert (Hjk : j <> k)
    by (apply (loc_distinct "country_code" "continent" df); [discriminate | exact Hj | exact Hk]).
  unfold clean_categorical_columns, Pd.getitem.
  rewrite Hi. simpl. rewrite (setitem_map_existing _ _ _ _ Hi). set (d1 := mkDF _ _).
  assert (Hj1 : Pd.loc "country_code" d1 = Ok j) by exact Hj.
  rewrite Hj1. simpl. rewrite (setitem_map_existing _ _ _ _ Hj1). set (d2 := mkDF _ _).
  assert (Hk2 : Pd.loc "continent" d2 = Ok k) by exact Hk.
  rewrite Hk2. simpl. rewrite (setitem_map_existing _ _ _ _ Hk2). set (d3 := mkDF _ _).
  assert (Hk3 : Pd.loc "continent" d3 = Ok k) by exact Hk.
  rewrite Hk3. simpl. rewrite (setitem_map_existing _ _ _ _ Hk3).
  assert (Hrows : map (fun r => Pd.set_nth k (country_lambda (Pd.at_ k r)) r) (rows d3)
                  = map (fun r =>
                           update_col k (fun x => country_lambda (continent_lambda x))
                             (update_col j country_code_lambda
                                (update_col i country_lambda r)))
                      (rows df)).
  { unfold d3, d2, d1. simpl. rewrite !map_map. apply map_ext. intros r.
    apply (update_col_twice k continent_lambda country_lambda). }
  rewrite Hrows. change (columns d3) with (columns df).
  eexists. split; [reflexivity|]. cbn [columns rows].
  split; [reflexivity|]. split; [reflexivity|].
  intros r' Hr'. apply in_map_iff in Hr'. destruct Hr' as [r [<- Hr]].
  rewrite (at_update_col_other k i) by (intros E; apply Hik; symmetry; exact E).
  rewrite (at_update_col_other j i) by (intros E; apply Hij; symmetry; exact E).
  rewrite (at_update_col_other k j) by (intros E; apply Hjk; symmetry; exact E).
  split; [|split; [|split]].
  - destruct (at_update_col_cases i country_lambda r) as [H|H]; rewrite H;
      [apply digit_free_country_lambda | reflexivity].
  - destruct (at_update_col_cases j country_code_lambda (update_col i country_lambda r))
      as [H|H]; rewrite H; [apply country_code_lambda_short | reflexivity].
  - destruct (at_update_col_cases j country_code_lambda (update_col i country_lambda r))
      as [H|H]; rewrite H; [apply country_code_lambda_short | simpl; lia].
  - match goal with
    | |- digit_free (Pd.at_ k (update_col k ?f ?row)) =>
        destruct (at_update_col_cases k f row) as [H|H]; rewrite H;
          [apply digit_free_country_lambda | reflexivity]
    end.
Qed.

(** *** Address *)





Lemma length_of_chars (l : list ascii) : String.length (Py.of_chars l) = List.length l.
Proof. induction l as [|c l IH]; simpl; [reflexivity|]. rewrite IH. reflexivity. Qed.



(** *** Latitude *)

Lemma combine_first_rows (i j : nat) (rs : list (list Cell)) :
  Frame.combine_first (map (Pd.at_ i) rs) (map (Pd.at_ j) rs)
  = map (fun r => if notnull (Pd.at_ i r) then Pd.at_ i r else Pd.at_ j r) rs.
Proof.
  induction rs as [|r rs IH]; simpl; [reflexivity|]. rewrite IH. reflexivity.
Qed.

Lemma setitem_rows_existing (label : string) (i : nat) (g : list Cell -> Cell)
    (df : DataFrame) :
  Pd.loc label df = Ok i ->
  Pd.setitem label (map g (rows df)) df
  = mkDF (columns df) (map (fun r => Pd.set_nth i (g r) r) (rows df)).
Proof.
  intros H. apply loc_index_of in H. unfold Pd.setitem. rewrite H.
  rewrite assign_map. reflexivity.
Qed.

(** A column that [drop] keeps reads as before. *)
Lemma getitem_drop_kept (labels : list string) (c : string) (df : DataFrame) :
  aligned df -> ~ In c labels ->
  Pd.getitem c
    (mkDF (filter (fun c => negb (Pd.mem c labels)) (columns df))
       (map (Pd.select (map (fun c => negb (Pd.mem c labels)) (columns df)))
          (rows df)))
  = Pd.getitem c df.
Proof.
  unfold aligned. rewrite Forall_forall. intros Hal Hc.
  unfold Pd.getitem, Pd.loc. simpl.
  assert (Hp : negb (Pd.mem c labels) = true)
    by (apply negb_true_iff, mem_false_In; exact Hc).
  pose proof (select_column (fun c => negb (Pd.mem c labels)) c (columns df) Hp) as Hsel.
  destruct (Pd.index_of c (columns df)) as [i|].
  - destruct Hsel as [j [Hj Hrow]]. rewrite Hj. simpl. f_equal.
    rewrite map_map. apply map_ext_in. intros r Hr. apply Hrow. apply Hal. exact Hr.
  - rewrite Hsel. reflexivity.
Qed.

(** Writing the column at [i] leaves the other columns as they read. *)
Lemma getitem_rows_updated_other (c : string) (i : nat) (g : list Cell -> Cell)
    (df : DataFrame) :
  Pd.index_of c (columns df) <> Some i ->
  Pd.getitem c (mkDF (columns df) (map (fun r => Pd.set_nth i (g r) r) (rows df)))
  = Pd.getitem c df.
Proof.
  intros H. unfold Pd.getitem, Pd.loc. simpl.
  destruct (Pd.index_of c (columns df)) as [k|]; [|reflexivity].
  simpl. f_equal. rewrite map_map. apply map_ext. intros r.
  apply at_set_nth_other. intros ->. apply H. reflexivity.
Qed.

(** [merge_latitude_columns] needs both [latitude] and [lat]: without
    one of them it is a [KeyError] that names the missing column.  On an
    aligned table with both, [lat] is removed and nothing else; each
    latitude is the old latitude where that is not missing and the value
    of [lat] otherwise; every other column reads as before. *)
Theorem merge_latitude_columns_prefers_latitude (df : DataFrame) :
  (~ In "latitude" (columns df) ->
   merge_latitude_columns df = Raise (KeyError "latitude"))
  /\ (In "latitude" (columns df) -> ~ In "lat" (columns df) ->
      merge_latitude_columns df = Raise (KeyError "lat"))
  /\ (forall i j,
        aligned df ->
        Pd.loc "latitude" df = Ok i ->
        Pd.loc "lat" df = Ok j ->
        exists df',
          merge_latitude_columns df = Ok df'
          /\ columns df' = filter (fun c => negb (Pd.mem c ["lat"])) (columns df)
          /\ ~ In "lat" (columns df')
          /\ List.length (rows df') = List.length (rows df)
          /\ Pd.getitem "latitude" df'
             = Ok (map (fun r => if notnull (Pd.at_ i r)
                                 then Pd.at_ i r else Pd.at_ j r) (rows df))
          /\ (forall c, c <> "lat" -> c <> "latitude" ->
                Pd.getitem c df' = Pd.getitem c df)).
Proof.
  split; [|split].
  - intros H. unfold merge_latitude_columns, Pd.getitem.
    rewrite (loc_absent _ _ H). reflexivity.
  - intros H1 H2. unfold merge_latitude_columns, Pd.getitem.
    destruct (loc_present _ _ H1) as [i Hi]. rewrite Hi, (loc_absent _ _ H2).
    reflexivity.
  - intros i j Hal Hi Hj.
    remember (mkDF (columns df)
                (map (fun r => Pd.set_nth i
                                 (if notnull (Pd.at_ i r) then Pd.at_ i r else Pd.at_ j r)
                                 r) (rows df))) as df1 eqn:Edf1.
    assert (Hcols1 : columns df1 = columns df) by (rewrite Edf1; reflexivity).
    assert (Hal1 : aligned df1).
    { unfold aligned in *. rewrite Forall_forall in *. rewrite Edf1. simpl.
      intros r' Hr'. apply in_map_iff in Hr'. destruct Hr' as [r [<- Hr]].
      rewrite set_nth_length. apply Hal. exact Hr. }
    assert (Hrun : merge_latitude_columns df
                   = Ok (mkDF (filter (fun c => negb (Pd.mem c ["lat"])) (columns df1))
                           (map (Pd.select
                                   (map (fun c => negb (Pd.mem c ["lat"])) (columns df1)))
                              (rows df1)))).
    { unfold merge_latitude_columns, Pd.getitem.
      rewrite Hi, Hj. cbv beta iota delta [bind].
      rewrite combine_first_rows.
      rewrite (setitem_rows_existing "latitude" i
                 (fun r => if notnull (Pd.at_ i r) then Pd.at_ i r else Pd.at_ j r)
                 df Hi).
      rewrite <- Edf1. apply drop_raise_present.
      intros l [<-|[]]. rewrite Hcols1.
      eapply index_of_Some_In. apply loc_index_of. exact Hj. }
    eexists. split; [exact Hrun|].
    split; [cbn [columns]; rewrite Hcols1; reflexivity|].
    split; [|split; [|split]].
    + cbn [columns]. intros H. apply filter_In in H. destruct H as [_ H]. discriminate.
    + cbn [rows]. rewrite length_map, Edf1. simpl. apply length_map.
    + rewrite (getitem_drop_kept ["lat"] "latitude" df1 Hal1)
        by (intros [H|[]]; discriminate).
      unfold Pd.getitem.
      assert (Hi1 : Pd.loc "latitude" df1 = Ok i)
        by (unfold Pd.loc; rewrite Hcols1; exact Hi).
      rewrite Hi1. cbv beta iota delta [bind]. f_equal. rewrite Edf1. simpl.
      rewrite map_map. apply map_ext_in. intros r Hr. apply at_set_nth_same.
      unfold aligned in Hal. rewrite Forall_forall in Hal. rewrite (Hal r Hr).
      eapply index_of_lt. apply loc_index_of. exact Hi.
    + intros c Hc1 Hc2.
      rewrite (getitem_drop_kept ["lat"] c df1 Hal1)
        by (intros [H|[]]; apply Hc1; symmetry; exact H).
      rewrite Edf1. apply getitem_rows_updated_other. intros H.
      apply Hc2. apply (index_of_inj c "latitude" (columns df) i);
        [exact H | apply loc_index_of; exact Hi].
Qed.

(** *** The row filter *)

Lemma filter_none_dropped {A : Type} (p : A -> bool) (l : list A) :
  (forall x, In x l -> p x = true) -> filter p l = l.
Proof.
  induction l as [|a l IH]; simpl; intros H; [reflexivity|].
  rewrite (H a) by (left; reflexivity). rewrite IH; [reflexivity|].
  intros x Hx. apply H. right. exact Hx.
Qed.

Lemma remove_invalid_rows_rows (df : DataFrame) :
  rows (remove_invalid_rows df)
  = filter (fun r => negb (row_is_invalid r)) (rows df).
Proof.
  unfold remove_invalid_rows. destruct (rows df) as [|r rs] eqn:E; [reflexivity|].
  unfold Pd.getitem_mask. simpl rows. rewrite E, map_map, select_map_filter.
  reflexivity.
Qed.


(** *** Date events: null rows *)

Lemma applymap_loc (label : string) (f : Cell -> Cell) (df : DataFrame) :
  Pd.loc label (Pd.applymap f df) = Pd.loc label df.
Proof. reflexivity. Qed.

(** [remove_null_rows] first writes the missing value for every cell
    "NULL" of the table, then keeps the rows whose timestamp, day, month
    and year are all present.  So in the result none of the four is
    missing and no cell anywhere is "NULL"; the columns are unchanged.
    Without a [timestamp] column the call is the [KeyError] of [dropna]. *)
Theorem remove_null_rows_drops_incomplete_rows (df : DataFrame) :
  (~ In "timestamp" (columns df) ->
   remove_null_rows df = Raise (KeyError "timestamp"))
  /\ (forall t d m y,
        Pd.loc "timestamp" df = Ok t ->
        Pd.loc "day" df = Ok d ->
        Pd.loc "month" df = Ok m ->
        Pd.loc "year" df = Ok y ->
        exists df',
          remove_null_rows df = Ok df'
          /\ columns df' = columns df
          /\ rows df'
             = filter (fun r => forallb (fun i => notnull (Pd.at_ i r)) [t; d; m; y])
                 (map (map (Pd.replace "NULL" NaN)) (rows df))
          /\ (forall r, In r (rows df') ->
                Pd.at_ t r <> NaN /\ Pd.at_ d r <> NaN
                /\ Pd.at_ m r <> NaN /\ Pd.at_ y r <> NaN)
          /\ (forall r x, In r (rows df') -> In x r -> x <> Str "NULL")).
Proof.
  split.
  - intros H. unfold remove_null_rows, Frame.dropna. simpl Pd.apply.
    rewrite applymap_loc, (loc_absent _ _ H). reflexivity.
  - intros t d m y Ht Hd Hm Hy. unfold remove_null_rows, Frame.dropna.
    simpl Pd.apply. rewrite !applymap_loc, Ht, Hd, Hm, Hy.
    cbv beta iota delta [bind]. eexists. split; [reflexivity|].
    cbn [columns rows Pd.applymap]. split; [reflexivity|]. split; [reflexivity|].
    split.
    + intros r Hr. apply filter_In in Hr. destruct Hr as [_ Hr].
      simpl forallb in Hr. rewrite !andb_true_iff in Hr.
      destruct Hr as [H1 [H2 [H3 [H4 _]]]].
      repeat split; intros E;
        [rewrite E in H1 | rewrite E in H2 | rewrite E in H3 | rewrite E in H4];
        discriminate.
    + intros r x Hr Hx E. apply filter_In in Hr. destruct Hr as [Hr _].
      apply in_map_iff in Hr. destruct Hr as [r0 [<- _]].
      apply in_map_iff in Hx. destruct Hx as [x0 [<- _]].
      unfold Pd.replace in E.
      destruct (cell_eq_str x0 "NULL") eqn:Ex; [discriminate|].
      subst x0. discriminate.
Qed.

(** *** Date events: from the JSON mapping to the table *)

Lemma dict_getitem_key {A : Type} (d : Frame.Dict A) (k : string) :
  In k (Frame.dict_keys d) -> exists v, Frame.dict_getitem d k = Ok v.
Proof.
  induction d as [|[k0 v0] d IH]; simpl; [intros []|].
  intros H. destruct (String.eqb k0 k) eqn:E; [exists v0; reflexivity|].
  destruct H as [H|H]; [subst; rewrite String.eqb_refl in E; discriminate|].
  apply IH. exact H.
Qed.

Lemma dict_getitem_missing {A : Type} (d : Frame.Dict A) (k : string) :
  is_ok (Frame.dict_getitem d k) = false ->
  Frame.dict_getitem d k = Raise (KeyError k).
Proof.
  induction d as [|[k0 v0] d IH]; simpl; [reflexivity|].
  destruct (String.eqb k0 k); [discriminate | exact IH].
Qed.

Lemma dict_getitem_value (d : Frame.Dict Cell) (k : string) :
  is_ok (Frame.dict_getitem d k) = true ->
  Frame.dict_getitem d k = Ok (dict_value d k).
Proof.
  unfold dict_value. destruct (Frame.dict_getitem d k); [reflexivity | discriminate].
Qed.

Lemma apply_map_ok {A B : Type} (f : A -> res B) (g : A -> B) (l : list A) :
  (forall x, In x l -> f x = Ok (g x)) -> Pd.apply f l = Ok (map g l).
Proof.
  induction l as [|a l IH]; simpl; intros H; [reflexivity|].
  rewrite (H a) by (left; reflexivity). simpl.
  rewrite IH by (intros x Hx; apply H; right; exact Hx). reflexivity.
Qed.

Lemma apply_length {A B : Type} (f : A -> res B) (l : list A) (ys : list B) :
  Pd.apply f l = Ok ys -> List.length ys = List.length l.
Proof.
  revert ys. induction l as [|a l IH]; simpl; intros ys H.
  - injection H as <-. reflexivity.
  - destruct (f a); simpl in H; [|discriminate].
    destruct (Pd.apply f l) as [ys'|]; simpl in H; [|discriminate].
    injection H as <-. simpl. rewrite (IH ys' eq_refl). reflexivity.
Qed.

Lemma json_value_lookup (json_data : Frame.Dict (Frame.Dict Cell))
    (field key : string) (mapping : Frame.Dict Cell) :
  Frame.dict_getitem json_data field = Ok mapping ->
  json_value json_data field key = Frame.dict_getitem mapping key.
Proof. intros H. unfold json_value. rewrite H. reflexivity. Qed.

(** [reformat_json_to_df] looks the keys up in the mapping of
    [timestamp]: without that field it is a [KeyError]; when that mapping
    is empty the table has no column, whatever the other fields are.
    When every key of the timestamp mapping is a key of the other five
    mappings, the table has the six columns and one row per key, in the
    order of the keys, holding the six values under that key.  When some
    key is missing from one of the other fields, the call raises. *)
Theorem reformat_json_to_df_one_row_per_key
    (json_data : Frame.Dict (Frame.Dict Cell)) :
  (is_ok (Frame.dict_getitem json_data "timestamp") = false ->
   reformat_json_to_df json_data = Raise (KeyError "timestamp"))
  /\ (Frame.dict_getitem json_data "timestamp" = Ok [] ->
      reformat_json_to_df json_data = Ok (mkDF [] []))
  /\ (forall ts mo ye da tp du,
        Frame.dict_getitem json_data "timestamp" = Ok ts ->
        Frame.dict_getitem json_data "month" = Ok mo ->
        Frame.dict_getitem json_data "year" = Ok ye ->
        Frame.dict_getitem json_data "day" = Ok da ->
        Frame.dict_getitem json_data "time_period" = Ok tp ->
        Frame.dict_getitem json_data "date_uuid" = Ok du ->
        (forall k m, In k (Frame.dict_keys ts) -> In m [mo; ye; da; tp; du] ->
           is_ok (Frame.dict_getitem m k) = true) ->
        reformat_json_to_df json_data
        = Ok (Frame.of_records date_event_columns
                (map (fun k => [dict_value ts k; dict_value mo k; dict_value ye k;
                                dict_value da k; dict_value tp k; dict_value du k])
                   (Frame.dict_keys ts))))
  /\ (forall ts k field,
        Frame.dict_getitem json_data "timestamp" = Ok ts ->
        In k (Frame.dict_keys ts) ->
        In field ["month"; "year"; "day"; "time_period"; "date_uuid"] ->
        is_ok (json_value json_data field k) = false ->
        is_ok (reformat_json_to_df json_data) = false).
Proof.
  split; [|split; [|split]].
  - intros H. unfold reformat_json_to_df.
    rewrite (dict_getitem_missing _ _ H). reflexivity.
  - intros H. unfold reformat_json_to_df. rewrite H. reflexivity.
  - intros ts mo ye da tp du Hts Hmo Hye Hda Htp Hdu Hall.
    unfold reformat_json_to_df. rewrite Hts. unfold bind at 1.
    rewrite (apply_map_ok _
               (fun k => [dict_value ts k; dict_value mo k; dict_value ye k;
                          dict_value da k; dict_value tp k; dict_value du k])).
    + reflexivity.
    + intros k Hk.
      rewrite (json_value_lookup _ _ _ _ Hts), (json_value_lookup _ _ _ _ Hmo),
        (json_value_lookup _ _ _ _ Hye), (json_value_lookup _ _ _ _ Hda),
        (json_value_lookup _ _ _ _ Htp), (json_value_lookup _ _ _ _ Hdu).
      destruct (dict_getitem_key ts k Hk) as [v Hv].
      rewrite (dict_getitem_value ts k) by (rewrite Hv; reflexivity).
      rewrite (dict_getitem_value mo k) by (apply Hall; [exact Hk | simpl; repeat (first [left; reflexivity | right])]).
      rewrite (dict_getitem_value ye k) by (apply Hall; [exact Hk | simpl; repeat (first [left; reflexivity | right])]).
      rewrite (dict_getitem_value da k) by (apply Hall; [exact Hk | simpl; repeat (first [left; reflexivity | right])]).
      rewrite (dict_getitem_value tp k) by (apply Hall; [exact Hk | simpl; repeat (first [left; reflexivity | right])]).
      rewrite (dict_getitem_value du k) by (apply Hall; [exact Hk | simpl; repeat (first [left; reflexivity | right])]).
      reflexivity.
  - intros ts k field Hts Hk Hfield Hbad.
    unfold reformat_json_to_df. rewrite Hts. unfold bind at 1.
    match goal with
    | |- is_ok (bind (Pd.apply ?f ?l) _) = false =>
        assert (Hf : is_ok (f k) = false);
        [|pose proof (apply_raises f l k Hk Hf) as Hr;
          destruct (Pd.apply f l); [discriminate | reflexivity]]
    end.
    destruct (json_value json_data "timestamp" k); [|reflexivity].
    simpl in Hfield. unfold bind.
    destruct Hfield as [<-|[<-|[<-|[<-|[<-|[]]]]]];
      repeat match goal with
             | |- context [match json_value json_data ?fld k with _ => _ end] =>
                 destruct (json_value json_data fld k) eqn:?
             end; try reflexivity; discriminate.
Qed.

Lemma reformat_json_to_df_records (json_data : Frame.Dict (Frame.Dict Cell))
    (df : DataFrame) :
  reformat_json_to_df json_data = Ok df ->
  exists ts records,
    Frame.dict_getitem json_data "timestamp" = Ok ts
    /\ df = Frame.of_records date_event_columns records
    /\ List.length records = List.length (Frame.dict_keys ts)
    /\ (forall rec, In rec records -> List.length rec = 6).
Proof.
  unfold reformat_json_to_df. intros H.
  destruct (Frame.dict_getitem json_data "timestamp") as [ts|] eqn:Ets;
    [|discriminate].
  unfold bind at 1 in H.
  match type of H with
  | bind (Pd.apply ?f ?l) _ = _ =>
      destruct (Pd.apply f l) as [records|] eqn:Erec; [|discriminate]
  end.
  injection H as <-. exists ts, records.
  split; [reflexivity|]. split; [reflexivity|].
  split; [exact (apply_length _ _ _ Erec)|].
  intros rec Hrec. destruct (apply_Ok_all _ _ _ _ Erec Hrec) as [k [_ Hk]].
  unfold bind in Hk.
  repeat match type of Hk with
         | context [match json_value json_data ?fld k with _ => _ end] =>
             destruct (json_value json_data fld k)
         end; try discriminate.
  injection Hk as <-. reflexivity.
Qed.

Lemma remove_null_rows_run (df : DataFrame) (t d m y : nat) :
  Pd.loc "timestamp" df = Ok t ->
  Pd.loc "day" df = Ok d ->
  Pd.loc "month" df = Ok m ->
  Pd.loc "year" df = Ok y ->
  remove_null_rows df
  = Ok (mkDF (columns df)
          (filter (fun r => forallb (fun i => notnull (Pd.at_ i r)) [t; d; m; y])
             (map (map (Pd.replace "NULL" NaN)) (rows df)))).
Proof.
  intros Ht Hd Hm Hy. unfold remove_null_rows, Frame.dropna.
  simpl Pd.apply. rewrite !applymap_loc, Ht, Hd, Hm, Hy. reflexivity.
Qed.

Lemma In_assign_values (f : list Cell -> Cell -> list Cell) (rs : list (list Cell))
    (values : list Cell) (r' : list Cell) :
  List.length values = List.length rs ->
  In r' (Pd.assign f rs values) ->
  exists r x, In r rs /\ In x values /\ r' = f r x.
Proof.
  revert values. induction rs as [|r rs IH]; simpl; intros values Hlen; [intros []|].
  destruct values as [|v values]; [discriminate|]. simpl in Hlen.
  injection Hlen as Hlen. simpl. intros [H|H].
  - exists r, v. split; [left; reflexivity|]. split; [left; reflexivity|].
    symmetry. exact H.
  - destruct (IH _ Hlen H) as [r0 [x [Hin [Hx Heq]]]]. exists r0, x.
    split; [right; exact Hin|]. split; [right; exact Hx | exact Heq].
Qed.

(** [combine_datetime_columns] on a table with the six date-event columns
    whose rows have a timestamp. *)
Lemma combine_datetime_columns_six (rs : list (list Cell)) (df' : DataFrame) :
  (forall r, In r rs -> List.length r = 6 /\ notnull (Pd.at_ 0 r) = true) ->
  combine_datetime_columns (mkDF date_event_columns rs) = Ok df' ->
  columns df' = ["time_period"; "date_uuid"; "datetime"]
  /\ List.length (rows df') = List.length rs
  /\ (forall r', In r' (rows df') ->
        exists r t, In r rs /\ r' = [Pd.at_ 4 r; Pd.at_ 5 r; Date t]).
Proof.
  intros Hrs H. unfold combine_datetime_columns in H.
  change (Pd.loc "year" (mkDF date_event_columns rs)) with (@Ok nat 2) in H.
  change (Pd.loc "month" (mkDF date_event_columns rs)) with (@Ok nat 1) in H.
  change (Pd.loc "day" (mkDF date_event_columns rs)) with (@Ok nat 3) in H.
  change (Pd.loc "timestamp" (mkDF date_event_columns rs)) with (@Ok nat 0) in H.
  cbv beta iota delta [bind] in H. simpl rows in H.
  match type of H with
  | context [Pd.apply ?f rs] =>
      destruct (Pd.apply f rs) as [texts|] eqn:Et; [|discriminate]
  end.
  destruct (Pd.apply to_datetime_raise texts) as [datetime|] eqn:Ed; [|discriminate].
  assert (Hlen : List.length datetime = List.length rs).
  { rewrite (apply_length _ _ _ Ed). exact (apply_length _ _ _ Et). }
  injection H as <-. cbn [columns rows]. split; [reflexivity|].
  split; [rewrite length_map, assign_length; reflexivity|].
  intros r' Hr'. apply in_map_iff in Hr'. destruct Hr' as [r1 [<- Hr1]].
  destruct (In_assign_values _ _ _ _ Hlen Hr1) as [r [x [Hr [Hx ->]]]].
  destruct (apply_Ok_all _ _ _ _ Ed Hx) as [txt [Htxt Hparse]].
  destruct (apply_Ok_all _ _ _ _ Et Htxt) as [r0 [Hr0 Htext]].
  destruct (Hrs r0 Hr0) as [_ Hts].
  destruct (Pd.at_ 0 r0) as [|time|q|t0]; simpl in Htext; try discriminate.
  injection Htext as <-. simpl in Hparse.
  destruct (to_datetime_text _) as [t|]; [|discriminate].
  injection Hparse as <-.
  destruct (Hrs r Hr) as [Hlen6 _].
  destruct r as [|a [|b [|c [|d [|e [|g [|]]]]]]]; try discriminate.
  exists [a; b; c; d; e; g], t. split; [exact Hr | reflexivity].
Qed.

(** Whenever [clean_date_events_data] returns a table, its columns are
    [time_period], [date_uuid] and [datetime] in this order, every row
    has these three cells and its [datetime] is a timestamp (never
    missing, never text), no cell is the ten-character pattern, and there
    are at most as many rows as keys in the timestamp mapping. *)
Theorem clean_date_events_data_shape
    (json_data : Frame.Dict (Frame.Dict Cell)) (df' : DataFrame) :
  clean_date_events_data json_data = Ok df' ->
  columns df' = ["time_period"; "date_uuid"; "datetime"]
  /\ (forall r, In r (rows df') ->
        exists time_period date_uuid t,
          r = [time_period; date_uuid; Date t]
          /\ is_invalid_pattern time_period = false
          /\ is_invalid_pattern date_uuid = false)
  /\ (forall ts, Frame.dict_getitem json_data "timestamp" = Ok ts ->
        List.length (rows df') <= List.length (Frame.dict_keys ts)).
Proof.
  unfold clean_date_events_data. intros H.
  destruct (reformat_json_to_df json_data) as [df0|] eqn:E0; [|discriminate].
  unfold bind at 1 in H.
  destruct (remove_null_rows df0) as [df1|] eqn:E1; [|discriminate].
  unfold bind at 1 in H.
  destruct (reformat_json_to_df_records _ _ E0) as [ts [records [Hts [-> [Hn Hsix]]]]].
  destruct records as [|rec0 recs]; [vm_compute in E1; discriminate|].
  change (Frame.of_records date_event_columns (rec0 :: recs))
    with (mkDF date_event_columns (rec0 :: recs)) in E1.
  remember (rec0 :: recs) as records eqn:Erecs. clear Erecs rec0 recs.
  rewrite (remove_null_rows_run _ 0 3 1 2) in E1 by reflexivity.
  injection E1 as <-. cbn [columns rows] in H.
  remember (filter _ (map (map (Pd.replace "NULL" NaN)) records)) as rows1 eqn:Erows1.
  assert (Hrows1 : forall r, In r rows1 ->
            List.length r = 6 /\ notnull (Pd.at_ 0 r) = true).
  { intros r Hr. rewrite Erows1 in Hr. apply filter_In in Hr.
    destruct Hr as [Hr Hp]. apply in_map_iff in Hr. destruct Hr as [r0 [<- Hr0]].
    split; [rewrite length_map; apply Hsix; exact Hr0|].
    simpl forallb in Hp. apply andb_true_iff in Hp. destruct Hp as [Hp _].
    exact Hp. }
  assert (Hlen1 : List.length rows1 <= List.length records).
  { rewrite Erows1. etransitivity; [apply filter_length_le|].
    rewrite length_map. apply le_n. }
  clear Erows1.
  unfold remove_invalid_rows_date_events_data in H. cbn [rows] in H.
  destruct rows1 as [|r1 rs1]; [vm_compute in H; discriminate|].
  remember (r1 :: rs1) as rows1 eqn:Erows1. clear Erows1 r1 rs1.
  unfold Pd.getitem_mask in H. cbn [columns rows] in H.
  rewrite map_map, select_map_filter in H.
  apply combine_datetime_columns_six in H.
  - destruct H as [Hcols [Hlen Hrows]]. split; [exact Hcols|]. split.
    + intros r' Hr'. destruct (Hrows r' Hr') as [r [t [Hr ->]]].
      apply filter_In in Hr. destruct Hr as [Hr Hvalid].
      apply negb_true_iff in Hvalid. unfold row_is_invalid in Hvalid.
      destruct (Hrows1 r Hr) as [Hlen6 _].
      destruct r as [|a [|b [|c [|d [|e [|g [|]]]]]]]; try discriminate.
      exists e, g, t. split; [reflexivity|].
      simpl in Hvalid. rewrite !orb_false_iff in Hvalid.
      destruct Hvalid as [_ [_ [_ [_ [He [Hg _]]]]]].
      split; [exact He | exact Hg].
    + intros ts' Hts'. rewrite Hts in Hts'. injection Hts' as <-.
      rewrite Hlen, <- Hn. etransitivity; [apply filter_length_le | exact Hlen1].
  - intros r Hr. apply filter_In in Hr. destruct Hr as [Hr _].
    exact (Hrows1 r Hr).
Qed.

Lemma filter_all_dropped {A : Type} (p : A -> bool) (l : list A) :
  (forall x, In x l -> p x = false) -> filter p l = [].
Proof.
  induction l as [|a l IH]; simpl; intros H; [reflexivity|].
  rewrite (H a) by (left; reflexivity). apply IH.
  intros x Hx. apply H. right. exact Hx.
Qed.

(** When no record has all of timestamp, day, month and year (in each
    record at least one of the four is missing or "NULL"),
    [clean_date_events_data] returns no table: without any record the
    frame has no columns and [dropna] raises its [KeyError] for the date
    columns, recorded under [timestamp]; otherwise the validity filter,
    run on a frame without rows, returns a frame without columns, and
    [combine_datetime_columns] raises on [year]. *)
Theorem clean_date_events_data_raises_when_no_record_is_complete
    (json_data : Frame.Dict (Frame.Dict Cell)) (df : DataFrame) :
  reformat_json_to_df json_data = Ok df ->
  (forall r, In r (rows df) ->
     exists i, In i [0; 3; 1; 2]
               /\ (Pd.at_ i r = NaN \/ Pd.at_ i r = Str "NULL")) ->
  (rows df = [] ->
   clean_date_events_data json_data = Raise (KeyError "timestamp"))
  /\ (rows df <> [] ->
      clean_date_events_data json_data = Raise (KeyError "year")).
Proof.
  intros E0 Hall. unfold clean_date_events_data. rewrite E0. unfold bind at 1.
  destruct (reformat_json_to_df_records _ _ E0) as [ts [records [_ [-> [_ Hsix]]]]].
  destruct records as [|rec0 recs].
  - split; [intros _; reflexivity | intros H; exfalso; apply H; reflexivity].
  - split; [intros H; discriminate H | intros _].
    change (Frame.of_records date_event_columns (rec0 :: recs))
      with (mkDF date_event_columns (rec0 :: recs)) in *.
    remember (rec0 :: recs) as records eqn:Erecs. clear Erecs rec0 recs.
    cbv beta iota delta [bind].
    rewrite (remove_null_rows_run _ 0 3 1 2) by reflexivity.
    cbn [columns rows]. rewrite filter_all_dropped; [reflexivity|].
    intros r Hr. apply in_map_iff in Hr. destruct Hr as [r0 [<- Hr0]].
    pose proof (Hsix r0 Hr0) as Hlen6.
    destruct (Hall r0 Hr0) as [i [Hi Hcell]].
    destruct r0 as [|a [|b [|c [|d [|e [|g [|]]]]]]]; try discriminate.
    simpl in Hi.
    destruct Hi as [<-|[<-|[<-|[<-|[]]]]]; unfold Pd.at_ in Hcell; simpl in Hcell;
      destruct Hcell as [->| ->]; unfold Pd.at_; simpl;
      rewrite ?andb_false_r; reflexivity.
Qed.

(** *** The comma rule of [stores_clean] *)

Lemma comma_space_from_twice (s : string) :
  forall b,
    Text.comma_space_from false (Text.comma_space_from b s)
    = Text.comma_space_from b s
    /\ Text.comma_space_from true (Text.comma_space_from true s)
       = Text.comma_space_from true s.
Proof.
  induction s as [|c s IH]; intros b; simpl; [split; reflexivity|].
  destruct (IH true) as [IHt1 IHt2]. destruct (IH false) as [IHf1 _].
  destruct (Py.is_space c) eqn:Esp.
  - assert (Hc : Ascii.eqb c "," = false).
    { destruct (Ascii.eqb c ",") eqn:E; [|reflexivity].
      apply Ascii.eqb_eq in E. subst c. discriminate Esp. }
    rewrite Hc. destruct b; simpl.
    + split; [exact IHt1 | exact IHt2].
    + rewrite Hc, IHf1. split; [reflexivity | exact IHt2].
  - rewrite !andb_false_r. destruct (Ascii.eqb c ",") eqn:Ec.
    + simpl. rewrite IHt2. split; reflexivity.
    + simpl. rewrite Esp, Ec, IHf1. split; reflexivity.
Qed.

Lemma comma_space_from_no_comma (s : string) :
  existsb (Ascii.eqb ",") (Py.chars s) = false ->
  Text.comma_space_from false s = s.
Proof.
  induction s as [|c s IH]; [reflexivity|].
  intros H.
  change (Ascii.eqb "," c || existsb (Ascii.eqb ",") (Py.chars s) = false) in H.
  apply orb_false_iff in H. destruct H as [Hc H].
  cbn [Text.comma_space_from andb]. rewrite Ascii.eqb_sym, Hc, (IH H). reflexivity.
Qed.

Lemma comma_space_from_skips (ws s : string) :
  forallb Py.is_space (Py.chars ws) = true ->
  Text.comma_space_from true (ws ++ s) = Text.comma_space_from true s.
Proof.
  induction ws as [|c ws IH]; simpl; [reflexivity|].
  intros H. apply andb_true_iff in H. destruct H as [Hc H].
  rewrite Hc. simpl. exact (IH H).
Qed.

Lemma comma_space_from_after_comma (s1 rest1 rest2 : string) :
  Text.comma_space_from true rest1 = Text.comma_space_from true rest2 ->
  forall b,
    Text.comma_space_from b (s1 ++ String "," rest1)
    = Text.comma_space_from b (s1 ++ String "," rest2).
Proof.
  intros H. induction s1 as [|c s1 IH]; intros b; simpl.
  - rewrite andb_false_r, H. reflexivity.
  - rewrite !IH. reflexivity.
Qed.

(** The rule [re.sub(r',\s*', ', ', x)] that [stores_clean] applies to every
    text cell: applying it twice is applying it once; a text without a
    comma is unchanged; the white space that follows a comma does not
    matter to the result; a cell that is not a text is unchanged. *)
Theorem comma_lambda_normalises_commas :
  (forall x, comma_lambda (comma_lambda x) = comma_lambda x)
  /\ (forall s, existsb (Ascii.eqb ",") (Py.chars s) = false ->
        comma_lambda (Str s) = Str s)
  /\ (forall s1 ws s2, forallb Py.is_space (Py.chars ws) = true ->
        comma_lambda (Str (s1 ++ "," ++ ws ++ s2))
        = comma_lambda (Str (s1 ++ "," ++ s2)))
  /\ (forall x, is_str x = false -> comma_lambda x = x).
Proof.
  split; [|split; [|split]].
  - intros [|s|q|t]; simpl; try reflexivity.
    unfold Text.comma_space.
    rewrite (proj1 (comma_space_from_twice s false)). reflexivity.
  - intros s H. simpl. unfold Text.comma_space.
    rewrite (comma_space_from_no_comma s H). reflexivity.
  - intros s1 ws s2 H. simpl. unfold Text.comma_space. f_equal.
    apply comma_space_from_after_comma. apply comma_space_from_skips. exact H.
  - intros [|s|q|t]; simpl; intros H; try reflexivity. discriminate H.
Qed.

(** *** The S3 address *)

Lemma split_nonempty (sep : ascii) (s : string) : Text.split sep s <> [].
Proof.
  destruct s as [|c s]; simpl; [discriminate|].
  destruct (Ascii.eqb c sep); [discriminate|].
  destruct (Text.split sep s); discriminate.
Qed.

Lemma split_prefix (a rest : string) :
  no_slash a ->
  Text.split "/" (a ++ String "/" rest) = a :: Text.split "/" rest.
Proof.
  unfold no_slash. induction a as [|c a IH]; intros H.
  - reflexivity.
  - change (Ascii.eqb "/" c || existsb (Ascii.eqb "/") (Py.chars a) = false) in H.
    apply orb_false_iff in H. destruct H as [Hc H].
    change ((String c a ++ String "/" rest)%string)
      with (String c (a ++ String "/" rest)).
    cbn [Text.split]. rewrite Ascii.eqb_sym, Hc, (IH H). reflexivity.
Qed.

Lemma split_last (a : string) : no_slash a -> Text.split "/" a = [a].
Proof.
  unfold no_slash. induction a as [|c a IH]; intros H; [reflexivity|].
  change (Ascii.eqb "/" c || existsb (Ascii.eqb "/") (Py.chars a) = false) in H.
  apply orb_false_iff in H. destruct H as [Hc H].
  cbn [Text.split]. rewrite Ascii.eqb_sym, Hc, (IH H). reflexivity.
Qed.

Lemma join_split (s : string) : Text.join "/" (Text.split "/" s) = s.
Proof.
  unfold Text.join. induction s as [|c s IH]; [reflexivity|].
  cbn [Text.split]. destruct (Ascii.eqb c "/") eqn:Ec.
  - apply Ascii.eqb_eq in Ec. subst c.
    destruct (Text.split "/" s) as [|piece pieces] eqn:E;
      [exfalso; exact (split_nonempty _ _ E)|].
    change (String.concat "/" (EmptyString :: piece :: pieces))
      with (String "/" (String.concat "/" (piece :: pieces))).
    rewrite IH. reflexivity.
  - destruct (Text.split "/" s) as [|piece pieces] eqn:E;
      [exfalso; exact (split_nonempty _ _ E)|].
    rewrite <- IH. destruct pieces; reflexivity.
Qed.

Lemma split_length (s : string) :
  List.length (Text.split "/" s) = S (count_slash s).
Proof.
  unfold count_slash. induction s as [|c s IH]; [reflexivity|].
  cbn [Text.split Py.chars list_ascii_of_string filter].
  rewrite (Ascii.eqb_sym "/" c). destruct (Ascii.eqb c "/").
  - cbn [List.length]. rewrite IH. reflexivity.
  - destruct (Text.split "/" s) as [|piece pieces] eqn:E;
      [exfalso; exact (split_nonempty _ _ E)|].
    exact IH.
Qed.

(** [_parse_s3_uri] cuts the address at its "/": the bucket is the piece
    between the second and the third "/", the key is everything after the
    third, further "/" included, and it is empty when there is no third
    "/".  The first two pieces are not looked at.  With fewer than two
    "/" in the address there is no third piece: indexing raises
    [IndexError], the [None] here. *)
Theorem parse_s3_uri_bucket_and_key :
  (forall scheme authority bucket key,
     no_slash scheme -> no_slash authority -> no_slash bucket ->
     _parse_s3_uri (scheme ++ "/" ++ authority ++ "/" ++ bucket ++ "/" ++ key)
     = Some (bucket, key))
  /\ (forall scheme authority bucket,
        no_slash scheme -> no_slash authority -> no_slash bucket ->
        _parse_s3_uri (scheme ++ "/" ++ authority ++ "/" ++ bucket)
        = Some (bucket, EmptyString))
  /\ (forall s3_uri, _parse_s3_uri s3_uri = None <-> count_slash s3_uri < 2).
Proof.
  split; [|split].
  - intros scheme authority bucket key Hs Ha Hb. unfold _parse_s3_uri.
    change (scheme ++ "/" ++ authority ++ "/" ++ bucket ++ "/" ++ key)%string
      with (scheme ++ String "/" (authority ++ String "/" (bucket ++ String "/" key)))%string.
    rewrite (split_prefix _ _ Hs), (split_prefix _ _ Ha), (split_prefix _ _ Hb).
    cbn [nth_error skipn]. rewrite join_split. reflexivity.
  - intros scheme authority bucket Hs Ha Hb. unfold _parse_s3_uri.
    change (scheme ++ "/" ++ authority ++ "/" ++ bucket)%string
      with (scheme ++ String "/" (authority ++ String "/" bucket))%string.
    rewrite (split_prefix _ _ Hs), (split_prefix _ _ Ha), (split_last _ Hb).
    reflexivity.
  - intros s3_uri. unfold _parse_s3_uri.
    pose proof (split_length s3_uri) as Hlen.
    destruct (nth_error (Text.split "/" s3_uri) 2) as [bucket|] eqn:E.
    + split; [discriminate|]. intros H. exfalso.
      assert (Hn : nth_error (Text.split "/" s3_uri) 2 <> None)
        by (rewrite E; discriminate).
      apply nth_error_Some in Hn. lia.
    + split; [|reflexivity]. intros _. apply nth_error_None in E. lia.
Qed.

(** *** The pipelines of users, cards and stores *)

Lemma bind_Ok {A B : Type} (m : res A) (k : A -> res B) (y : B) :
  bind m k = Ok y -> exists x, m = Ok x /\ k x = Ok y.
Proof.
  destruct m as [x|e]; simpl; intros H; [|discriminate].
  exists x. split; [reflexivity | exact H].
Qed.

Lemma same_shape_trans (a b c : DataFrame) :
  same_shape a b -> same_shape b c -> same_shape a c.
Proof.
  intros [H1 H2] [H3 H4]. split; [rewrite H1; exact H3 | rewrite H2; exact H4].
Qed.

Lemma getitem_Ok_In (label : string) (df : DataFrame) (col : list Cell) :
  Pd.getitem label df = Ok col -> In label (columns df).
Proof.
  unfold Pd.getitem, Pd.loc.
  destruct (Pd.index_of label (columns df)) as [i|] eqn:E; [|discriminate].
  intros _. exact (index_of_Some_In _ _ _ E).
Qed.

Lemma setitem_shape (label : string) (df : DataFrame) (col values : list Cell) :
  Pd.getitem label df = Ok col -> same_shape (Pd.setitem label values df) df.
Proof.
  intros H. split.
  - rewrite columns_setitem. apply cols_set_present. exact (getitem_Ok_In _ _ _ H).
  - apply rows_setitem_length.
Qed.

Lemma standardize_nulls_shape (df : DataFrame) :
  same_shape (standardize_nulls df) df.
Proof.
  rewrite standardize_nulls_cells. split; [reflexivity|]. simpl. apply length_map.
Qed.

Lemma clean_address_shape (df df' : DataFrame) :
  clean_address df = Ok df' -> same_shape df' df.
Proof.
  unfold clean_address. intros H.
  apply bind_Ok in H. destruct H as [a [Ha H]].
  apply bind_Ok in H. destruct H as [a' [_ H]].
  injection H as <-. exact (setitem_shape _ _ _ _ Ha).
Qed.



Lemma clean_dates_shape (date_columns : list string) (df df' : DataFrame) :
  clean_dates df date_columns = Ok df' -> same_shape df' df.
Proof.
  revert df. induction date_columns as [|col cols IH]; simpl; intros df H.
  - injection H as <-. split; reflexivity.
  - apply bind_Ok in H. destruct H as [c1 [H1 H]].
    apply bind_Ok in H. destruct H as [c2 [_ H]].
    apply (same_shape_trans _ _ _ (IH _ H)). exact (setitem_shape _ _ _ _ H1).
Qed.

Lemma clean_locality_shape (df df' : DataFrame) :
  clean_locality df = Ok df' -> same_shape df' df.
Proof.
  unfold clean_locality. intros H.
  apply bind_Ok in H. destruct H as [c1 [H1 H]].
  injection H as <-. exact (setitem_shape _ _ _ _ H1).
Qed.

Lemma clean_staff_numbers_shape (df df' : DataFrame) :
  clean_staff_numbers df = Ok df' -> same_shape df' df.
Proof.
  unfold clean_staff_numbers. intros H.
  apply bind_Ok in H. destruct H as [c1 [H1 H]]. cbv zeta in H.
  apply bind_Ok in H. destruct H as [c2 [H2 H]].
  injection H as <-.
  apply (same_shape_trans _ _ _ (setitem_shape _ _ _ _ H2)).
  exact (setitem_shape _ _ _ _ H1).
Qed.

Lemma clean_categorical_columns_shape (df df' : DataFrame) :
  clean_categorical_columns df = Ok df' -> same_shape df' df.
Proof.
  unfold clean_categorical_columns. intros H.
  apply bind_Ok in H. destruct H as [c1 [H1 H]]. cbv zeta in H.
  apply bind_Ok in H. destruct H as [c2 [H2 H]]. cbv zeta in H.
  apply bind_Ok in H. destruct H as [c3 [H3 H]]. cbv zeta in H.
  apply bind_Ok in H. destruct H as [c4 [H4 H]].
  injection H as <-.
  apply (same_shape_trans _ _ _ (setitem_shape _ _ _ _ H4)).
  apply (same_shape_trans _ _ _ (setitem_shape _ _ _ _ H3)).
  apply (same_shape_trans _ _ _ (setitem_shape _ _ _ _ H2)).
  exact (setitem_shape _ _ _ _ H1).
Qed.

Lemma merge_latitude_columns_shape (df df' : DataFrame) :
  merge_latitude_columns df = Ok df' ->
  columns df' = filter (fun c => negb (Pd.mem c ["lat"])) (columns df)
  /\ List.length (rows df') = List.length (rows df).
Proof.
  unfold merge_latitude_columns. intros H.
  apply bind_Ok in H. destruct H as [c1 [H1 H]].
  apply bind_Ok in H. destruct H as [c2 [_ H]]. cbv zeta in H.
  apply drop_Ok in H. subst df'. cbn [columns rows].
  destruct (setitem_shape "latitude" df c1 (Frame.combine_first c1 c2) H1)
    as [Hc Hr].
  rewrite Hc, length_map, Hr. split; reflexivity.
Qed.

Lemma store_code_filter_run (df df' : DataFrame) :
  remove_invalid_rows_excluding_store_code df = Ok df' ->
  exists i,
    Pd.loc "store_code" df = Ok i
    /\ df' = mkDF (columns df)
               (filter (fun r => negb (isna (Pd.at_ i r))) (rows df)).
Proof.
  unfold remove_invalid_rows_excluding_store_code, Pd.getitem. intros H.
  destruct (Pd.loc "store_code" df) as [i|]; [|discriminate].
  exists i. split; [reflexivity|]. simpl in H. injection H as <-.
  unfold Pd.getitem_mask. rewrite store_code_mask, select_map_filter. reflexivity.
Qed.

Lemma remove_invalid_rows_pattern_free (df : DataFrame) :
  pattern_free (remove_invalid_rows df).
Proof.
  intros r x Hr Hx. rewrite remove_invalid_rows_rows in Hr.
  apply filter_In in Hr. destruct Hr as [_ Hr]. apply negb_true_iff in Hr.
  unfold row_is_invalid in Hr.
  destruct (is_invalid_pattern x) eqn:E; [|reflexivity].
  assert (Hex : existsb is_invalid_pattern r = true)
    by (apply existsb_exists; exists x; split; [exact Hx | exact E]).
  rewrite Hex in Hr. discriminate.
Qed.





(** The store pipeline, and the comma rule that [stores_clean] runs on its
    result.  Whenever [clean_store_details] returns a table, its columns
    are those of the input without [lat], in order; it has at most as
    many rows as the input; and no row is without its store code.  After
    the comma rule the same holds, and the rule changes no cell a second
    time. *)
Theorem clean_store_details_drops_lat_and_missing_codes (df df' : DataFrame) :
  clean_store_details df = Ok df' ->
  (columns df' = filter (fun c => negb (Pd.mem c ["lat"])) (columns df)
   /\ List.length (rows df') <= List.length (rows df)
   /\ exists i, Pd.loc "store_code" df' = Ok i
                /\ forall r, In r (rows df') -> Pd.at_ i r <> NaN)
  /\ (exists df'',
        stores_clean df = Ok df''
        /\ columns df'' = columns df'
        /\ List.length (rows df'') = List.length (rows df')
        /\ (forall r x, In r (rows df'') -> In x r -> comma_lambda x = x)
        /\ (forall i r, Pd.loc "store_code" df'' = Ok i -> In r (rows df'') ->
              Pd.at_ i r <> NaN)).
Proof.
  intros H.
  assert (Hmain :
    columns df' = filter (fun c => negb (Pd.mem c ["lat"])) (columns df)
    /\ List.length (rows df') <= List.length (rows df)
    /\ exists i, Pd.loc "store_code" df' = Ok i
                 /\ forall r, In r (rows df') -> Pd.at_ i r <> NaN).
  { unfold clean_store_details in H. cbv zeta in H. unfold clean_store_code in H.
    apply bind_Ok in H. destruct H as [d1 [H1 H]].
    apply bind_Ok in H. destruct H as [d2 [H2 H]].
    apply bind_Ok in H. destruct H as [d3 [H3 H]].
    apply bind_Ok in H. destruct H as [d4 [H4 H]].
    apply bind_Ok in H. destruct H as [d5 [H5 H]].
    apply bind_Ok in H. destruct H as [d6 [H6 H]].
    destruct (store_code_filter_run _ _ H) as [i [Hi ->]].
    assert (Hs1 : same_shape d1 df).
    { apply (same_shape_trans _ _ _ (clean_address_shape _ _ H1)).
      apply standardize_nulls_shape. }
    destruct (merge_latitude_columns_shape _ _ H2) as [Hc2 Hr2].
    assert (Hs6 : same_shape d6 d2).
    { apply (same_shape_trans _ _ _ (clean_staff_numbers_shape _ _ H6)).
      apply (same_shape_trans _ _ _ (clean_locality_shape _ _ H5)).
      apply (same_shape_trans _ _ _ (clean_categorical_columns_shape _ _ H4)).
      exact (clean_dates_shape _ _ _ H3). }
    cbn [columns rows]. split; [|split].
    - rewrite (proj1 Hs6), Hc2, (proj1 Hs1). reflexivity.
    - etransitivity; [apply filter_length_le|].
      rewrite (proj2 Hs6), Hr2, (proj2 Hs1). apply le_n.
    - exists i. split; [exact Hi|]. intros r Hr. apply filter_In in Hr.
      destruct Hr as [_ Hr]. intros E. rewrite E in Hr. discriminate. }
  split; [exact Hmain|].
  unfold stores_clean. rewrite H. unfold bind. eexists. split; [reflexivity|].
  unfold Pd.applymap. cbn [columns rows]. split; [reflexivity|].
  split; [apply length_map|]. split.
  - intros r x Hr Hx. apply in_map_iff in Hr. destruct Hr as [r0 [<- _]].
    apply in_map_iff in Hx. destruct Hx as [x0 [<- _]].
    destruct x0 as [|s0|q|t]; simpl; try reflexivity.
    unfold Text.comma_space.
    rewrite (proj1 (comma_space_from_twice s0 false)). reflexivity.
  - intros i r Hi Hr. destruct Hmain as [_ [_ [i' [Hi' Hcode]]]].
    change (Pd.loc "store_code" df' = Ok i) in Hi. rewrite Hi' in Hi.
    injection Hi as ->. apply in_map_iff in Hr. destruct Hr as [r0 [<- Hr0]].
    specialize (Hcode r0 Hr0). unfold Pd.at_ in *.
    change NaN with (comma_lambda NaN) at 1. rewrite map_nth.
    destruct (nth i r0 NaN); simpl; try discriminate.
    exfalso. apply Hcode. reflexivity.
Qed.

(** *** The two orders of the card steps *)

Lemma pattern_has_no_question_mark (s : string) :
  is_invalid_pattern (Str s) = true -> Text.remove_char "?" s = s.
Proof.
  simpl. rewrite !andb_true_iff. intros [[[_ Halnum] _] _].
  unfold Py.isalnum in Halnum. apply andb_true_iff in Halnum.
  destruct Halnum as [_ Hall]. unfold Text.remove_char.
  rewrite filter_none_dropped; [apply of_chars_chars|].
  intros c Hc. rewrite forallb_forall in Hall. specialize (Hall c Hc).
  destruct (Ascii.eqb c "?") eqn:E; [|reflexivity].
  apply Ascii.eqb_eq in E. subst c. discriminate Hall.
Qed.

Lemma question_mark_is_no_pattern (s : string) :
  is_invalid_pattern (Str (String "?" s)) = false.
Proof.
  simpl. destruct (String.length s =? 9); reflexivity.
Qed.

(** [card_details_clean] of src/main.py cleans the card number before it
    filters the rows, [clean_card_details] after.  So the first never
    returns a cell that is the ten-character pattern, and the second
    does: a card number that is a question mark followed by such a
    pattern passes the filter and is then cleaned into the pattern, where
    the first drops the row.  On a table without rows that has the date
    column, [clean_card_details] raises on [card_number], which the
    filter has taken away with every other column. *)
Theorem card_number_cleaned_before_or_after_filter :
  (forall df df', card_details_clean df = Ok df' -> pattern_free df')
  /\ (forall s t,
        is_invalid_pattern (Str s) = true ->
        let labels := ["card_number"; "date_payment_confirmed"] in
        let df := mkDF labels [[Str (String "?" s); Date t]] in
        clean_card_details df = Ok (mkDF labels [[Str s; Date t]])
        /\ card_details_clean df = Ok (mkDF labels []))
  /\ (forall df,
        rows df = [] -> In "date_payment_confirmed" (columns df) ->
        clean_card_details df = Raise (KeyError "card_number")).
Proof.
  split; [|split].
  - intros df df' H. unfold card_details_clean in H. cbv zeta in H.
    apply bind_Ok in H. destruct H as [d1 [_ H]].
    apply bind_Ok in H. destruct H as [d2 [_ H]].
    injection H as <-. apply remove_invalid_rows_pattern_free.
  - intros s t Hs. cbv zeta.
    pose proof (pattern_has_no_question_mark s Hs) as Hq.
    pose proof (question_mark_is_no_pattern s) as Hn.
    split.
    + unfold clean_card_details. cbv zeta. rewrite standardize_nulls_cells.
      change (map (map standardize_cell) (rows (mkDF _ [[Str (String "?" s); Date t]])))
        with [[Str (String "?" s); Date t]].
      change (clean_dates _ ["date_payment_confirmed"])
        with (Ok (mkDF ["card_number"; "date_payment_confirmed"]
                    [[Str (String "?" s); Date t]])).
      unfold bind, remove_invalid_rows. cbn [rows map row_is_invalid existsb].
      rewrite Hn.
      change (clean_card_number _)
        with (Ok (mkDF ["card_number"; "date_payment_confirmed"]
                    [[Str (Text.remove_char "?" s); Date t]])).
      rewrite Hq. reflexivity.
    + unfold card_details_clean. cbv zeta. rewrite standardize_nulls_cells.
      change (map (map standardize_cell) (rows (mkDF _ [[Str (String "?" s); Date t]])))
        with [[Str (String "?" s); Date t]].
      change (clean_card_number _)
        with (Ok (mkDF ["card_number"; "date_payment_confirmed"]
                    [[Str (Text.remove_char "?" s); Date t]])).
      rewrite Hq. unfold bind at 1.
      change (clean_dates _ ["date_payment_confirmed"])
        with (Ok (mkDF ["card_number"; "date_payment_confirmed"]
                    [[Str s; Date t]])).
      unfold bind, remove_invalid_rows. cbn [rows map row_is_invalid existsb].
      rewrite Hs. reflexivity.
  - intros df Hrows Hdate. unfold clean_card_details. cbv zeta.
    destruct (clean_dates_total ["date_payment_confirmed"] (standardize_nulls df))
      as [d H].
    { intros c [<-|[]]. rewrite (proj1 (standardize_nulls_shape df)). exact Hdate. }
    rewrite H. unfold bind.
    assert (Hd : rows d = []).
    { apply length_zero_iff_nil.
      rewrite (proj2 (clean_dates_shape _ _ _ H)),
        (proj2 (standardize_nulls_shape df)), Hrows. reflexivity. }
    unfold remove_invalid_rows. rewrite Hd. reflexivity.
Qed.

(** *** The order pipeline *)

Lemma convert_data_types_shape (cols : list string) (df df' : DataFrame) :
  convert_data_types df cols = Ok df' -> same_shape df' df.
Proof.
  revert df. induction cols as [|column cols IH]; simpl; intros df H.
  - injection H as <-. split; reflexivity.
  - apply bind_Ok in H. destruct H as [values [Hv H]].
    apply (same_shape_trans _ _ _ (IH _ H)). exact (setitem_shape _ _ _ _ Hv).
Qed.

(** The order pipeline on a table without rows raises: the validity
    filter returns a frame without columns, and [convert_data_types] does
    not find [product_quantity].  Whenever the pipeline returns a table,
    the input had rows and a [product_quantity] column, the columns of
    the result are those of the input without [first_name], [last_name]
    and ['1'], in order, and no row was added. *)
Theorem clean_orders_data_drops_name_columns (df : DataFrame) :
  (rows df = [] -> clean_orders_data df = Raise (KeyError "product_quantity"))
  /\ (forall df',
        clean_orders_data df = Ok df' ->
        rows df <> []
        /\ In "product_quantity" (columns df)
        /\ columns df'
           = filter (fun c => negb (Pd.mem c ["first_name"; "last_name"; "1"]))
               (columns df)
        /\ List.length (rows df') <= List.length (rows df)).
Proof.
  assert (Hempty : rows df = [] ->
                   clean_orders_data df = Raise (KeyError "product_quantity")).
  { intros Hrows. unfold clean_orders_data. cbv zeta.
    rewrite standardize_nulls_cells. unfold remove_invalid_rows. cbn [rows].
    rewrite Hrows. reflexivity. }
  split; [exact Hempty|].
  intros df' H. destruct (rows df) as [|r0 rs] eqn:Erows.
  { rewrite (Hempty eq_refl) in H. discriminate. }
  split; [discriminate|].
  unfold clean_orders_data in H. cbv zeta in H.
  rewrite product_rows_filtered in H by (rewrite Erows; discriminate).
  apply bind_Ok in H. destruct H as [d1 [Hdrop H]].
  unfold drop_columns in Hdrop. apply drop_Ok in Hdrop. cbn [columns rows] in Hdrop.
  pose proof (convert_data_types_shape _ _ _ H) as [Hc Hr].
  simpl in H. apply bind_Ok in H. destruct H as [values [Hv _]].
  apply getitem_Ok_In in Hv. subst d1. cbn [columns rows] in *.
  split; [apply filter_In in Hv; exact (proj1 Hv)|].
  split; [exact Hc|].
  rewrite Hr, length_map. etransitivity; [apply filter_length_le|].
  rewrite length_map, Erows. apply le_n.
Qed.

(** *** The unit of a weight *)

(** [normalize_units] maps every unit text to one of "kg", "g", "liters"
    or the missing value, and maps each of these four to itself.  With a
    number that [float] reads, [convert_to_kilograms] then divides by
    1000 for "g", returns the number for "kg" and "liters", and returns
    the missing value only for a missing unit. *)
Theorem normalize_units_range (u : string) :
  exists c,
    normalize_units (Str u) = Ok c
    /\ In c [NaN; Str "kg"; Str "g"; Str "liters"]
    /\ normalize_units c = Ok c
    /\ (forall n q,
          py_float n = Ok q ->
          convert_to_kilograms ["number"; "unit"] [n; c]
          = Ok (if cell_eq_str c "g" then Num (Qred (q / 1000))
                else if isna c then NaN else Num q)).
Proof.
  assert (Hconv : forall c, In c [NaN; Str "kg"; Str "g"; Str "liters"] ->
            normalize_units c = Ok c
            /\ (forall n q,
                  py_float n = Ok q ->
                  convert_to_kilograms ["number"; "unit"] [n; c]
                  = Ok (if cell_eq_str c "g" then Num (Qred (q / 1000))
                        else if isna c then NaN else Num q))).
  { intros c Hc. simpl in Hc.
    destruct Hc as [<-|[<-|[<-|[<-|[]]]]];
      (split; [reflexivity|]); intros n q Hq;
      rewrite convert_to_kilograms_row, Hq; reflexivity. }
  assert (Hrange : exists c, normalize_units (Str u) = Ok c
                             /\ In c [NaN; Str "kg"; Str "g"; Str "liters"]).
  { unfold normalize_units.
    repeat match goal with
           | |- context [if ?b then _ else _] => destruct b
           end;
      eexists; (split; [reflexivity|]); simpl;
      repeat (first [left; reflexivity | right]). }
  destruct Hrange as [c [Hrun Hin]]. exists c.
  split; [exact Hrun|]. split; [exact Hin|]. exact (Hconv c Hin).
Qed.

End DataCleaning.

(* ===================================================================== *)
(** ** Runs on concrete tables *)
(* ===================================================================== *)

(** C1, refuted as stated.  A store row whose cells are ten-character
    mixed codes, the store code among them, is dropped by the stated rule
    and kept by the code, because its store code is not missing. *)
Lemma store_code_filter_keeps_pattern_row :
  dropped_by_stated_rule 0 [Str "NRQKZWJ9OZ"; Str "1T6B406CI8"] = true
  /\ remove_invalid_rows_excluding_store_code
       (mkDF ["store_code"; "locality"] [[Str "NRQKZWJ9OZ"; Str "1T6B406CI8"]])
     = Ok (mkDF ["store_code"; "locality"] [[Str "NRQKZWJ9OZ"; Str "1T6B406CI8"]]).
Proof. split; reflexivity. Qed.

Lemma remove_invalid_rows_excluding_store_code_witness :
  Pd.loc "store_code"
    (mkDF ["store_code"; "locality"]
       [[Str "WEB-1388012W"; NaN]; [NaN; Str "Kent"];
        [Str "CH-99475026"; Str "1T6B406CI8"]]) = Ok 0
  /\ remove_invalid_rows_excluding_store_code
       (mkDF ["store_code"; "locality"]
          [[Str "WEB-1388012W"; NaN]; [NaN; Str "Kent"];
           [Str "CH-99475026"; Str "1T6B406CI8"]])
     = Ok (mkDF ["store_code"; "locality"]
             [[Str "WEB-1388012W"; NaN]; [Str "CH-99475026"; Str "1T6B406CI8"]]).
Proof.
  split; [reflexivity|].
  apply (remove_invalid_rows_excluding_store_code_drops_missing
           (mkDF ["store_code"; "locality"]
              [[Str "WEB-1388012W"; NaN]; [NaN; Str "Kent"];
               [Str "CH-99475026"; Str "1T6B406CI8"]]) 0).
  reflexivity.
Defined.

Lemma clean_dates_reads_month_first_witness :
  Generic.default_text "01/04/2023" = Some (date 2023 1 4)
  /\ clean_dates_lambda Generic.default_text (fun _ => None) (Str "01/04/2023")
     = Ok (Date (date 2023 1 4))
  /\ parse_non_standard_dates Generic.default_text (fun _ => None) (Str "01/04/2023")
     = Ok (Date (date 2023 4 1)).
Proof.
  split; [vm_compute; reflexivity|].
  apply (clean_dates_reads_month_first Generic.default_text (fun _ => None)).
  vm_compute. reflexivity.
Defined.

(** The four literal date cases through [clean_dates], with the generic
    parser reading the shapes of [Generic.default_text]. *)
Lemma clean_dates_literal_cases :
  clean_dates Generic.default_text (fun _ => None)
    (mkDF ["date_added"]
       [[Str "2023-04-01"]; [Str "01/04/2023"]; [Str "04/23"]; [Str "not-a-date"]])
    ["date_added"]
  = Ok (mkDF ["date_added"]
          [[Date (date 2023 4 1)]; [Date (date 2023 1 4)];
           [Date (date 2023 4 1)]; [NaN]]).
Proof. vm_compute. reflexivity. Qed.

(** C5, refuted as stated.  A date event whose day does not exist in its
    month makes [combine_datetime_columns] raise; the same event with a
    day that exists is combined. *)
Lemma combine_datetime_columns_raises_on_bad_day :
  combine_datetime_columns (fun _ => "") (fun _ => "") Generic.default_text
    (fun _ => None)
    (mkDF ["timestamp"; "month"; "year"; "day"; "time_period"]
       [[Str "22:10:04"; Str "2"; Str "2012"; Str "30"; Str "Evening"]])
  = Raise ValueError
  /\ combine_datetime_columns (fun _ => "") (fun _ => "") Generic.default_text
       (fun _ => None)
       (mkDF ["timestamp"; "month"; "year"; "day"; "time_period"]
          [[Str "22:10:04"; Str "2"; Str "2012"; Str "19"; Str "Evening"]])
     = Ok (mkDF ["time_period"; "datetime"]
             [[Str "Evening"; Date (mkTs 2012 2 19 22 10 4)]]).
Proof. split; vm_compute; reflexivity. Qed.

Lemma cell_failures_recovered_except_in_combine_witness :
  (exists df',
      clean_dates Generic.default_text (fun _ => None)
        (mkDF ["date_added"] [[Str "not-a-date"]]) ["date_added"] = Ok df')
  /\ (exists c,
        weight_kg_of (Str "abc") = Ok c /\ number_or_missing c)
  /\ (exists df',
        clean_weight_column (mkDF ["weight"] [[Str "abc"]; [NaN]]) = Ok df')
  /\ is_ok
       (combine_datetime_columns (fun _ => "") (fun _ => "") Generic.default_text
          (fun _ => None)
          (mkDF ["timestamp"; "month"; "year"; "day"; "time_period"]
             [[Str "22:10:04"; Str "2"; Str "2012"; Str "30"; Str "Evening"]]))
     = false.
Proof.
  pose proof (cell_failures_recovered_except_in_combine
                (fun _ => "") (fun _ => "") Generic.default_text (fun _ => None))
    as [_ [_ [Hdates [Hweight [Hcolumn Hcombine]]]]].
  split; [|split; [|split]].
  - apply Hdates. intros c [<-|[]]. left. reflexivity.
  - apply Hweight; reflexivity.
  - apply Hcolumn.
    + repeat constructor.
    + discriminate.
    + exists 0. split; [reflexivity|].
      intros r [<-|[<-|[]]]; [right; eexists; reflexivity | left; reflexivity].
  - apply (Hcombine _ 2 1 3 0
             [Str "22:10:04"; Str "2"; Str "2012"; Str "30"; Str "Evening"]
             "22:10:04"); try reflexivity.
    left. reflexivity.
Defined.

Lemma standardize_nulls_idempotent_witness :
  has_sentinel (mkDF ["first_name"; "company"] [[Str "Ada"; NaN]; [Str "Nulla"; Num 3]])
  = false
  /\ standardize_nulls
       (mkDF ["first_name"; "company"] [[Str "Ada"; NaN]; [Str "Nulla"; Num 3]])
     = mkDF ["first_name"; "company"] [[Str "Ada"; NaN]; [Str "Nulla"; Num 3]].
Proof.
  split; [reflexivity|].
  apply (proj2 (standardize_nulls_idempotent
                  (mkDF ["first_name"; "company"]
                     [[Str "Ada"; NaN]; [Str "Nulla"; Num 3]]))).
  reflexivity.
Defined.

Lemma clean_product_data_raises_witness :
  clean_product_data Generic.default_text (fun _ => None) (fun x => x)
    (mkDF ["product_name"; "product_price"; "weight"; "date_added"]
       [[Str "VLPCU81M30"; Str "XCD69KUI0K"; Str "9GO9NZ5JTL"; Str "CCAVRB79VV"]])
  = Raise ValueError.
Proof.
  apply clean_product_data_raises_when_no_row_survives.
  - simpl. tauto.
  - discriminate.
  - intros r [<-|[]]. reflexivity.
Defined.

Lemma clean_country_code_cases_witness :
  Py.any_digit "USA1" = true
  /\ clean_country_code_cell (fun _ => "") (fun _ => "") (Str "USA1") = NaN
  /\ 3 < String.length "GERM"
  /\ clean_country_code_cell (fun _ => "") (fun _ => "") (Str "GERM") = NaN.
Proof.
  pose proof (clean_country_code_cases (fun _ => "") (fun _ => ""))
    as [_ [_ [_ [Hdigit [Hlong _]]]]].
  split; [reflexivity|]. split; [apply (Hdigit (Str "USA1")); reflexivity|].
  split; [simpl; lia|]. apply (Hlong (Str "GERM")). simpl. lia.
Defined.

Lemma clean_phone_number_missing_becomes_empty_witness :
  Pd.loc "phone_number" (mkDF ["first_name"; "phone_number"]
                           [[Str "Ada"; NaN]; [Str "Bob"; Str "+44 (0)20 7946 0958"]])
  = Ok 1
  /\ exists df',
       clean_phone_number (fun _ => "") (fun _ => "")
         (mkDF ["first_name"; "phone_number"]
            [[Str "Ada"; NaN]; [Str "Bob"; Str "+44 (0)20 7946 0958"]]) = Ok df'
       /\ rows df' = [[Str "Ada"; Str ""]; [Str "Bob"; Str "4402079460958"]].
Proof.
  split; [reflexivity|].
  destruct (clean_phone_number_missing_becomes_empty (fun _ => "") (fun _ => "")
              (mkDF ["first_name"; "phone_number"]
                 [[Str "Ada"; NaN]; [Str "Bob"; Str "+44 (0)20 7946 0958"]]) 1
              eq_refl) as [df' [Hrun [_ [Hrows _]]]].
  exists df'. split; [exact Hrun|]. rewrite Hrows. reflexivity.
Defined.

Lemma drop_columns_ignores_absent_witness :
  Pd.wf (mkDF ["first_name"; "product_quantity"] [[Str "Ada"; Str "3"]])
  /\ exists df',
       drop_columns (mkDF ["first_name"; "product_quantity"] [[Str "Ada"; Str "3"]])
         ["first_name"; "last_name"; "1"] = Ok df'
       /\ Pd.wf df'
       /\ Pd.getitem "product_quantity" df' = Ok [Str "3"].
Proof.
  assert (Hwf : Pd.wf (mkDF ["first_name"; "product_quantity"] [[Str "Ada"; Str "3"]])).
  { split; simpl.
    - repeat constructor; simpl; intuition discriminate.
    - repeat constructor. }
  split; [exact Hwf|].
  destruct (drop_columns_ignores_absent
              (mkDF ["first_name"; "product_quantity"] [[Str "Ada"; Str "3"]])
              ["first_name"; "last_name"; "1"]) as [df' [Hrun [_ [_ [_ Hkeep]]]]].
  destruct (Hkeep Hwf) as [Hwf' Hcol].
  exists df'. split; [exact Hrun|]. split; [exact Hwf'|].
  rewrite Hcol; [reflexivity|]. simpl. intuition discriminate.
Defined.

(** *** Runs of the other cleaners *)


Lemma clean_card_number_strips_question_marks_witness :
  exists df',
    clean_card_number
      (mkDF ["card_number"; "card_provider"]
         [[Str "???4971858637664481"; Str "VISA 16 digit"];
          [Num 30060773296197; Str "Diners Club / Carte Blanche"]])
    = Ok df'
    /\ rows df' = [[Str "4971858637664481"; Str "VISA 16 digit"];
                   [Num 30060773296197; Str "Diners Club / Carte Blanche"]].
Proof.
  destruct (clean_card_number_strips_question_marks
              (mkDF ["card_number"; "card_provider"]
                 [[Str "???4971858637664481"; Str "VISA 16 digit"];
                  [Num 30060773296197; Str "Diners Club / Carte Blanche"]])
              0 eq_refl) as [df' [Hrun [_ [Hrows _]]]].
  exists df'. split; [exact Hrun|]. rewrite Hrows. reflexivity.
Defined.

Lemma clean_locality_keeps_digit_free_text_witness :
  exists df',
    clean_locality
      (mkDF ["locality"] [[Str "High Wycombe"]; [Str "9IBH8Y4Z0S"]; [Num 3]; [NaN]])
    = Ok df'
    /\ rows df' = [[Str "High Wycombe"]; [NaN]; [NaN]; [NaN]].
Proof.
  destruct (clean_locality_keeps_digit_free_text
              (mkDF ["locality"]
                 [[Str "High Wycombe"]; [Str "9IBH8Y4Z0S"]; [Num 3]; [NaN]])
              0 eq_refl) as [df' [Hrun [_ [Hrows _]]]].
  exists df'. split; [exact Hrun|]. rewrite Hrows. reflexivity.
Defined.

Lemma clean_staff_numbers_digits_or_missing_witness :
  exists df',
    clean_staff_numbers (fun _ => "") (fun _ => "")
      (mkDF ["staff_numbers"] [[Str "3n9"]; [Str "J78"]; [Str "abc"]; [NaN]])
    = Ok df'
    /\ rows df' = [[Str "39"]; [Str "78"]; [NaN]; [NaN]].
Proof.
  destruct (clean_staff_numbers_digits_or_missing (fun _ => "") (fun _ => "")
              (mkDF ["staff_numbers"] [[Str "3n9"]; [Str "J78"]; [Str "abc"]; [NaN]])
              0 eq_refl) as [df' [Hrun [_ [Hrows _]]]].
  exists df'. split; [exact Hrun|]. rewrite Hrows. reflexivity.
Defined.

Lemma clean_categorical_columns_digit_free_witness :
  exists df',
    clean_categorical_columns (fun _ => "") (fun _ => "")
      (mkDF ["store_type"; "country_code"; "continent"]
         [[Str "Local"; Str "GB"; Str "eeEurope"];
          [Str "O0QJIRC943"; Str "YELVM536YT"; Str "QMAVR5H3LD"]])
    = Ok df'
    /\ rows df' = [[Str "Local"; Str "GB"; Str "Europe"]; [NaN; NaN; NaN]].
Proof.
  destruct (clean_categorical_columns_digit_free (fun _ => "") (fun _ => "")
              (mkDF ["store_type"; "country_code"; "continent"]
                 [[Str "Local"; Str "GB"; Str "eeEurope"];
                  [Str "O0QJIRC943"; Str "YELVM536YT"; Str "QMAVR5H3LD"]])
              0 1 2 eq_refl eq_refl eq_refl) as [df' [Hrun [_ [Hrows _]]]].
  exists df'. split; [exact Hrun|]. rewrite Hrows. reflexivity.
Defined.

Lemma merge_latitude_columns_prefers_latitude_witness :
  merge_latitude_columns (mkDF ["lat"; "store_code"] [[NaN; Str "HI-9B97EE4E"]])
  = Raise (KeyError "latitude")
  /\ merge_latitude_columns (mkDF ["latitude"; "store_code"] [[NaN; Str "HI-9B97EE4E"]])
     = Raise (KeyError "lat")
  /\ exists df',
       merge_latitude_columns
         (mkDF ["lat"; "store_code"; "latitude"]
            [[Str "13.1"; Str "HI-9B97EE4E"; Str "-0.74934"];
             [Str "50.1"; Str "AB-12345678"; NaN]])
       = Ok df'
       /\ columns df' = ["store_code"; "latitude"]
       /\ Pd.getitem "latitude" df' = Ok [Str "-0.74934"; Str "50.1"].
Proof.
  split; [|split].
  - apply (proj1 (merge_latitude_columns_prefers_latitude _)).
    simpl. intros [H|[H|[]]]; discriminate H.
  - apply (proj1 (proj2 (merge_latitude_columns_prefers_latitude _))).
    + left. reflexivity.
    + simpl. intros [H|[H|[]]]; discriminate H.
  - destruct (proj2 (proj2 (merge_latitude_columns_prefers_latitude
                              (mkDF ["lat"; "store_code"; "latitude"]
                                 [[Str "13.1"; Str "HI-9B97EE4E"; Str "-0.74934"];
                                  [Str "50.1"; Str "AB-12345678"; NaN]])))
                2 0) as [df' [Hrun [Hcols [_ [_ [Hlat _]]]]]].
    + repeat constructor.
    + reflexivity.
    + reflexivity.
    + exists df'. split; [exact Hrun|]. split; [rewrite Hcols; reflexivity|].
      rewrite Hlat. reflexivity.
Defined.


Lemma remove_null_rows_drops_incomplete_rows_witness :
  remove_null_rows (mkDF ["day"; "month"] [[Str "19"; Str "9"]])
  = Raise (KeyError "timestamp")
  /\ exists df',
       remove_null_rows
         (mkDF ["timestamp"; "month"; "year"; "day"]
            [[Str "22:00:06"; Str "9"; Str "2012"; Str "19"];
             [Str "NULL"; Str "2"; Str "1997"; Str "10"];
             [Str "10:15:00"; Str "7"; NaN; Str "4"]])
       = Ok df'
       /\ rows df' = [[Str "22:00:06"; Str "9"; Str "2012"; Str "19"]].
Proof.
  split.
  - apply (proj1 (remove_null_rows_drops_incomplete_rows _)).
    simpl. intros [H|[H|[]]]; discriminate H.
  - destruct (proj2 (remove_null_rows_drops_incomplete_rows
                       (mkDF ["timestamp"; "month"; "year"; "day"]
                          [[Str "22:00:06"; Str "9"; Str "2012"; Str "19"];
                           [Str "NULL"; Str "2"; Str "1997"; Str "10"];
                           [Str "10:15:00"; Str "7"; NaN; Str "4"]]))
                0 3 1 2 eq_refl eq_refl eq_refl eq_refl)
      as [df' [Hrun [_ [Hrows _]]]].
    exists df'. split; [exact Hrun|]. rewrite Hrows. reflexivity.
Defined.

Lemma reformat_json_to_df_one_row_per_key_witness :
  reformat_json_to_df date_events_example
  = Ok (mkDF date_event_columns
          [[Str "22:00:06"; Str "9"; Str "2012"; Str "19"; Str "Evening";
            Str "3b7ca996-37f9-433f-b6d0-ce8391b615ad"];
           [Str "NULL"; Str "2"; Str "1997"; Str "10"; Str "Morning";
            Str "adc86836-6c35-49ca-bb0d-65b6507a00fa"];
           [Str "10:15:00"; Str "7"; Str "2001"; Str "4"; Str "Morning";
            Str "NRQKZWJ9OZ"]])
  /\ reformat_json_to_df [("month", [("0", Str "9")])] = Raise (KeyError "timestamp")
  /\ is_ok (reformat_json_to_df
              [("timestamp", [("0", Str "22:00:06"); ("1", Str "10:15:00")]);
               ("month", [("0", Str "9")])]) = false.
Proof.
  split; [|split].
  - rewrite (proj1 (proj2 (proj2 (reformat_json_to_df_one_row_per_key
                                    date_events_example)))
               [("0", Str "22:00:06"); ("1", Str "NULL"); ("2", Str "10:15:00")]
               [("0", Str "9"); ("1", Str "2"); ("2", Str "7")]
               [("0", Str "2012"); ("1", Str "1997"); ("2", Str "2001")]
               [("0", Str "19"); ("1", Str "10"); ("2", Str "4")]
               [("0", Str "Evening"); ("1", Str "Morning"); ("2", Str "Morning")]
               [("0", Str "3b7ca996-37f9-433f-b6d0-ce8391b615ad");
                ("1", Str "adc86836-6c35-49ca-bb0d-65b6507a00fa");
                ("2", Str "NRQKZWJ9OZ")]
               eq_refl eq_refl eq_refl eq_refl eq_refl eq_refl).
    + reflexivity.
    + intros k m Hk Hm. simpl in Hk.
      destruct Hk as [<-|[<-|[<-|[]]]];
        destruct Hm as [<-|[<-|[<-|[<-|[<-|[]]]]]]; reflexivity.
  - apply (proj1 (reformat_json_to_df_one_row_per_key _)). reflexivity.
  - apply (proj2 (proj2 (proj2 (reformat_json_to_df_one_row_per_key _)))
             [("0", Str "22:00:06"); ("1", Str "10:15:00")] "1" "month").
    + reflexivity.
    + right. left. reflexivity.
    + left. reflexivity.
    + reflexivity.
Defined.

Lemma clean_date_events_data_shape_witness :
  exists df',
    clean_date_events_data (fun _ => "") (fun _ => "") Generic.default_text
      (fun _ => None) date_events_example = Ok df'
    /\ columns df' = ["time_period"; "date_uuid"; "datetime"]
    /\ List.length (rows df') <= 3.
Proof.
  assert (Hrun : exists df',
             clean_date_events_data (fun _ => "") (fun _ => "") Generic.default_text
               (fun _ => None) date_events_example = Ok df')
    by (eexists; vm_compute; reflexivity).
  destruct Hrun as [df' Hrun]. exists df'. split; [exact Hrun|].
  destruct (clean_date_events_data_shape _ _ _ _ _ _ Hrun) as [Hcols [_ Hlen]].
  split; [exact Hcols|]. exact (Hlen _ eq_refl).
Defined.

Lemma clean_date_events_data_raises_witness :
  clean_date_events_data (fun _ => "") (fun _ => "") Generic.default_text
    (fun _ => None)
    [("timestamp", [("0", Str "NULL")]); ("month", [("0", Str "9")]);
     ("year", [("0", Str "2012")]); ("day", [("0", Str "19")]);
     ("time_period", [("0", Str "Evening")]); ("date_uuid", [("0", Str "3b7ca996")])]
  = Raise (KeyError "year")
  /\ clean_date_events_data (fun _ => "") (fun _ => "") Generic.default_text
       (fun _ => None) [("timestamp", [])]
     = Raise (KeyError "timestamp").
Proof.
  split.
  - refine (proj2 (clean_date_events_data_raises_when_no_record_is_complete
                     (fun _ => "") (fun _ => "") Generic.default_text (fun _ => None)
                     [("timestamp", [("0", Str "NULL")]); ("month", [("0", Str "9")]);
                      ("year", [("0", Str "2012")]); ("day", [("0", Str "19")]);
                      ("time_period", [("0", Str "Evening")]);
                      ("date_uuid", [("0", Str "3b7ca996")])]
                     (mkDF date_event_columns
                        [[Str "NULL"; Str "9"; Str "2012"; Str "19"; Str "Evening";
                          Str "3b7ca996"]])
                     _ _) _).
    + reflexivity.
    + intros r [<-|[]]. exists 0. split; [left; reflexivity | right; reflexivity].
    + discriminate.
  - refine (proj1 (clean_date_events_data_raises_when_no_record_is_complete
                     (fun _ => "") (fun _ => "") Generic.default_text (fun _ => None)
                     [("timestamp", [])] (mkDF [] []) _ _) _).
    + reflexivity.
    + intros r [].
    + reflexivity.
Defined.

Lemma comma_lambda_normalises_commas_witness :
  comma_lambda (Str "Flat 72W,Sally isle,   East Deantown")
  = Str "Flat 72W, Sally isle, East Deantown"
  /\ comma_lambda (Str "Flat 72W,Sally isle,   East Deantown")
     = comma_lambda (Str "Flat 72W,Sally isle,East Deantown")
  /\ comma_lambda (Str "High Wycombe") = Str "High Wycombe"
  /\ comma_lambda (Num 3) = Num 3.
Proof.
  destruct comma_lambda_normalises_commas as [_ [Hnone [Hspace Hother]]].
  split; [reflexivity|]. split; [|split].
  - apply (Hspace "Flat 72W,Sally isle" "   " "East Deantown"). reflexivity.
  - apply Hnone. reflexivity.
  - apply Hother. reflexivity.
Defined.

Lemma parse_s3_uri_bucket_and_key_witness :
  _parse_s3_uri "s3://data-handling-public/products.csv"
  = Some ("data-handling-public", "products.csv")
  /\ _parse_s3_uri "s3://data-handling-public/2024/products.csv"
     = Some ("data-handling-public", "2024/products.csv")
  /\ _parse_s3_uri "s3://data-handling-public" = Some ("data-handling-public", "")
  /\ _parse_s3_uri "s3:/products.csv" = None.
Proof.
  destruct parse_s3_uri_bucket_and_key as [Hkey [Hbucket Hnone]].
  split; [|split; [|split]].
  - apply (Hkey "s3:" "" "data-handling-public" "products.csv"); reflexivity.
  - apply (Hkey "s3:" "" "data-handling-public" "2024/products.csv"); reflexivity.
  - apply (Hbucket "s3:" "" "data-handling-public"); reflexivity.
  - apply (proj2 (Hnone "s3:/products.csv")). unfold count_slash. simpl. lia.
Defined.


Lemma clean_store_details_witness :
  exists df',
    clean_store_details (fun _ => "") (fun _ => "") Generic.default_text
      (fun _ => None) stores_example = Ok df'
    /\ columns df'
       = ["address"; "longitude"; "locality"; "store_code"; "staff_numbers";
          "opening_date"; "store_type"; "latitude"; "country_code"; "continent"]
    /\ List.length (rows df') <= 3.
Proof.
  assert (Hrun : exists df',
             clean_store_details (fun _ => "") (fun _ => "") Generic.default_text
               (fun _ => None) stores_example = Ok df')
    by (eexists; vm_compute; reflexivity).
  destruct Hrun as [df' Hrun]. exists df'. split; [exact Hrun|].
  destruct (clean_store_details_drops_lat_and_missing_codes _ _ _ _ _ _ Hrun)
    as [[Hcols [Hlen _]] _].
  split; [rewrite Hcols; reflexivity | exact Hlen].
Defined.

Lemma card_number_cleaned_before_or_after_filter_witness :
  clean_card_details Generic.default_text (fun _ => None)
    (mkDF ["card_number"; "date_payment_confirmed"]
       [[Str "?NRQKZWJ9OZ"; Date (date 2015 11 25)]])
  = Ok (mkDF ["card_number"; "date_payment_confirmed"]
          [[Str "NRQKZWJ9OZ"; Date (date 2015 11 25)]])
  /\ card_details_clean Generic.default_text (fun _ => None)
       (mkDF ["card_number"; "date_payment_confirmed"]
          [[Str "?NRQKZWJ9OZ"; Date (date 2015 11 25)]])
     = Ok (mkDF ["card_number"; "date_payment_confirmed"] [])
  /\ clean_card_details Generic.default_text (fun _ => None)
       (mkDF ["card_number"; "date_payment_confirmed"] [])
     = Raise (KeyError "card_number").
Proof.
  destruct (card_number_cleaned_before_or_after_filter Generic.default_text
              (fun _ => None)) as [_ [Horder Hempty]].
  destruct (Horder "NRQKZWJ9OZ" (date 2015 11 25) eq_refl) as [Hclass Hmain].
  split; [exact Hclass|]. split; [exact Hmain|].
  apply Hempty; [reflexivity|]. right. left. reflexivity.
Defined.

Lemma clean_orders_data_returns_witness :
  exists df',
    clean_orders_data (fun x => x)
      (mkDF ["first_name"; "product_quantity"] [[Str "Ada"; Str "3"]]) = Ok df'.
Proof.
  apply clean_orders_data_returns.
  - discriminate.
  - right. left. reflexivity.
Defined.


Lemma clean_orders_data_drops_name_columns_witness :
  clean_orders_data (fun x => x) (mkDF ["first_name"; "product_quantity"] [])
  = Raise (KeyError "product_quantity")
  /\ exists df',
       clean_orders_data (fun x => x)
         (mkDF ["first_name"; "product_quantity"; "1"] [[Str "Ada"; Str "3"; NaN]])
       = Ok df'
       /\ columns df' = ["product_quantity"].
Proof.
  split.
  - apply (proj1 (clean_orders_data_drops_name_columns (fun x => x) _)). reflexivity.
  - assert (Hrun : exists df',
               clean_orders_data (fun x => x)
                 (mkDF ["first_name"; "product_quantity"; "1"]
                    [[Str "Ada"; Str "3"; NaN]]) = Ok df')
      by (eexists; vm_compute; reflexivity).
    destruct Hrun as [df' Hrun]. exists df'. split; [exact Hrun|].
    destruct (proj2 (clean_orders_data_drops_name_columns (fun x => x) _) df' Hrun)
      as [_ [_ [Hcols _]]].
    rewrite Hcols. reflexivity.
Defined.

Lemma normalize_units_range_witness :
  exists c,
    normalize_units (Str "ML") = Ok c
    /\ convert_to_kilograms ["number"; "unit"] [Str "500"; c] = Ok (Num (1 # 2)).
Proof.
  destruct (normalize_units_range "ML") as [c [Hrun [_ [_ Hconv]]]].
  exists c. split; [exact Hrun|].
  rewrite (Hconv (Str "500") (500 # 1) eq_refl).
  assert (Hc : Ok c = Ok (Str "g")) by (rewrite <- Hrun; reflexivity).
  injection Hc as ->. reflexivity.
Defined.
